(** * The scene manager of the CS-330 course projects

    A shallow embedding of [SceneManager.cpp] (the texture registry, the
    material lookup, the transform composer and the scene script) together
    with the properties its specification states about them.

    The C++ methods mutate the [SceneManager] object and talk to three
    external collaborators: the OpenGL context, the [ShaderManager] and the
    [ShapeMeshes] object.  A method is embedded as a function from the
    world before the call to its outcome: the returned value, the world
    after the call and the list of calls it issued to the collaborators,
    in program order. *)

From Stdlib Require Import ZArith QArith Lia.
From stdpp Require Import base list strings.

Local Open Scope Z_scope.

(** ** Numeric types of the graphics mathematics library

    [glm] is an external library and the arithmetic is binary floating
    point.  The development is parametric in both: nothing below assumes
    any law about the operations. *)

Record vec2 (T : Type) : Type := glm_vec2 { v2_x : T; v2_y : T }.
Record vec3 (T : Type) : Type := glm_vec3 { v3_x : T; v3_y : T; v3_z : T }.
Record vec4 (T : Type) : Type := glm_vec4 { r : T; g : T; b : T; a : T }.
Arguments glm_vec2 {T} _ _.
Arguments glm_vec3 {T} _ _ _.
Arguments glm_vec4 {T} _ _ _ _.

Class GLM : Type := {
  (** the C++ type [float] *)
  float : Type;
  (** the [float] denoted by a decimal literal such as [0.25f], or obtained
      from an [int] argument such as [1] by the implicit conversion *)
  f32 : Q -> float;
  (** [glm::mat4] and its [operator*] *)
  mat4 : Type;
  mat4_mul : mat4 -> mat4 -> mat4;
  (** [glm::radians], [glm::scale], [glm::rotate], [glm::translate] of
      [glm/gtx/transform.hpp] *)
  glm_radians : float -> float;
  glm_scale : vec3 float -> mat4;
  glm_rotate : float -> vec3 float -> mat4;
  glm_translate : vec3 float -> mat4
}.

Declare Scope mat4_scope.
Delimit Scope mat4_scope with mat4.
Infix "*" := mat4_mul (at level 40, left associativity) : mat4_scope.

(** ** Data model *)

(** 32-bit integer conversions: a [GLuint] is a [Z] in [0, 2^32), an [int]
    a [Z] in [-2^31, 2^31). *)
Definition GLuint_of_int (v : Z) : Z := v mod 2 ^ 32.

Definition int_of_GLuint (v : Z) : Z :=
  let u := v mod 2 ^ 32 in
  if u <? 2 ^ 31 then u else u - 2 ^ 32.

(** Modelled from the spec: [TEXTURE_INFO] is declared in SceneManager.h,
    which is not part of the sources; the spec gives the entry as a tag and
    an opaque GPU handle.  The field [ID] is passed by address to
    [glGenTextures], so it is a [GLuint]. *)
Module TextureInfo.
Record TEXTURE_INFO : Type := mk { tag : string; ID : Z }.
End TextureInfo.
Abbreviation TEXTURE_INFO := TextureInfo.TEXTURE_INFO.

Global Instance TEXTURE_INFO_inhabited : Inhabited TEXTURE_INFO :=
  populate (TextureInfo.mk "" 0).

(** Modelled from the spec: [OBJECT_MATERIAL] is declared in
    SceneManager.h; its fields are the ones [FindMaterial] copies, plus the
    tag it compares. *)
Module ObjectMaterial.
Record OBJECT_MATERIAL (T : Type) : Type := mk {
  ambientColor : vec3 T;
  ambientStrength : T;
  diffuseColor : vec3 T;
  specularColor : vec3 T;
  shininess : T;
  tag : string
}.
Arguments mk {T} _ _ _ _ _ _.
Arguments ambientColor {T} _.
Arguments ambientStrength {T} _.
Arguments diffuseColor {T} _.
Arguments specularColor {T} _.
Arguments shininess {T} _.
Arguments tag {T} _.
End ObjectMaterial.
Abbreviation OBJECT_MATERIAL := ObjectMaterial.OBJECT_MATERIAL.

(** What [stbi_load] hands back for a file it can decode. *)
Record stb_image : Type := {
  width : Z;
  height : Z;
  colorChannels : Z;
  pixels : list Byte.byte
}.

(** The OpenGL enumerants the scene manager passes. *)
Inductive GLenum : Type :=
| GL_TEXTURE_2D
| GL_TEXTURE_WRAP_S | GL_TEXTURE_WRAP_T
| GL_TEXTURE_MIN_FILTER | GL_TEXTURE_MAG_FILTER
| GL_CLAMP_TO_EDGE | GL_REPEAT | GL_LINEAR
| GL_RGB8 | GL_RGB | GL_RGBA8 | GL_RGBA
| GL_UNSIGNED_BYTE.

(** [GL_TEXTURE0] is the enumerant 0x84C0; texture unit [i] is
    [GL_TEXTURE0 + i]. *)
Definition GL_TEXTURE0 : Z := 33984.

(** The messages written to [std::cout]. *)
Inductive diagnostic : Type :=
| Successfully_loaded_image (filename : string) (width height channels : Z)
| Not_implemented_to_handle_image (channels : Z)
| Could_not_load_image (filename : string).

(** The [ShapeMeshes] methods invoked through [m_basicMeshes]. *)
Inductive mesh_call (T : Type) : Type :=
| LoadPlaneMesh | LoadCylinderMesh | LoadBoxMesh | LoadConeMesh
| LoadSphereMesh | LoadTorusMesh (thickness : T)
| LoadExtraTorusMesh1 (thickness : T)
| DrawPlaneMesh | DrawCylinderMesh | DrawBoxMesh | DrawConeMesh
| DrawSphereMesh | DrawTorusMesh | DrawExtraTorusMesh1
| DrawQuarterTorusMesh (thickness : T).
Arguments LoadPlaneMesh {T}.
Arguments LoadCylinderMesh {T}.
Arguments LoadBoxMesh {T}.
Arguments LoadConeMesh {T}.
Arguments LoadSphereMesh {T}.
Arguments LoadTorusMesh {T} _.
Arguments LoadExtraTorusMesh1 {T} _.
Arguments DrawPlaneMesh {T}.
Arguments DrawCylinderMesh {T}.
Arguments DrawBoxMesh {T}.
Arguments DrawConeMesh {T}.
Arguments DrawSphereMesh {T}.
Arguments DrawTorusMesh {T}.
Arguments DrawExtraTorusMesh1 {T}.
Arguments DrawQuarterTorusMesh {T} _.

Section SceneManager.
Context `{glm : GLM}.

(** A call issued to a collaborator.  [glDeleteTextures] is part of the
    OpenGL interface although no method below issues it. *)
Inductive call : Type :=
(* stb_image *)
| stbi_set_flip_vertically_on_load (flag : bool)
| stbi_load (filename : string)
| stbi_image_free
| cout (message : diagnostic)
(* OpenGL *)
| glGenTextures (n : Z) (texture : Z)
| glDeleteTextures (n : Z) (texture : Z)
| glBindTexture (target : GLenum) (texture : Z)
| glTexParameteri (target pname param : GLenum)
| glTexImage2D (target : GLenum) (level : Z) (internalformat : GLenum)
    (width height border : Z) (format type : GLenum)
    (data : list Byte.byte)
| glGenerateMipmap (target : GLenum)
| glActiveTexture (texture : Z)
| glPolygonOffset (factor units : float)
(* ShaderManager *)
| setMat4Value (name : string) (value : mat4)
| setIntValue (name : string) (value : Z)
| setFloatValue (name : string) (value : float)
| setVec2Value (name : string) (value : vec2 float)
| setVec3Value (name : string) (value : vec3 float)
| setVec4Value (name : string) (value : vec4 float)
| setSampler2DValue (name : string) (slot : Z)
(* ShapeMeshes *)
| basicMeshes (method : mesh_call float).

(** The members of the [SceneManager] object.  [m_basicMeshes] is only
    ever dereferenced to call a method and is left out. *)
Record SceneManager : Type := {
  m_pShaderManager : option N;
  m_textureIDs : list TEXTURE_INFO;
  m_loadedTextures : Z;
  m_objectMaterials : list (OBJECT_MATERIAL float)
}.

(** The object and what the methods observe of its environment: the next
    unused texture name of the OpenGL context and the image files
    [stbi_load] can decode. *)
Record world : Type := {
  this : SceneManager;
  next_texture_name : Z;
  files : string -> option stb_image
}.

Definition with_this (s : SceneManager) (w : world) : world :=
  {| this := s; next_texture_name := next_texture_name w; files := files w |}.

Definition with_textureIDs (ids : list TEXTURE_INFO) (s : SceneManager)
  : SceneManager :=
  {| m_pShaderManager := m_pShaderManager s;
     m_textureIDs := ids;
     m_loadedTextures := m_loadedTextures s;
     m_objectMaterials := m_objectMaterials s |}.

Definition with_loadedTextures (n : Z) (s : SceneManager) : SceneManager :=
  {| m_pShaderManager := m_pShaderManager s;
     m_textureIDs := m_textureIDs s;
     m_loadedTextures := n;
     m_objectMaterials := m_objectMaterials s |}.

(** ** Outcomes and sequencing

    A write through an index outside the array [m_textureIDs] has no
    defined behaviour in C++; the embedding stops there and reports the
    index.  The methods read [m_textureIDs[i]] only for [i] below
    [m_loadedTextures], which is inside the array unless such a write has
    happened; a read is embedded as a total lookup. *)
Inductive outcome (A : Type) : Type :=
| Returns (result : A) (w : world) (issued : list call)
| OutOfBounds (index : Z) (issued : list call).
Arguments Returns {A} _ _ _.
Arguments OutOfBounds {A} _ _.

Definition M (A : Type) : Type := world -> outcome A.

Definition ret {A} (x : A) : M A := fun w => Returns x w [].

Definition bind {A B} (m : M A) (k : A -> M B) : M B := fun w =>
  match m w with
  | Returns x w1 c1 =>
      match k x w1 with
      | Returns y w2 c2 => Returns y w2 (c1 ++ c2)
      | OutOfBounds i c2 => OutOfBounds i (c1 ++ c2)
      end
  | OutOfBounds i c1 => OutOfBounds i c1
  end.

Definition emit (c : call) : M unit := fun w => Returns tt w [c].

Definition get_this : M SceneManager := fun w => Returns (this w) w [].

End SceneManager.

Arguments call {glm}.
Arguments SceneManager {glm}.
Arguments world {glm}.
Arguments M {glm} A.
Arguments outcome {glm} A.
Arguments Returns {glm A} _ _ _.
Arguments OutOfBounds {glm A} _ _.

Declare Scope scene_scope.
Delimit Scope scene_scope with scene.
Notation "x <- m ;; k" := (bind m (fun x => k))
  (at level 100, m at next level, right associativity) : scene_scope.
Notation "m ;; k" := (bind m (fun _ => k))
  (at level 100, right associativity) : scene_scope.

Section Methods.
Context `{glm : GLM}.
Local Open Scope scene_scope.

(** ** Statements shared by the methods *)

(** [while (cond) body] over the local variables [st].  [fuel] bounds the
    number of iterations; each use below comes with a lemma stating that
    the loop condition is false when the iteration stops. *)
Fixpoint while {S : Type} (fuel : nat) (cond : S -> bool) (body : S -> S)
  (st : S) : S :=
  match fuel with
  | O => st
  | S fuel' => if cond st then while fuel' cond body (body st) else st
  end.

(** [for (int i = from; i < bound; i++) body(i)], for a body that leaves
    [bound] alone. *)
Definition for_int (from bound : Z) (body : Z -> M unit) : M unit :=
  foldr (fun i rest => body i ;; rest) (ret tt) (seqZ from (bound - from)).

(** [m_textureIDs[index] = f (m_textureIDs[index])] *)
Definition assign_textureIDs (index : Z) (f : TEXTURE_INFO -> TEXTURE_INFO)
  : M unit := fun w =>
  let ids := m_textureIDs (this w) in
  if (0 <=? index) && (index <? Z.of_nat (length ids)) then
    Returns tt
      (with_this (with_textureIDs (alter f (Z.to_nat index) ids) (this w)) w)
      []
  else OutOfBounds index [].

Definition set_ID (v : Z) (e : TEXTURE_INFO) : TEXTURE_INFO :=
  TextureInfo.mk (TextureInfo.tag e) v.

Definition set_tag (v : string) (e : TEXTURE_INFO) : TEXTURE_INFO :=
  TextureInfo.mk v (TextureInfo.ID e).

(** [glGenTextures(1, &name)]: the context hands out its next unused
    texture name. *)
Definition glGenTextures_1 : M Z := fun w =>
  let name := next_texture_name w in
  Returns name
    {| this := this w; next_texture_name := name + 1; files := files w |}
    [glGenTextures 1 name].

Definition call_stbi_load (filename : string) : M (option stb_image) :=
  fun w => Returns (files w filename) w [stbi_load filename].

(** The global names of the shader uniforms. *)
Definition g_ModelName : string := "model".
Definition g_ColorValueName : string := "objectColor".
Definition g_TextureValueName : string := "objectTexture".
Definition g_UseTextureName : string := "bUseTexture".
Definition g_UseLightingName : string := "bUseLighting".

(** ** The methods of [SceneManager] (Module 7) *)

(** Modelled from the spec: the member [m_textureIDs] is declared in
    SceneManager.h, which is not part of the sources, as an array of 16
    entries; before the constructor body runs each entry is default
    constructed (its [ID] is indeterminate and is overwritten by the
    constructor before anything reads it). *)
Definition m_textureIDs_declared : list TEXTURE_INFO :=
  replicate 16 (TextureInfo.mk "" 0).

(** [SceneManager::SceneManager] *)
Definition SceneManager_new (pShaderManager : option N) : SceneManager :=
  {| m_pShaderManager := pShaderManager;
     m_textureIDs :=
       foldl (fun ids i =>
                alter (set_ID (GLuint_of_int (-1)))
                  i (alter (set_tag "/0") i ids))
             m_textureIDs_declared (seq 0 16);
     m_loadedTextures := 0;
     m_objectMaterials := [] |}.

(** [m_loadedTextures++] *)
Definition increment_loadedTextures : M unit := fun w =>
  Returns tt
    (with_this
       (with_loadedTextures (m_loadedTextures (this w) + 1) (this w)) w)
    [].

(** [SceneManager::CreateGLTexture].  The Module 7 and the Module 4
    revisions of the method differ in one token, the wrapping mode passed
    for [GL_TEXTURE_WRAP_S] and [GL_TEXTURE_WRAP_T]; [wrap] is that
    token. *)
Definition CreateGLTexture_wrapping (wrap : GLenum) (filename : string)
  (tag : string) : M bool :=
  emit (stbi_set_flip_vertically_on_load true) ;;
  image <- call_stbi_load filename ;;
  match image with
  | Some img =>
      let width := width img in
      let height := height img in
      let colorChannels := colorChannels img in
      emit (cout (Successfully_loaded_image filename width height
                    colorChannels)) ;;
      textureID <- glGenTextures_1 ;;
      emit (glBindTexture GL_TEXTURE_2D textureID) ;;
      emit (glTexParameteri GL_TEXTURE_2D GL_TEXTURE_WRAP_S wrap) ;;
      emit (glTexParameteri GL_TEXTURE_2D GL_TEXTURE_WRAP_T wrap) ;;
      emit (glTexParameteri GL_TEXTURE_2D GL_TEXTURE_MIN_FILTER GL_LINEAR) ;;
      emit (glTexParameteri GL_TEXTURE_2D GL_TEXTURE_MAG_FILTER GL_LINEAR) ;;
      (* the statements after the if / else if / else chain *)
      let after_upload : M bool :=
        emit (glGenerateMipmap GL_TEXTURE_2D) ;;
        emit stbi_image_free ;;
        emit (glBindTexture GL_TEXTURE_2D 0) ;;
        s <- get_this ;;
        assign_textureIDs (m_loadedTextures s) (set_ID textureID) ;;
        s <- get_this ;;
        assign_textureIDs (m_loadedTextures s) (set_tag tag) ;;
        increment_loadedTextures ;;
        ret true in
      if colorChannels =? 3 then
        emit (glTexImage2D GL_TEXTURE_2D 0 GL_RGB8 width height 0 GL_RGB
                GL_UNSIGNED_BYTE (pixels img)) ;;
        after_upload
      else if colorChannels =? 4 then
        emit (glTexImage2D GL_TEXTURE_2D 0 GL_RGBA8 width height 0 GL_RGBA
                GL_UNSIGNED_BYTE (pixels img)) ;;
        after_upload
      else
        emit (cout (Not_implemented_to_handle_image colorChannels)) ;;
        ret false
  | None =>
      emit (cout (Could_not_load_image filename)) ;;
      ret false
  end.

(** [SceneManager::CreateGLTexture] of Module 7 *)
Definition CreateGLTexture : string -> string -> M bool :=
  CreateGLTexture_wrapping GL_CLAMP_TO_EDGE.

(** [SceneManager::BindGLTextures] *)
Definition BindGLTextures : M unit :=
  s <- get_this ;;
  for_int 0 (m_loadedTextures s) (fun i =>
    emit (glActiveTexture (GL_TEXTURE0 + i)) ;;
    s <- get_this ;;
    emit (glBindTexture GL_TEXTURE_2D
            (TextureInfo.ID (m_textureIDs s !!! Z.to_nat i)))).

(** [SceneManager::DestroyGLTextures]: [glGenTextures(1, &m_textureIDs[i].ID)]
    stores the generated name in the entry. *)
Definition DestroyGLTextures : M unit :=
  s <- get_this ;;
  for_int 0 (m_loadedTextures s) (fun i =>
    name <- glGenTextures_1 ;;
    assign_textureIDs i (set_ID name)).

(** The local variables of the two texture lookups: the value to return
    ([textureID], resp. [textureSlot]), [index] and [bFound]. *)
Record lookup_locals : Type := {
  found_value : Z;
  index : Z;
  bFound : bool
}.

(** [SceneManager::FindTextureID] *)
Definition FindTextureID (s : SceneManager) (tag : string) : Z :=
  let locals :=
    while (Z.to_nat (m_loadedTextures s))
      (fun l => (index l <? m_loadedTextures s) && negb (bFound l))
      (fun l =>
         if String.eqb
              (TextureInfo.tag (m_textureIDs s !!! Z.to_nat (index l))) tag
         then {| found_value :=
                   int_of_GLuint
                     (TextureInfo.ID (m_textureIDs s !!! Z.to_nat (index l)));
                 index := index l;
                 bFound := true |}
         else {| found_value := found_value l;
                 index := index l + 1;
                 bFound := bFound l |})
      {| found_value := -1; index := 0; bFound := false |} in
  found_value locals.

(** [SceneManager::FindTextureSlot] *)
Definition FindTextureSlot (s : SceneManager) (tag : string) : Z :=
  let locals :=
    while (Z.to_nat (m_loadedTextures s))
      (fun l => (index l <? m_loadedTextures s) && negb (bFound l))
      (fun l =>
         if String.eqb
              (TextureInfo.tag (m_textureIDs s !!! Z.to_nat (index l))) tag
         then {| found_value := index l;
                 index := index l;
                 bFound := true |}
         else {| found_value := found_value l;
                 index := index l + 1;
                 bFound := bFound l |})
      {| found_value := -1; index := 0; bFound := false |} in
  found_value locals.

Global Instance OBJECT_MATERIAL_inhabited : Inhabited (OBJECT_MATERIAL float) :=
  populate
    (ObjectMaterial.mk
       (glm_vec3 (f32 0) (f32 0) (f32 0)) (f32 0)
       (glm_vec3 (f32 0) (f32 0) (f32 0))
       (glm_vec3 (f32 0) (f32 0) (f32 0)) (f32 0) "").

(** The local variables of [FindMaterial] and its reference parameter. *)
Record material_locals : Type := {
  mat_index : Z;
  mat_bFound : bool;
  material : OBJECT_MATERIAL float
}.

(** [SceneManager::FindMaterial]: returns the [bool] and the contents of
    [material] after the call.  The five assignments copy every field but
    the tag. *)
Definition FindMaterial (s : SceneManager) (tag : string)
  (material0 : OBJECT_MATERIAL float) : bool * OBJECT_MATERIAL float :=
  if Z.of_nat (length (m_objectMaterials s)) =? 0 then (false, material0)
  else
    let locals :=
      while (length (m_objectMaterials s))
        (fun l => (mat_index l <? Z.of_nat (length (m_objectMaterials s)))
                  && negb (mat_bFound l))
        (fun l =>
           let entry := m_objectMaterials s !!! Z.to_nat (mat_index l) in
           if String.eqb (ObjectMaterial.tag entry) tag
           then {| mat_index := mat_index l;
                   mat_bFound := true;
                   material :=
                     ObjectMaterial.mk
                       (ObjectMaterial.ambientColor entry)
                       (ObjectMaterial.ambientStrength entry)
                       (ObjectMaterial.diffuseColor entry)
                       (ObjectMaterial.specularColor entry)
                       (ObjectMaterial.shininess entry)
                       (ObjectMaterial.tag (material l)) |}
           else {| mat_index := mat_index l + 1;
                   mat_bFound := mat_bFound l;
                   material := material l |})
        {| mat_index := 0; mat_bFound := false; material := material0 |} in
    (true, material locals).

(** [SceneManager::SetTransformations] *)
Definition SetTransformations (scaleXYZ : vec3 float)
  (XrotationDegrees YrotationDegrees ZrotationDegrees : float)
  (positionXYZ : vec3 float) : M unit :=
  let scale := glm_scale scaleXYZ in
  let rotationX :=
    glm_rotate (glm_radians XrotationDegrees)
      (glm_vec3 (f32 1.0) (f32 0.0) (f32 0.0)) in
  let rotationY :=
    glm_rotate (glm_radians YrotationDegrees)
      (glm_vec3 (f32 0.0) (f32 1.0) (f32 0.0)) in
  let rotationZ :=
    glm_rotate (glm_radians ZrotationDegrees)
      (glm_vec3 (f32 0.0) (f32 0.0) (f32 1.0)) in
  let translation := glm_translate positionXYZ in
  let modelView :=
    (translation * rotationX * rotationY * rotationZ * scale)%mat4 in
  s <- get_this ;;
  match m_pShaderManager s with
  | Some _ => emit (setMat4Value g_ModelName modelView)
  | None => ret tt
  end.

(** [SceneManager::SetShaderColor]; [false] converts to the [int] 0. *)
Definition SetShaderColor
  (redColorValue greenColorValue blueColorValue alphaValue : float)
  : M unit :=
  let currentColor :=
    glm_vec4 redColorValue greenColorValue blueColorValue alphaValue in
  s <- get_this ;;
  match m_pShaderManager s with
  | Some _ =>
      emit (setIntValue g_UseTextureName 0) ;;
      emit (setVec4Value g_ColorValueName currentColor)
  | None => ret tt
  end.

(** [SceneManager::SetShaderTexture]; [true] converts to the [int] 1. *)
Definition SetShaderTexture (textureTag : string) : M unit :=
  s <- get_this ;;
  match m_pShaderManager s with
  | Some _ =>
      emit (setIntValue g_UseTextureName 1) ;;
      s <- get_this ;;
      let textureSlot := FindTextureSlot s textureTag in
      if 0 <=? textureSlot then
        emit (glActiveTexture (GL_TEXTURE0 + textureSlot)) ;;
        s <- get_this ;;
        emit (glBindTexture GL_TEXTURE_2D
                (TextureInfo.ID (m_textureIDs s !!! Z.to_nat textureSlot))) ;;
        emit (setSampler2DValue g_TextureValueName textureSlot)
      else ret tt
  | None => ret tt
  end.

(** [SceneManager::SetTextureUVScale] *)
Definition SetTextureUVScale (u v : float) : M unit :=
  s <- get_this ;;
  match m_pShaderManager s with
  | Some _ => emit (setVec2Value "UVscale" (glm_vec2 u v))
  | None => ret tt
  end.

(** Calls made directly from the scene script. *)
Definition gl (c : call) : M unit := emit c.
Definition m_basicMeshes (method : mesh_call float) : M unit :=
  emit (basicMeshes method).

End Methods.

(** * The scene scripts

    The bodies of [LoadSceneTextures], [PrepareScene] and [RenderScene],
    statement by statement.  An assignment to a local variable is a [let]
    that shadows the previous value. *)

Module Module7.
Section Script.
Context `{glm : GLM}.
Local Open Scope scene_scope.

(** [SceneManager::LoadSceneTextures]; the value returned by
    [CreateGLTexture] is discarded. *)
Definition LoadSceneTextures : M unit :=
  CreateGLTexture
    "../../../../CS330 Content/CS330Content/Projects/7-1_FinalProjectMilestones/Source/textures/oakwood.jpg"
    "oakWood" ;;
  CreateGLTexture
    "../../../../CS330 Content/CS330Content/Projects/7-1_FinalProjectMilestones/Source/textures/metal.jpg"
    "metalTexture" ;;
  CreateGLTexture
    "../../../../CS330 Content/CS330Content/Projects/7-1_FinalProjectMilestones/Source/textures/stainless.jpg"
    "steelTexture" ;;
  CreateGLTexture
    "../../../../CS330 Content/CS330Content/Projects/7-1_FinalProjectMilestones/Source/textures/lightblueplastic.jpg"
    "ltbluePlastic" ;;
  CreateGLTexture
    "../../../../CS330 Content/CS330Content/Projects/7-1_FinalProjectMilestones/Source/textures/blueplastic.jpg"
    "bluePlastic" ;;
  CreateGLTexture
    "../../../../CS330 Content/CS330Content/Projects/7-1_FinalProjectMilestones/Source/textures/magentaplastic.jpg"
    "magentaPlastic" ;;
  CreateGLTexture
    "../../../../CS330 Content/CS330Content/Projects/7-1_FinalProjectMilestones/Source/textures/redplastic.jpg"
    "redPlastic" ;;
  CreateGLTexture
    "../../../../CS330 Content/CS330Content/Projects/7-1_FinalProjectMilestones/Source/textures/orangeplastic.jpg"
    "orangePlastic" ;;
  CreateGLTexture
    "../../../../CS330 Content/CS330Content/Projects/7-1_FinalProjectMilestones/Source/textures/greenplastic.jpg"
    "greenPlastic" ;;
  CreateGLTexture
    "../../../../CS330 Content/CS330Content/Projects/7-1_FinalProjectMilestones/Source/textures/ashwood.jpg"
    "ashWood" ;;
  CreateGLTexture
    "../../../../CS330 Content/CS330Content/Projects/7-1_FinalProjectMilestones/Source/textures/letterA.png"
    "letterA" ;;
  CreateGLTexture
    "../../../../CS330 Content/CS330Content/Projects/7-1_FinalProjectMilestones/Source/textures/letterB.png"
    "letterB" ;;
  CreateGLTexture
    "../../../../CS330 Content/CS330Content/Projects/7-1_FinalProjectMilestones/Source/textures/letterC.png"
    "letterC" ;;
  BindGLTextures.

(** [SceneManager::PrepareScene] *)
Definition PrepareScene : M unit :=
  LoadSceneTextures ;;
  m_basicMeshes LoadPlaneMesh ;;
  m_basicMeshes LoadCylinderMesh ;;
  m_basicMeshes LoadBoxMesh ;;
  m_basicMeshes (LoadTorusMesh (f32 0.3)) ;;
  m_basicMeshes (LoadExtraTorusMesh1 (f32 0.35)) ;;
  m_basicMeshes (DrawQuarterTorusMesh (f32 0.2)) ;;
  m_basicMeshes LoadSphereMesh.

(** [SceneManager::RenderScene] *)
Definition RenderScene : M unit :=
  (* glm::vec3 scaleXYZ; declared without an initial value *)
  let XrotationDegrees := f32 0.0 in
  let YrotationDegrees := f32 0.0 in
  let ZrotationDegrees := f32 0.0 in
  (* glm::vec3 positionXYZ; declared without an initial value *)
  let scaleXYZ := glm_vec3 (f32 20.0) (f32 1.0) (f32 10.0) in
  let XrotationDegrees := f32 0.0 in
  let YrotationDegrees := f32 0.0 in
  let ZrotationDegrees := f32 0.0 in
  let positionXYZ := glm_vec3 (f32 0.0) (f32 0.0) (f32 0.0) in
  SetTransformations scaleXYZ XrotationDegrees YrotationDegrees
    ZrotationDegrees positionXYZ ;;
  SetShaderColor (f32 1) (f32 1) (f32 1) (f32 1) ;;
  m_basicMeshes DrawPlaneMesh ;;
  let scaleXYZ := glm_vec3 (f32 20.0) (f32 1.0) (f32 10.0) in
  let XrotationDegrees := f32 90.0 in
  let YrotationDegrees := f32 0.0 in
  let ZrotationDegrees := f32 0.0 in
  let positionXYZ := glm_vec3 (f32 0.0) (f32 10.0) (f32 (-10.0)) in
  SetTransformations scaleXYZ XrotationDegrees YrotationDegrees
    ZrotationDegrees positionXYZ ;;
  SetShaderColor (f32 1) (f32 1) (f32 1) (f32 1) ;;
  m_basicMeshes DrawPlaneMesh ;;
  let scaleXYZ := glm_vec3 (f32 2.0) (f32 0.25) (f32 2.0) in
  let XrotationDegrees := f32 0.0 in
  let YrotationDegrees := f32 0.0 in
  let ZrotationDegrees := f32 0.0 in
  let positionXYZ := glm_vec3 (f32 10.0) (f32 0.0) (f32 (-1.5)) in
  SetTransformations scaleXYZ XrotationDegrees YrotationDegrees
    ZrotationDegrees positionXYZ ;;
  SetShaderTexture "oakWood" ;;
  m_basicMeshes DrawCylinderMesh ;;
  gl (glBindTexture GL_TEXTURE_2D 0) ;;
  let scaleXYZ := glm_vec3 (f32 0.2) (f32 5.2) (f32 0.2) in
  let XrotationDegrees := f32 0.0 in
  let YrotationDegrees := f32 0.0 in
  let ZrotationDegrees := f32 0.0 in
  let positionXYZ := glm_vec3 (f32 10.0) (f32 0.1) (f32 (-1.5)) in
  SetTransformations scaleXYZ XrotationDegrees YrotationDegrees
    ZrotationDegrees positionXYZ ;;
  SetShaderTexture "oakWood" ;;
  m_basicMeshes DrawCylinderMesh ;;
  gl (glBindTexture GL_TEXTURE_2D 0) ;;
  let scaleXYZ := glm_vec3 (f32 2.0) (f32 2.0) (f32 2.0) in
  let XrotationDegrees := f32 90.0 in
  let YrotationDegrees := f32 0.0 in
  let ZrotationDegrees := f32 0.0 in
  let positionXYZ := glm_vec3 (f32 10.0) (f32 0.6) (f32 (-1.5)) in
  SetTransformations scaleXYZ XrotationDegrees YrotationDegrees
    ZrotationDegrees positionXYZ ;;
  SetShaderTexture "ltbluePlastic" ;;
  m_basicMeshes DrawTorusMesh ;;
  gl (glBindTexture GL_TEXTURE_2D 0) ;;
  let scaleXYZ := glm_vec3 (f32 1.75) (f32 1.75) (f32 1.75) in
  let XrotationDegrees := f32 90.0 in
  let YrotationDegrees := f32 0.0 in
  let ZrotationDegrees := f32 0.0 in
  let positionXYZ := glm_vec3 (f32 10.0) (f32 1.7) (f32 (-1.5)) in
  SetTransformations scaleXYZ XrotationDegrees YrotationDegrees
    ZrotationDegrees positionXYZ ;;
  SetShaderTexture "bluePlastic" ;;
  m_basicMeshes DrawTorusMesh ;;
  gl (glBindTexture GL_TEXTURE_2D 0) ;;
  let scaleXYZ := glm_vec3 (f32 1.5) (f32 1.5) (f32 1.5) in
  let XrotationDegrees := f32 90.0 in
  let YrotationDegrees := f32 0.0 in
  let ZrotationDegrees := f32 0.0 in
  let positionXYZ := glm_vec3 (f32 10.0) (f32 2.65) (f32 (-1.5)) in
  SetTransformations scaleXYZ XrotationDegrees YrotationDegrees
    ZrotationDegrees positionXYZ ;;
  SetShaderTexture "magentaPlastic" ;;
  m_basicMeshes DrawTorusMesh ;;
  gl (glBindTexture GL_TEXTURE_2D 0) ;;
  let scaleXYZ := glm_vec3 (f32 1.25) (f32 1.25) (f32 1.25) in
  let XrotationDegrees := f32 90.0 in
  let YrotationDegrees := f32 0.0 in
  let ZrotationDegrees := f32 0.0 in
  let positionXYZ := glm_vec3 (f32 10.0) (f32 3.4) (f32 (-1.5)) in
  SetTransformations scaleXYZ XrotationDegrees YrotationDegrees
    ZrotationDegrees positionXYZ ;;
  SetShaderTexture "redPlastic" ;;
  m_basicMeshes DrawTorusMesh ;;
  gl (glBindTexture GL_TEXTURE_2D 0) ;;
  let scaleXYZ := glm_vec3 (f32 1.0) (f32 1.0) (f32 1.0) in
  let XrotationDegrees := f32 90.0 in
  let YrotationDegrees := f32 0.0 in
  let ZrotationDegrees := f32 0.0 in
  let positionXYZ := glm_vec3 (f32 10.0) (f32 4.05) (f32 (-1.5)) in
  SetTransformations scaleXYZ XrotationDegrees YrotationDegrees
    ZrotationDegrees positionXYZ ;;
  SetShaderTexture "orangePlastic" ;;
  m_basicMeshes DrawTorusMesh ;;
  let scaleXYZ := glm_vec3 (f32 0.75) (f32 0.75) (f32 0.75) in
  let XrotationDegrees := f32 90.0 in
  let YrotationDegrees := f32 0.0 in
  let ZrotationDegrees := f32 0.0 in
  let positionXYZ := glm_vec3 (f32 10.0) (f32 4.6) (f32 (-1.5)) in
  SetTransformations scaleXYZ XrotationDegrees YrotationDegrees
    ZrotationDegrees positionXYZ ;;
  SetShaderTexture "greenPlastic" ;;
  m_basicMeshes DrawExtraTorusMesh1 ;;
  let scaleXYZ := glm_vec3 (f32 1.0) (f32 0.75) (f32 10.0) in
  let XrotationDegrees := f32 0.0 in
  let YrotationDegrees := f32 90.0 in
  let ZrotationDegrees := f32 0.0 in
  let positionXYZ := glm_vec3 (f32 0.0) (f32 0.35) (f32 (-3.5)) in
  SetTransformations scaleXYZ XrotationDegrees YrotationDegrees
    ZrotationDegrees positionXYZ ;;
  SetShaderTexture "oakWood" ;;
  m_basicMeshes DrawBoxMesh ;;
  gl (glBindTexture GL_TEXTURE_2D 0) ;;
  let scaleXYZ := glm_vec3 (f32 0.05) (f32 5.0) (f32 0.05) in
  let XrotationDegrees := f32 0.0 in
  let YrotationDegrees := f32 0.0 in
  let ZrotationDegrees := f32 0.0 in
  let positionXYZ := glm_vec3 (f32 4.25) (f32 0.75) (f32 (-3.5)) in
  SetTransformations scaleXYZ XrotationDegrees YrotationDegrees
    ZrotationDegrees positionXYZ ;;
  SetTextureUVScale (f32 0.1) (f32 0.1) ;;
  SetShaderTexture "steelTexture" ;;
  m_basicMeshes DrawCylinderMesh ;;
  gl (glBindTexture GL_TEXTURE_2D 0) ;;
  let scaleXYZ := glm_vec3 (f32 0.05) (f32 5.0) (f32 0.05) in
  let XrotationDegrees := f32 0.0 in
  let YrotationDegrees := f32 0.0 in
  let ZrotationDegrees := f32 0.0 in
  let positionXYZ := glm_vec3 (f32 (-4.25)) (f32 0.75) (f32 (-3.5)) in
  SetTransformations scaleXYZ XrotationDegrees YrotationDegrees
    ZrotationDegrees positionXYZ ;;
  SetTextureUVScale (f32 0.1) (f32 0.1) ;;
  SetShaderTexture "steelTexture" ;;
  m_basicMeshes DrawCylinderMesh ;;
  gl (glBindTexture GL_TEXTURE_2D 0) ;;
  let scaleXYZ := glm_vec3 (f32 0.05) (f32 8.1) (f32 0.05) in
  let XrotationDegrees := f32 0.0 in
  let YrotationDegrees := f32 0.0 in
  let ZrotationDegrees := f32 90.0 in
  let positionXYZ := glm_vec3 (f32 4.05) (f32 5.95) (f32 (-3.5)) in
  SetTransformations scaleXYZ XrotationDegrees YrotationDegrees
    ZrotationDegrees positionXYZ ;;
  SetTextureUVScale (f32 0.1) (f32 0.1) ;;
  SetShaderTexture "steelTexture" ;;
  m_basicMeshes DrawCylinderMesh ;;
  gl (glBindTexture GL_TEXTURE_2D 0) ;;
  let scaleXYZ := glm_vec3 (f32 0.2) (f32 0.2) (f32 0.175) in
  let XrotationDegrees := f32 0.0 in
  let YrotationDegrees := f32 0.0 in
  let ZrotationDegrees := f32 0.0 in
  let positionXYZ := glm_vec3 (f32 4.05) (f32 5.75) (f32 (-3.5)) in
  SetTransformations scaleXYZ XrotationDegrees YrotationDegrees
    ZrotationDegrees positionXYZ ;;
  SetTextureUVScale (f32 0.1) (f32 0.1) ;;
  SetShaderTexture "steelTexture" ;;
  m_basicMeshes (DrawQuarterTorusMesh (f32 0.2)) ;;
  gl (glBindTexture GL_TEXTURE_2D 0) ;;
  let scaleXYZ := glm_vec3 (f32 0.2) (f32 0.2) (f32 0.175) in
  let XrotationDegrees := f32 0.0 in
  let YrotationDegrees := f32 0.0 in
  let ZrotationDegrees := f32 90.0 in
  let positionXYZ := glm_vec3 (f32 (-4.05)) (f32 5.75) (f32 (-3.5)) in
  SetTransformations scaleXYZ XrotationDegrees YrotationDegrees
    ZrotationDegrees positionXYZ ;;
  SetTextureUVScale (f32 0.1) (f32 0.1) ;;
  SetShaderTexture "steelTexture" ;;
  m_basicMeshes (DrawQuarterTorusMesh (f32 0.2)) ;;
  gl (glBindTexture GL_TEXTURE_2D 0) ;;
  let scaleXYZ := glm_vec3 (f32 0.05) (f32 3.0) (f32 0.05) in
  let XrotationDegrees := f32 0.0 in
  let YrotationDegrees := f32 0.0 in
  let ZrotationDegrees := f32 0.0 in
  let positionXYZ := glm_vec3 (f32 2.5) (f32 0.75) (f32 (-3.5)) in
  SetTransformations scaleXYZ XrotationDegrees YrotationDegrees
    ZrotationDegrees positionXYZ ;;
  SetTextureUVScale (f32 0.1) (f32 0.1) ;;
  SetShaderTexture "steelTexture" ;;
  m_basicMeshes DrawCylinderMesh ;;
  let scaleXYZ := glm_vec3 (f32 0.05) (f32 3.0) (f32 0.05) in
  let XrotationDegrees := f32 0.0 in
  let YrotationDegrees := f32 0.0 in
  let ZrotationDegrees := f32 0.0 in
  let positionXYZ := glm_vec3 (f32 (-2.5)) (f32 0.75) (f32 (-3.5)) in
  SetTransformations scaleXYZ XrotationDegrees YrotationDegrees
    ZrotationDegrees positionXYZ ;;
  SetTextureUVScale (f32 0.1) (f32 0.1) ;;
  SetShaderTexture "steelTexture" ;;
  m_basicMeshes DrawCylinderMesh ;;
  let scaleXYZ := glm_vec3 (f32 0.05) (f32 4.75) (f32 0.05) in
  let XrotationDegrees := f32 0.0 in
  let YrotationDegrees := f32 0.0 in
  let ZrotationDegrees := f32 90.0 in
  let positionXYZ := glm_vec3 (f32 2.375) (f32 3.95) (f32 (-3.5)) in
  SetTransformations scaleXYZ XrotationDegrees YrotationDegrees
    ZrotationDegrees positionXYZ ;;
  SetTextureUVScale (f32 0.1) (f32 0.1) ;;
  SetShaderTexture "steelTexture" ;;
  m_basicMeshes DrawCylinderMesh ;;
  let scaleXYZ := glm_vec3 (f32 0.2) (f32 0.2) (f32 0.175) in
  let XrotationDegrees := f32 0.0 in
  let YrotationDegrees := f32 0.0 in
  let ZrotationDegrees := f32 0.0 in
  let positionXYZ := glm_vec3 (f32 2.3) (f32 3.75) (f32 (-3.5)) in
  SetTransformations scaleXYZ XrotationDegrees YrotationDegrees
    ZrotationDegrees positionXYZ ;;
  SetTextureUVScale (f32 0.1) (f32 0.1) ;;
  SetShaderTexture "steelTexture" ;;
  m_basicMeshes (DrawQuarterTorusMesh (f32 0.2)) ;;
  gl (glBindTexture GL_TEXTURE_2D 0) ;;
  let scaleXYZ := glm_vec3 (f32 0.2) (f32 0.2) (f32 0.175) in
  let XrotationDegrees := f32 0.0 in
  let YrotationDegrees := f32 0.0 in
  let ZrotationDegrees := f32 90.0 in
  let positionXYZ := glm_vec3 (f32 (-2.3)) (f32 3.75) (f32 (-3.5)) in
  SetTransformations scaleXYZ XrotationDegrees YrotationDegrees
    ZrotationDegrees positionXYZ ;;
  SetTextureUVScale (f32 0.1) (f32 0.1) ;;
  SetShaderTexture "steelTexture" ;;
  m_basicMeshes (DrawQuarterTorusMesh (f32 0.2)) ;;
  gl (glBindTexture GL_TEXTURE_2D 0) ;;
  let scaleXYZ := glm_vec3 (f32 0.75) (f32 0.75) (f32 0.75) in
  let XrotationDegrees := f32 0.0 in
  let YrotationDegrees := f32 0.0 in
  let ZrotationDegrees := f32 0.0 in
  let positionXYZ := glm_vec3 (f32 4.25) (f32 1.5) (f32 (-3.5)) in
  SetTransformations scaleXYZ XrotationDegrees YrotationDegrees
    ZrotationDegrees positionXYZ ;;
  SetTextureUVScale (f32 0.5) (f32 0.5) ;;
  SetShaderTexture "bluePlastic" ;;
  m_basicMeshes DrawSphereMesh ;;
  gl (glBindTexture GL_TEXTURE_2D 0) ;;
  let scaleXYZ := glm_vec3 (f32 0.75) (f32 0.75) (f32 0.75) in
  let XrotationDegrees := f32 0.0 in
  let YrotationDegrees := f32 0.0 in
  let ZrotationDegrees := f32 0.0 in
  let positionXYZ := glm_vec3 (f32 4.25) (f32 3.0) (f32 (-3.5)) in
  SetTransformations scaleXYZ XrotationDegrees YrotationDegrees
    ZrotationDegrees positionXYZ ;;
  SetTextureUVScale (f32 0.5) (f32 0.5) ;;
  SetShaderTexture "ltbluePlastic" ;;
  m_basicMeshes DrawSphereMesh ;;
  gl (glBindTexture GL_TEXTURE_2D 0) ;;
  let scaleXYZ := glm_vec3 (f32 0.75) (f32 0.75) (f32 0.75) in
  let XrotationDegrees := f32 0.0 in
  let YrotationDegrees := f32 0.0 in
  let ZrotationDegrees := f32 0.0 in
  let positionXYZ := glm_vec3 (f32 4.25) (f32 4.5) (f32 (-3.5)) in
  SetTransformations scaleXYZ XrotationDegrees YrotationDegrees
    ZrotationDegrees positionXYZ ;;
  SetTextureUVScale (f32 0.5) (f32 0.5) ;;
  SetShaderTexture "greenPlastic" ;;
  m_basicMeshes DrawSphereMesh ;;
  gl (glBindTexture GL_TEXTURE_2D 0) ;;
  let scaleXYZ := glm_vec3 (f32 0.75) (f32 0.75) (f32 0.75) in
  let XrotationDegrees := f32 0.0 in
  let YrotationDegrees := f32 0.0 in
  let ZrotationDegrees := f32 0.0 in
  let positionXYZ := glm_vec3 (f32 (-4.25)) (f32 1.5) (f32 (-3.5)) in
  SetTransformations scaleXYZ XrotationDegrees YrotationDegrees
    ZrotationDegrees positionXYZ ;;
  SetTextureUVScale (f32 0.5) (f32 0.5) ;;
  SetShaderTexture "redPlastic" ;;
  m_basicMeshes DrawSphereMesh ;;
  gl (glBindTexture GL_TEXTURE_2D 0) ;;
  let scaleXYZ := glm_vec3 (f32 0.75) (f32 0.75) (f32 0.75) in
  let XrotationDegrees := f32 0.0 in
  let YrotationDegrees := f32 0.0 in
  let ZrotationDegrees := f32 0.0 in
  let positionXYZ := glm_vec3 (f32 (-4.25)) (f32 3.0) (f32 (-3.5)) in
  SetTransformations scaleXYZ XrotationDegrees YrotationDegrees
    ZrotationDegrees positionXYZ ;;
  SetTextureUVScale (f32 0.5) (f32 0.5) ;;
  SetShaderTexture "orangePlastic" ;;
  m_basicMeshes DrawSphereMesh ;;
  gl (glBindTexture GL_TEXTURE_2D 0) ;;
  let scaleXYZ := glm_vec3 (f32 0.75) (f32 0.75) (f32 0.75) in
  let XrotationDegrees := f32 0.0 in
  let YrotationDegrees := f32 0.0 in
  let ZrotationDegrees := f32 0.0 in
  let positionXYZ := glm_vec3 (f32 2.375) (f32 1.5) (f32 (-3.5)) in
  SetTransformations scaleXYZ XrotationDegrees YrotationDegrees
    ZrotationDegrees positionXYZ ;;
  SetTextureUVScale (f32 0.5) (f32 0.5) ;;
  SetShaderTexture "magentaPlastic" ;;
  m_basicMeshes DrawSphereMesh ;;
  gl (glBindTexture GL_TEXTURE_2D 0) ;;
  let scaleXYZ := glm_vec3 (f32 0.75) (f32 0.75) (f32 0.75) in
  let XrotationDegrees := f32 0.0 in
  let YrotationDegrees := f32 0.0 in
  let ZrotationDegrees := f32 0.0 in
  let positionXYZ := glm_vec3 (f32 2.375) (f32 3.0) (f32 (-3.5)) in
  SetTransformations scaleXYZ XrotationDegrees YrotationDegrees
    ZrotationDegrees positionXYZ ;;
  SetTextureUVScale (f32 0.5) (f32 0.5) ;;
  SetShaderTexture "redPlastic" ;;
  m_basicMeshes DrawSphereMesh ;;
  gl (glBindTexture GL_TEXTURE_2D 0) ;;
  let scaleXYZ := glm_vec3 (f32 0.75) (f32 0.75) (f32 0.75) in
  let XrotationDegrees := f32 0.0 in
  let YrotationDegrees := f32 0.0 in
  let ZrotationDegrees := f32 0.0 in
  let positionXYZ := glm_vec3 (f32 0.75) (f32 3.95) (f32 (-3.5)) in
  SetTransformations scaleXYZ XrotationDegrees YrotationDegrees
    ZrotationDegrees positionXYZ ;;
  SetTextureUVScale (f32 0.5) (f32 0.5) ;;
  SetShaderTexture "orangePlastic" ;;
  m_basicMeshes DrawSphereMesh ;;
  gl (glBindTexture GL_TEXTURE_2D 0) ;;
  let scaleXYZ := glm_vec3 (f32 0.75) (f32 0.75) (f32 0.75) in
  let XrotationDegrees := f32 0.0 in
  let YrotationDegrees := f32 0.0 in
  let ZrotationDegrees := f32 0.0 in
  let positionXYZ := glm_vec3 (f32 (-0.75)) (f32 3.95) (f32 (-3.5)) in
  SetTransformations scaleXYZ XrotationDegrees YrotationDegrees
    ZrotationDegrees positionXYZ ;;
  SetTextureUVScale (f32 0.5) (f32 0.5) ;;
  SetShaderTexture "greenPlastic" ;;
  m_basicMeshes DrawSphereMesh ;;
  gl (glBindTexture GL_TEXTURE_2D 0) ;;
  let scaleXYZ := glm_vec3 (f32 0.75) (f32 0.75) (f32 0.75) in
  let XrotationDegrees := f32 0.0 in
  let YrotationDegrees := f32 0.0 in
  let ZrotationDegrees := f32 0.0 in
  let positionXYZ := glm_vec3 (f32 (-2.375)) (f32 1.5) (f32 (-3.5)) in
  SetTransformations scaleXYZ XrotationDegrees YrotationDegrees
    ZrotationDegrees positionXYZ ;;
  SetTextureUVScale (f32 0.5) (f32 0.5) ;;
  SetShaderTexture "ltbluePlastic" ;;
  m_basicMeshes DrawSphereMesh ;;
  gl (glBindTexture GL_TEXTURE_2D 0) ;;
  let scaleXYZ := glm_vec3 (f32 2.0) (f32 2.0) (f32 2.0) in
  let XrotationDegrees := f32 0.0 in
  let YrotationDegrees := f32 15.0 in
  let ZrotationDegrees := f32 0.0 in
  let positionXYZ := glm_vec3 (f32 (-0.75)) (f32 1.0) (f32 0.75) in
  SetTransformations scaleXYZ XrotationDegrees YrotationDegrees
    ZrotationDegrees positionXYZ ;;
  SetTextureUVScale (f32 1.0) (f32 1.0) ;;
  SetShaderTexture "ashWood" ;;
  m_basicMeshes DrawBoxMesh ;;
  let scaleXYZ := glm_vec3 (f32 2.01) (f32 2.01) (f32 2.01) in
  let XrotationDegrees := f32 0.0 in
  let YrotationDegrees := f32 15.0 in
  let ZrotationDegrees := f32 0.0 in
  let positionXYZ := glm_vec3 (f32 (-0.7501)) (f32 1.01) (f32 0.7501) in
  SetTransformations scaleXYZ XrotationDegrees YrotationDegrees
    ZrotationDegrees positionXYZ ;;
  SetTextureUVScale (f32 1.0) (f32 1.0) ;;
  SetShaderTexture "letterA" ;;
  m_basicMeshes DrawBoxMesh ;;
  gl (glPolygonOffset (f32 (-1.0)) (f32 (-1.0))) ;;
  gl (glBindTexture GL_TEXTURE_2D 0) ;;
  let scaleXYZ := glm_vec3 (f32 2.0) (f32 2.0) (f32 2.0) in
  let XrotationDegrees := f32 0.0 in
  let YrotationDegrees := f32 45.0 in
  let ZrotationDegrees := f32 0.0 in
  let positionXYZ := glm_vec3 (f32 2.0) (f32 1.0) (f32 0.0) in
  SetTransformations scaleXYZ XrotationDegrees YrotationDegrees
    ZrotationDegrees positionXYZ ;;
  SetTextureUVScale (f32 1.0) (f32 1.0) ;;
  SetShaderTexture "ashWood" ;;
  m_basicMeshes DrawBoxMesh ;;
  let scaleXYZ := glm_vec3 (f32 2.01) (f32 2.01) (f32 2.01) in
  let XrotationDegrees := f32 0.0 in
  let YrotationDegrees := f32 45.0 in
  let ZrotationDegrees := f32 0.0 in
  let positionXYZ := glm_vec3 (f32 2.01) (f32 1.01) (f32 0.01) in
  SetTransformations scaleXYZ XrotationDegrees YrotationDegrees
    ZrotationDegrees positionXYZ ;;
  SetTextureUVScale (f32 1.0) (f32 1.0) ;;
  SetShaderTexture "letterB" ;;
  m_basicMeshes DrawBoxMesh ;;
  gl (glPolygonOffset (f32 (-1.0)) (f32 (-1.0))) ;;
  gl (glBindTexture GL_TEXTURE_2D 0) ;;
  let scaleXYZ := glm_vec3 (f32 2.0) (f32 2.0) (f32 2.0) in
  let XrotationDegrees := f32 0.0 in
  let YrotationDegrees := f32 25.0 in
  let ZrotationDegrees := f32 0.0 in
  let positionXYZ := glm_vec3 (f32 0.75) (f32 3.0) (f32 0.75) in
  SetTransformations scaleXYZ XrotationDegrees YrotationDegrees
    ZrotationDegrees positionXYZ ;;
  SetTextureUVScale (f32 1.0) (f32 1.0) ;;
  SetShaderTexture "ashWood" ;;
  m_basicMeshes DrawBoxMesh ;;
  let scaleXYZ := glm_vec3 (f32 2.01) (f32 2.01) (f32 2.01) in
  let XrotationDegrees := f32 0.0 in
  let YrotationDegrees := f32 25.0 in
  let ZrotationDegrees := f32 0.0 in
  let positionXYZ := glm_vec3 (f32 0.7501) (f32 3.01) (f32 0.7501) in
  SetTransformations scaleXYZ XrotationDegrees YrotationDegrees
    ZrotationDegrees positionXYZ ;;
  SetShaderTexture "letterC" ;;
  m_basicMeshes DrawBoxMesh ;;
  gl (glPolygonOffset (f32 (-1.0)) (f32 (-1.0))) ;;
  gl (glBindTexture GL_TEXTURE_2D 0) ;;
  ret tt.

End Script.
End Module7.

Module Module4.
Section Revision.
Context `{glm : GLM}.

(** [SceneManager::CreateGLTexture] of Module 4 *)
Definition CreateGLTexture : string -> string -> M bool :=
  CreateGLTexture_wrapping GL_REPEAT.

End Revision.
End Module4.

Module Module3.
Section Script.
Context `{glm : GLM}.
Local Open Scope scene_scope.

(** [SceneManager::RenderScene] of the Module 3 assignment, whose
    [SetTransformations] and [SetShaderColor] are the ones above. *)
Definition RenderScene : M unit :=
  (* glm::vec3 scaleXYZ; declared without an initial value *)
  let XrotationDegrees := f32 0.0 in
  let YrotationDegrees := f32 0.0 in
  let ZrotationDegrees := f32 0.0 in
  (* glm::vec3 positionXYZ; declared without an initial value *)
  let scaleXYZ := glm_vec3 (f32 20.0) (f32 1.0) (f32 10.0) in
  let XrotationDegrees := f32 0.0 in
  let YrotationDegrees := f32 0.0 in
  let ZrotationDegrees := f32 0.0 in
  let positionXYZ := glm_vec3 (f32 0.0) (f32 0.0) (f32 0.0) in
  SetTransformations scaleXYZ XrotationDegrees YrotationDegrees
    ZrotationDegrees positionXYZ ;;
  SetShaderColor (f32 0.66667) (f32 0.77255) (f32 1.0) (f32 1.0) ;;
  m_basicMeshes DrawPlaneMesh ;;
  let scaleXYZ := glm_vec3 (f32 20.0) (f32 1.0) (f32 10.0) in
  let XrotationDegrees := f32 90.0 in
  let YrotationDegrees := f32 0.0 in
  let ZrotationDegrees := f32 0.0 in
  let positionXYZ := glm_vec3 (f32 0.0) (f32 9.0) (f32 (-10.0)) in
  SetTransformations scaleXYZ XrotationDegrees YrotationDegrees
    ZrotationDegrees positionXYZ ;;
  SetShaderColor (f32 0.66667) (f32 0.77255) (f32 1.0) (f32 1.0) ;;
  m_basicMeshes DrawPlaneMesh ;;
  let scaleXYZ := glm_vec3 (f32 2.0) (f32 3.0) (f32 2.0) in
  let XrotationDegrees := f32 0.0 in
  let YrotationDegrees := f32 90.0 in
  let ZrotationDegrees := f32 0.0 in
  let positionXYZ := glm_vec3 (f32 4.0) (f32 0.0) (f32 0.0) in
  SetTransformations scaleXYZ XrotationDegrees YrotationDegrees
    ZrotationDegrees positionXYZ ;;
  SetShaderColor (f32 0.49020) (f32 0.67843) (f32 1.0) (f32 1.0) ;;
  m_basicMeshes DrawCylinderMesh ;;
  let scaleXYZ := glm_vec3 (f32 2.0) (f32 4.5) (f32 2.0) in
  let XrotationDegrees := f32 0.0 in
  let YrotationDegrees := f32 90.0 in
  let ZrotationDegrees := f32 0.0 in
  let positionXYZ := glm_vec3 (f32 0.0) (f32 0.0) (f32 0.0) in
  SetTransformations scaleXYZ XrotationDegrees YrotationDegrees
    ZrotationDegrees positionXYZ ;;
  SetShaderColor (f32 0.49020) (f32 0.67843) (f32 1.0) (f32 1.0) ;;
  m_basicMeshes DrawCylinderMesh ;;
  let scaleXYZ := glm_vec3 (f32 2.0) (f32 1.5) (f32 2.0) in
  let XrotationDegrees := f32 0.0 in
  let YrotationDegrees := f32 90.0 in
  let ZrotationDegrees := f32 0.0 in
  let positionXYZ := glm_vec3 (f32 (-4.0)) (f32 0.0) (f32 0.0) in
  SetTransformations scaleXYZ XrotationDegrees YrotationDegrees
    ZrotationDegrees positionXYZ ;;
  SetShaderColor (f32 0.49020) (f32 0.67843) (f32 1.0) (f32 1.0) ;;
  m_basicMeshes DrawCylinderMesh ;;
  let scaleXYZ := glm_vec3 (f32 2.0) (f32 2.0) (f32 2.0) in
  let XrotationDegrees := f32 0.0 in
  let YrotationDegrees := f32 45.0 in
  let ZrotationDegrees := f32 0.0 in
  let positionXYZ := glm_vec3 (f32 4.0) (f32 4.0) (f32 0.0) in
  SetTransformations scaleXYZ XrotationDegrees YrotationDegrees
    ZrotationDegrees positionXYZ ;;
  SetShaderColor (f32 0.83137) (f32 0.32549) (f32 0.32549) (f32 1.0) ;;
  m_basicMeshes DrawBoxMesh ;;
  let scaleXYZ := glm_vec3 (f32 1.25) (f32 3.5) (f32 1.25) in
  let XrotationDegrees := f32 0.0 in
  let YrotationDegrees := f32 0.0 in
  let ZrotationDegrees := f32 0.0 in
  let positionXYZ := glm_vec3 (f32 0.0) (f32 4.5) (f32 0.0) in
  SetTransformations scaleXYZ XrotationDegrees YrotationDegrees
    ZrotationDegrees positionXYZ ;;
  SetShaderColor (f32 1.0) (f32 1.0) (f32 0.2) (f32 1.0) ;;
  m_basicMeshes DrawConeMesh ;;
  let scaleXYZ := glm_vec3 (f32 1.5) (f32 1.5) (f32 1.5) in
  let XrotationDegrees := f32 0.0 in
  let YrotationDegrees := f32 0.0 in
  let ZrotationDegrees := f32 0.0 in
  let positionXYZ := glm_vec3 (f32 (-4.0)) (f32 3.0) (f32 0.0) in
  SetTransformations scaleXYZ XrotationDegrees YrotationDegrees
    ZrotationDegrees positionXYZ ;;
  SetShaderColor (f32 0.8) (f32 0.3) (f32 0.9) (f32 1.0) ;;
  m_basicMeshes DrawSphereMesh ;;
  ret tt.

End Script.
End Module3.

(** * The vocabulary of the specification *)

Section Specification.
Context `{glm : GLM}.
Local Open Scope scene_scope.

(** ** The texture registry *)

(** Entry [i] is one of the [m_loadedTextures] registered entries. *)
Definition registered_at (s : SceneManager) (i : nat) (e : TEXTURE_INFO)
  : Prop :=
  Z.of_nat i < m_loadedTextures s /\ m_textureIDs s !! i = Some e.

(** Entry [i] is the first registered entry whose tag is [tag]. *)
Definition first_match (s : SceneManager) (tag : string) (i : nat)
  (e : TEXTURE_INFO) : Prop :=
  registered_at s i e /\ TextureInfo.tag e = tag /\
  forall j e', (j < i)%nat -> m_textureIDs s !! j = Some e' ->
               TextureInfo.tag e' <> tag.

(** No registered entry has the tag [tag]. *)
Definition no_match (s : SceneManager) (tag : string) : Prop :=
  forall i e, registered_at s i e -> TextureInfo.tag e <> tag.

(** The registered entries lie inside the array. *)
Definition registry_in_bounds (s : SceneManager) : Prop :=
  0 <= m_loadedTextures s <= Z.of_nat (length (m_textureIDs s)).

(** The condition and the body of the loop the two texture lookups share:
    [hit i] is the tag comparison at entry [i], [value_of i] the value
    stored on a match. *)
Definition scan_cond (n : Z) (l : lookup_locals) : bool :=
  (index l <? n) && negb (bFound l).

Definition scan_body (hit : Z -> bool) (value_of : Z -> Z) (l : lookup_locals)
  : lookup_locals :=
  if hit (index l)
  then {| found_value := value_of (index l); index := index l;
          bFound := true |}
  else {| found_value := found_value l; index := index l + 1;
          bFound := bFound l |}.

Definition tag_hit (s : SceneManager) (tag : string) (i : Z) : bool :=
  String.eqb (TextureInfo.tag (m_textureIDs s !!! Z.to_nat i)) tag.

(** ** Registration *)

(** The image has a channel count [CreateGLTexture] uploads. *)
Definition supported_channels (img : stb_image) : Prop :=
  colorChannels img = 3 \/ colorChannels img = 4.

(** The world after a successful registration. *)
Definition registered (tag : string) (w : world) : world :=
  let s := this w in
  let n := m_loadedTextures s in
  {| this :=
       with_loadedTextures (n + 1)
         (with_textureIDs
            (<[Z.to_nat n := TextureInfo.mk tag (next_texture_name w)]>
               (m_textureIDs s)) s);
     next_texture_name := next_texture_name w + 1;
     files := files w |}.

(** The calls [CreateGLTexture(filename, tag)] of a list, in order, with
    the value each returned. *)
Fixpoint CreateGLTextures (calls : list (string * string)) : M (list bool) :=
  match calls with
  | [] => ret []
  | (filename, tag) :: rest =>
      ok <- CreateGLTexture filename tag ;;
      oks <- CreateGLTextures rest ;;
      ret (ok :: oks)
  end.

(** The tags of the calls that returned [true], in order. *)
Fixpoint successful_tags (calls : list (string * string)) (oks : list bool)
  : list string :=
  match calls, oks with
  | (_, tag) :: calls', true :: oks' => tag :: successful_tags calls' oks'
  | _ :: calls', false :: oks' => successful_tags calls' oks'
  | _, _ => []
  end.

(** ** The material registry *)

(** The condition and the body of the loop of [FindMaterial]. *)
Definition material_cond (n : Z) (l : material_locals) : bool :=
  (mat_index l <? n) && negb (mat_bFound l).

Definition material_body (materials : list (OBJECT_MATERIAL float))
  (tag : string) (l : material_locals) : material_locals :=
  let entry := materials !!! Z.to_nat (mat_index l) in
  if String.eqb (ObjectMaterial.tag entry) tag
  then {| mat_index := mat_index l;
          mat_bFound := true;
          material :=
            ObjectMaterial.mk
              (ObjectMaterial.ambientColor entry)
              (ObjectMaterial.ambientStrength entry)
              (ObjectMaterial.diffuseColor entry)
              (ObjectMaterial.specularColor entry)
              (ObjectMaterial.shininess entry)
              (ObjectMaterial.tag (material l)) |}
  else {| mat_index := mat_index l + 1;
          mat_bFound := mat_bFound l;
          material := material l |}.

(** What the specification asks of the material lookup: the entry found,
    or not found. *)
Definition lookup_material (materials : list (OBJECT_MATERIAL float))
  (tag : string) : option (OBJECT_MATERIAL float) :=
  snd <$> list_find (fun m => ObjectMaterial.tag m = tag) materials.

(** ** The transform composer *)

(** The factors as the specification names them: the rotations are about
    the unit vectors of the three axes. *)
Definition Translate (position : vec3 float) : mat4 := glm_translate position.
Definition RotateX (angle : float) : mat4 :=
  glm_rotate angle (glm_vec3 (f32 1.0) (f32 0.0) (f32 0.0)).
Definition RotateY (angle : float) : mat4 :=
  glm_rotate angle (glm_vec3 (f32 0.0) (f32 1.0) (f32 0.0)).
Definition RotateZ (angle : float) : mat4 :=
  glm_rotate angle (glm_vec3 (f32 0.0) (f32 0.0) (f32 1.0)).
Definition Scale (scale : vec3 float) : mat4 := glm_scale scale.

(** The factors of a product of five matrices act on a point from right to
    left whenever the product acts as the composition. *)
Definition acts_as_composition {point : Type} (act : mat4 -> point -> point)
  : Prop :=
  forall (m1 m2 : mat4) (p : point), act (m1 * m2)%mat4 p = act m1 (act m2 p).

(** ** The scene script *)

(** A method replays: it returns, leaves the world as it found it, and
    what it returns and the calls it issues are the same in every world
    that holds the same [SceneManager] object. *)
Definition replays {A : Type} (m : M A) : Prop :=
  forall w, exists (x : A) (issued : list call),
    m w = Returns x w issued /\
    forall w', this w' = this w -> m w' = Returns x w' issued.

End Specification.

(** * Concrete runs

    An instance of the numeric interface in which every operation is kept
    as a formal expression: a value records the expression the C++ code
    evaluates to obtain it. *)

Module Symbolic.

Inductive sfloat : Type :=
| literal (q : Q)
| radians (degrees : sfloat).

Inductive smat4 : Type :=
| scale (v : vec3 sfloat)
| rotate (angle : sfloat) (axis : vec3 sfloat)
| translate (v : vec3 sfloat)
| product (m1 m2 : smat4).

#[export] Instance glm : GLM := {|
  float := sfloat;
  f32 := literal;
  mat4 := smat4;
  mat4_mul := product;
  glm_radians := radians;
  glm_scale := scale;
  glm_rotate := rotate;
  glm_translate := translate
|}.

(** A formal action: a point is the list of the factors applied to it,
    the last applied first. *)
Fixpoint act (m : smat4) (p : list smat4) : list smat4 :=
  match m with
  | product m1 m2 => act m1 (act m2 p)
  | _ => m :: p
  end.

(** Three image files: an RGB one, an RGBA one and a greyscale one; no
    other file can be decoded. *)
Definition disk (filename : string) : option stb_image :=
  if String.eqb filename "rgb.jpg" then
    Some {| width := 2; height := 1; colorChannels := 3;
            pixels := [Byte.xff; Byte.x00; Byte.x00;
                       Byte.x00; Byte.xff; Byte.x00] |}
  else if String.eqb filename "rgba.png" then
    Some {| width := 1; height := 1; colorChannels := 4;
            pixels := [Byte.xff; Byte.xff; Byte.xff; Byte.x80] |}
  else if String.eqb filename "grey.png" then
    Some {| width := 1; height := 1; colorChannels := 1;
            pixels := [Byte.x7f] |}
  else None.

(** A freshly constructed scene manager with a shader manager attached. *)
Definition fresh : world :=
  {| this := SceneManager_new (Some 1%N);
     next_texture_name := 1;
     files := disk |}.

(** The world a method call leaves, [w] itself when the call does not
    return. *)
Definition world_after {A : Type} (m : M A) (w : world) : world :=
  match m w with
  | Returns _ w' _ => w'
  | OutOfBounds _ _ => w
  end.

Definition calls_of {A : Type} (m : M A) (w : world) : list call :=
  match m w with
  | Returns _ _ issued => issued
  | OutOfBounds _ issued => issued
  end.

(** "A" and then "B" registered. *)
Definition register_A_B : M (list bool) :=
  CreateGLTextures [("rgb.jpg", "A"); ("rgba.png", "B")].

Definition after_A_B : world := world_after register_A_B fresh.

(** Sixteen textures registered: the registry is full. *)
Definition sixteen_calls : list (string * string) :=
  (fun i : nat => ("rgb.jpg", String (Ascii.ascii_of_nat (65 + i)) ""))
    <$> seq 0 16.

Definition full : world := world_after (CreateGLTextures sixteen_calls) fresh.

(** A scene manager holding one material, tagged "wood". *)
Definition wood : OBJECT_MATERIAL float :=
  ObjectMaterial.mk
    (glm_vec3 (f32 0.4) (f32 0.3) (f32 0.1)) (f32 0.2)
    (glm_vec3 (f32 0.3) (f32 0.2) (f32 0.1))
    (glm_vec3 (f32 0.1) (f32 0.1) (f32 0.1)) (f32 0.3) "wood".

Definition with_wood : SceneManager :=
  {| m_pShaderManager := Some 1%N;
     m_textureIDs := m_textureIDs (SceneManager_new (Some 1%N));
     m_loadedTextures := 0;
     m_objectMaterials := [wood] |}.

(** The contents of the caller's [material] before the lookup. *)
Definition blank : OBJECT_MATERIAL float :=
  ObjectMaterial.mk
    (glm_vec3 (f32 0) (f32 0) (f32 0)) (f32 0)
    (glm_vec3 (f32 0) (f32 0) (f32 0))
    (glm_vec3 (f32 0) (f32 0) (f32 0)) (f32 0) "".

(** The scene manager after [LoadSceneTextures], every texture file of the
    scene being an RGB image. *)
Definition loaded : world :=
  world_after Module7.LoadSceneTextures
    {| this := SceneManager_new (Some 1%N);
       next_texture_name := 1;
       files := fun _ => disk "rgb.jpg" |}.

Definition is_draw (c : call) : bool :=
  match c with
  | basicMeshes _ => true
  | _ => false
  end.

End Symbolic.

(** * Further methods and revisions *)

Section FurtherMethods.
Context `{glm : GLM}.
Local Open Scope scene_scope.

(** A method that calls through [m_pShaderManager] without testing it
    against [NULL] has no defined behaviour when the pointer is null. *)
Inductive through_shader (A : Type) : Type :=
| Called (o : outcome A)
| NullShaderManager.
Arguments Called {A} _.
Arguments NullShaderManager {A}.

(** [SceneManager::SetShaderMaterial].  The local variable [material] is
    declared without an initialiser; the parameter [material] stands for
    what it holds at that point. *)
Definition SetShaderMaterial (materialTag : string)
  (material : OBJECT_MATERIAL float) (w : world) : through_shader unit :=
  let s := this w in
  if 0 <? Z.of_nat (length (m_objectMaterials s)) then
    let bReturn := false in
    let '(bReturn, material) := FindMaterial s materialTag material in
    if bReturn then
      match m_pShaderManager s with
      | Some _ =>
          Called
            ((emit (setVec3Value "material.ambientColor"
                      (ObjectMaterial.ambientColor material)) ;;
              emit (setFloatValue "material.ambientStrength"
                      (ObjectMaterial.ambientStrength material)) ;;
              emit (setVec3Value "material.diffuseColor"
                      (ObjectMaterial.diffuseColor material)) ;;
              emit (setVec3Value "material.specularColor"
                      (ObjectMaterial.specularColor material)) ;;
              emit (setFloatValue "material.shininess"
                      (ObjectMaterial.shininess material))) w)
      | None => NullShaderManager
      end
    else Called (ret tt w)
  else Called (ret tt w).

End FurtherMethods.

Arguments through_shader {glm} A.
Arguments Called {glm A} _.
Arguments NullShaderManager {glm A}.

(** The Module 4 project, 7-1-3_FinalProjectMilestoneThree. *)
Module MilestoneThree.
Section Revision.
Context `{glm : GLM}.
Local Open Scope scene_scope.

(** [SceneManager::SetShaderTexture] of Module 4: the slot found is
    uploaded as it is. *)
Definition SetShaderTexture (textureTag : string) : M unit :=
  s <- get_this ;;
  match m_pShaderManager s with
  | Some _ =>
      emit (setIntValue g_UseTextureName 1) ;;
      let textureID := -1 in
      s <- get_this ;;
      let textureID := FindTextureSlot s textureTag in
      emit (setSampler2DValue g_TextureValueName textureID)
  | None => ret tt
  end.

(** [SceneManager::RenderScene] of Module 4 *)
Definition RenderScene : M unit :=
  (* glm::vec3 scaleXYZ; declared without an initial value *)
  let XrotationDegrees := f32 0.0 in
  let YrotationDegrees := f32 0.0 in
  let ZrotationDegrees := f32 0.0 in
  (* glm::vec3 positionXYZ; declared without an initial value *)
  let scaleXYZ := glm_vec3 (f32 20.0) (f32 1.0) (f32 10.0) in
  let XrotationDegrees := f32 0.0 in
  let YrotationDegrees := f32 0.0 in
  let ZrotationDegrees := f32 0.0 in
  let positionXYZ := glm_vec3 (f32 0.0) (f32 0.0) (f32 0.0) in
  SetTransformations scaleXYZ XrotationDegrees YrotationDegrees
    ZrotationDegrees positionXYZ ;;
  SetShaderColor (f32 1) (f32 1) (f32 1) (f32 1) ;;
  m_basicMeshes DrawPlaneMesh ;;
  let scaleXYZ := glm_vec3 (f32 20.0) (f32 1.0) (f32 10.0) in
  let XrotationDegrees := f32 90.0 in
  let YrotationDegrees := f32 0.0 in
  let ZrotationDegrees := f32 0.0 in
  let positionXYZ := glm_vec3 (f32 0.0) (f32 10.0) (f32 (-10.0)) in
  SetTransformations scaleXYZ XrotationDegrees YrotationDegrees
    ZrotationDegrees positionXYZ ;;
  SetShaderColor (f32 1) (f32 1) (f32 1) (f32 1) ;;
  m_basicMeshes DrawPlaneMesh ;;
  let scaleXYZ := glm_vec3 (f32 3.0) (f32 0.25) (f32 3.0) in
  let XrotationDegrees := f32 0.0 in
  let YrotationDegrees := f32 0.0 in
  let ZrotationDegrees := f32 0.0 in
  let positionXYZ := glm_vec3 (f32 10.0) (f32 0.0) (f32 (-1.5)) in
  SetTransformations scaleXYZ XrotationDegrees YrotationDegrees
    ZrotationDegrees positionXYZ ;;
  SetShaderColor (f32 0.94902) (f32 0.82353) (f32 0.74118) (f32 1.0) ;;
  m_basicMeshes DrawCylinderMesh ;;
  let scaleXYZ := glm_vec3 (f32 0.25) (f32 6.5) (f32 0.5) in
  let XrotationDegrees := f32 0.0 in
  let YrotationDegrees := f32 0.0 in
  let ZrotationDegrees := f32 0.0 in
  let positionXYZ := glm_vec3 (f32 10.0) (f32 0.5) (f32 (-1.5)) in
  SetTransformations scaleXYZ XrotationDegrees YrotationDegrees
    ZrotationDegrees positionXYZ ;;
  SetShaderColor (f32 0.94902) (f32 0.82353) (f32 0.74118) (f32 1.0) ;;
  m_basicMeshes DrawCylinderMesh ;;
  let scaleXYZ := glm_vec3 (f32 3.5) (f32 3.5) (f32 3.0) in
  let XrotationDegrees := f32 90.0 in
  let YrotationDegrees := f32 0.0 in
  let ZrotationDegrees := f32 0.0 in
  let positionXYZ := glm_vec3 (f32 10.0) (f32 0.5) (f32 (-1.5)) in
  SetTransformations scaleXYZ XrotationDegrees YrotationDegrees
    ZrotationDegrees positionXYZ ;;
  SetShaderColor (f32 0.78431) (f32 0.94118) (f32 1.0) (f32 1.0) ;;
  m_basicMeshes DrawTorusMesh ;;
  let scaleXYZ := glm_vec3 (f32 3.0) (f32 3.0) (f32 3.0) in
  let XrotationDegrees := f32 90.0 in
  let YrotationDegrees := f32 0.0 in
  let ZrotationDegrees := f32 0.0 in
  let positionXYZ := glm_vec3 (f32 10.0) (f32 1.5) (f32 (-1.5)) in
  SetTransformations scaleXYZ XrotationDegrees YrotationDegrees
    ZrotationDegrees positionXYZ ;;
  SetShaderColor (f32 0.28) (f32 0.44) (f32 0.96) (f32 1.0) ;;
  m_basicMeshes DrawTorusMesh ;;
  let scaleXYZ := glm_vec3 (f32 2.5) (f32 2.5) (f32 3.0) in
  let XrotationDegrees := f32 90.0 in
  let YrotationDegrees := f32 0.0 in
  let ZrotationDegrees := f32 0.0 in
  let positionXYZ := glm_vec3 (f32 10.0) (f32 2.5) (f32 (-1.5)) in
  SetTransformations scaleXYZ XrotationDegrees YrotationDegrees
    ZrotationDegrees positionXYZ ;;
  SetShaderColor (f32 1.0) (f32 0.33556) (f32 1.0) (f32 1.0) ;;
  m_basicMeshes DrawTorusMesh ;;
  let scaleXYZ := glm_vec3 (f32 2.0) (f32 2.0) (f32 3.0) in
  let XrotationDegrees := f32 90.0 in
  let YrotationDegrees := f32 0.0 in
  let ZrotationDegrees := f32 0.0 in
  let positionXYZ := glm_vec3 (f32 10.0) (f32 3.5) (f32 (-1.5)) in
  SetTransformations scaleXYZ XrotationDegrees YrotationDegrees
    ZrotationDegrees positionXYZ ;;
  SetShaderColor (f32 1.0) (f32 0.19608) (f32 0.19608) (f32 1.0) ;;
  m_basicMeshes DrawTorusMesh ;;
  let scaleXYZ := glm_vec3 (f32 1.5) (f32 1.5) (f32 3.0) in
  let XrotationDegrees := f32 90.0 in
  let YrotationDegrees := f32 0.0 in
  let ZrotationDegrees := f32 0.0 in
  let positionXYZ := glm_vec3 (f32 10.0) (f32 4.5) (f32 (-1.5)) in
  SetTransformations scaleXYZ XrotationDegrees YrotationDegrees
    ZrotationDegrees positionXYZ ;;
  SetShaderColor (f32 1.0) (f32 0.78431) (f32 0.0) (f32 1.0) ;;
  m_basicMeshes DrawTorusMesh ;;
  let scaleXYZ := glm_vec3 (f32 1.0) (f32 1.0) (f32 3.0) in
  let XrotationDegrees := f32 90.0 in
  let YrotationDegrees := f32 0.0 in
  let ZrotationDegrees := f32 0.0 in
  let positionXYZ := glm_vec3 (f32 10.0) (f32 5.5) (f32 (-1.5)) in
  SetTransformations scaleXYZ XrotationDegrees YrotationDegrees
    ZrotationDegrees positionXYZ ;;
  SetShaderColor (f32 0.59216) (f32 0.78431) (f32 0.23523) (f32 1.0) ;;
  m_basicMeshes DrawTorusMesh ;;
  ret tt.

End Revision.
End MilestoneThree.

(** * Further vocabulary *)

Section FurtherVocabulary.
Context `{glm : GLM}.

(** The call returns, and its result, the world it leaves and the calls it
    issued satisfy [post]. *)
Definition returns {A : Type} (o : outcome A)
  (post : A -> world -> list call -> Prop) : Prop :=
  exists x w issued, o = Returns x w issued /\ post x w issued.

(** [stbi_load] decodes the file into an image [CreateGLTexture]
    uploads. *)
Definition decodes (w : world) (filename : string) : bool :=
  match files w filename with
  | Some img => (colorChannels img =? 3) || (colorChannels img =? 4)
  | None => false
  end.

(** The calls of a registration that succeeds, [name] being the texture
    name generated for it. *)
Definition registration_calls (wrap : GLenum) (filename : string)
  (img : stb_image) (name : Z) : list call :=
  [stbi_set_flip_vertically_on_load true;
   stbi_load filename;
   cout (Successfully_loaded_image filename (width img) (height img)
           (colorChannels img));
   glGenTextures 1 name;
   glBindTexture GL_TEXTURE_2D name;
   glTexParameteri GL_TEXTURE_2D GL_TEXTURE_WRAP_S wrap;
   glTexParameteri GL_TEXTURE_2D GL_TEXTURE_WRAP_T wrap;
   glTexParameteri GL_TEXTURE_2D GL_TEXTURE_MIN_FILTER GL_LINEAR;
   glTexParameteri GL_TEXTURE_2D GL_TEXTURE_MAG_FILTER GL_LINEAR;
   (if colorChannels img =? 3
    then glTexImage2D GL_TEXTURE_2D 0 GL_RGB8 (width img) (height img) 0
           GL_RGB GL_UNSIGNED_BYTE (pixels img)
    else glTexImage2D GL_TEXTURE_2D 0 GL_RGBA8 (width img) (height img) 0
           GL_RGBA GL_UNSIGNED_BYTE (pixels img));
   glGenerateMipmap GL_TEXTURE_2D;
   stbi_image_free;
   glBindTexture GL_TEXTURE_2D 0].

(** The calls of a registration that rejects the channel count of the
    decoded image. *)
Definition rejection_calls (wrap : GLenum) (filename : string)
  (img : stb_image) (name : Z) : list call :=
  [stbi_set_flip_vertically_on_load true;
   stbi_load filename;
   cout (Successfully_loaded_image filename (width img) (height img)
           (colorChannels img));
   glGenTextures 1 name;
   glBindTexture GL_TEXTURE_2D name;
   glTexParameteri GL_TEXTURE_2D GL_TEXTURE_WRAP_S wrap;
   glTexParameteri GL_TEXTURE_2D GL_TEXTURE_WRAP_T wrap;
   glTexParameteri GL_TEXTURE_2D GL_TEXTURE_MIN_FILTER GL_LINEAR;
   glTexParameteri GL_TEXTURE_2D GL_TEXTURE_MAG_FILTER GL_LINEAR;
   cout (Not_implemented_to_handle_image (colorChannels img))].

(** The calls of [BindGLTextures] for the entries [entries], the first of
    them in slot [first]. *)
Fixpoint bind_calls (first : Z) (entries : list TEXTURE_INFO) : list call :=
  match entries with
  | [] => []
  | e :: entries' =>
      glActiveTexture (GL_TEXTURE0 + first)
      :: glBindTexture GL_TEXTURE_2D (TextureInfo.ID e)
      :: bind_calls (first + 1) entries'
  end.

(** The textures bound to [GL_TEXTURE_2D] by a sequence of calls, in
    order; the last one is the texture left bound. *)
Definition bound_textures (issued : list call) : list Z :=
  omap (fun c =>
          match c with
          | glBindTexture GL_TEXTURE_2D texture => Some texture
          | _ => None
          end) issued.

(** The calls that go to OpenGL, as opposed to the image loader, the
    console, the shader manager and the meshes. *)
Definition is_gl_call (c : call) : bool :=
  match c with
  | glGenTextures _ _ | glDeleteTextures _ _ | glBindTexture _ _
  | glTexParameteri _ _ _ | glTexImage2D _ _ _ _ _ _ _ _ _
  | glGenerateMipmap _ | glActiveTexture _ | glPolygonOffset _ _ => true
  | _ => false
  end.

(** The handles of the registry were handed out by the context: the next
    unused texture name is positive, and the handle of every registered
    entry is a positive name below it. *)
Definition handles_generated (w : world) : Prop :=
  0 < next_texture_name w /\
  forall i e, registered_at (this w) i e ->
    0 < TextureInfo.ID e < next_texture_name w.

(** How many of the calls of a list decode an image [CreateGLTexture]
    uploads. *)
Fixpoint decoded_count (w : world) (calls : list (string * string)) : Z :=
  match calls with
  | [] => 0
  | (filename, _) :: calls' =>
      (if decodes w filename then 1 else 0) + decoded_count w calls'
  end.

(** The five uploads of [SetShaderMaterial]. *)
Definition material_uploads (m : OBJECT_MATERIAL float) : list call :=
  [setVec3Value "material.ambientColor" (ObjectMaterial.ambientColor m);
   setFloatValue "material.ambientStrength" (ObjectMaterial.ambientStrength m);
   setVec3Value "material.diffuseColor" (ObjectMaterial.diffuseColor m);
   setVec3Value "material.specularColor" (ObjectMaterial.specularColor m);
   setFloatValue "material.shininess" (ObjectMaterial.shininess m)].

(** Entry [i] is the first material whose tag is [tag]. *)
Definition first_material (materials : list (OBJECT_MATERIAL float))
  (tag : string) (i : nat) (e : OBJECT_MATERIAL float) : Prop :=
  materials !! i = Some e /\ ObjectMaterial.tag e = tag /\
  forall j e', (j < i)%nat -> materials !! j = Some e' ->
               ObjectMaterial.tag e' <> tag.

(** The tags of [LoadSceneTextures], in the order of its calls. *)
Definition scene_tags : list string :=
  ["oakWood"; "metalTexture"; "steelTexture"; "ltbluePlastic"; "bluePlastic";
   "magentaPlastic"; "redPlastic"; "orangePlastic"; "greenPlastic";
   "ashWood"; "letterA"; "letterB"; "letterC"].

(** What a statement of a scene script contributes to the frame: the
    model matrix, the choice between color and texture, the draw. *)
Inductive step : Type := Transform | Appearance | Draw.

Definition step_of (c : call) : option step :=
  match c with
  | setMat4Value _ _ => Some Transform
  | setIntValue _ _ => Some Appearance
  | basicMeshes _ => Some Draw
  | _ => None
  end.

Definition steps (issued : list call) : list step := omap step_of issued.

(** One object of a scene: its transform, its appearance, its draw. *)
Definition object_steps : list step := [Transform; Appearance; Draw].

Definition is_sampler_upload (c : call) : bool :=
  match c with
  | setSampler2DValue _ _ => true
  | _ => false
  end.

Definition is_shader_call (c : call) : bool :=
  match c with
  | setMat4Value _ _ | setIntValue _ _ | setFloatValue _ _
  | setVec2Value _ _ | setVec3Value _ _ | setVec4Value _ _
  | setSampler2DValue _ _ => true
  | _ => false
  end.

Definition is_use_texture (c : call) : bool :=
  match c with
  | setIntValue name 1 => String.eqb name "bUseTexture"
  | _ => false
  end.

(** The array of 16 entries is intact and at most [k] textures are
    registered. *)
Definition loaded_at_most (k : Z) (w : world) : Prop :=
  length (m_textureIDs (this w)) = 16%nat /\
  0 <= m_loadedTextures (this w) <= k.

(** The scene manager built by the constructor after registrations under
    the tags [tags] have succeeded, the first of them with the texture
    name [name]. *)
Definition loaded_with (tags : list string) (pShaderManager : option N)
  (name : Z) : SceneManager :=
  {| m_pShaderManager := pShaderManager;
     m_textureIDs :=
       imap (fun i tag => TextureInfo.mk tag (name + Z.of_nat i)) tags
       ++ replicate (16 - length tags) (TextureInfo.mk "/0" 4294967295);
     m_loadedTextures := Z.of_nat (length tags);
     m_objectMaterials := [] |}.

(** The world of a scene manager [loaded_with] the tags [tags], in which
    the next texture name follows the ones handed out and every file
    decodes. *)
Definition registered_tags (tags : list string) (pShaderManager : option N)
  (name : Z) (w : world) : Prop :=
  this w = loaded_with tags pShaderManager name /\
  next_texture_name w = name + Z.of_nat (length tags) /\
  forall filename, decodes w filename = true.

(** With a shader manager attached, the script [m] returns, leaves the
    world as it was and contributes the steps [ss] to the frame. *)
Definition frames (m : M unit) (ss : list step) : Prop :=
  forall w, m_pShaderManager (this w) <> None ->
    exists issued, m w = Returns tt w issued /\ steps issued = ss.

(** Without a shader manager, the script [m] returns, leaves the world as
    it was, contributes the steps [ss] and calls no method of the shader
    manager. *)
Definition frames_without_shader (m : M unit) (ss : list step) : Prop :=
  forall w, m_pShaderManager (this w) = None ->
    exists issued,
      m w = Returns tt w issued /\ steps issued = ss /\
      filter is_shader_call issued = [].

(** The call stops at a write through [index], outside the array. *)
Definition faults {A : Type} (o : outcome A) (index : Z) : Prop :=
  exists issued, o = OutOfBounds index issued.

Definition issued_by {A : Type} (o : outcome A) : list call :=
  match o with
  | Returns _ _ issued => issued
  | OutOfBounds _ issued => issued
  end.

End FurtherVocabulary.

(** Further worlds for the concrete runs. *)
Module Scenario.
Import Symbolic.

(** A freshly constructed scene manager in a world where every file is an
    RGB image. *)
Definition all_rgb : world :=
  {| this := SceneManager_new (Some 1%N);
     next_texture_name := 1;
     files := fun _ => disk "rgb.jpg" |}.

(** A second material tagged "wood", after the first. *)
Definition dark_wood : OBJECT_MATERIAL float :=
  ObjectMaterial.mk
    (glm_vec3 (f32 0.2) (f32 0.1) (f32 0.0)) (f32 0.1)
    (glm_vec3 (f32 0.2) (f32 0.1) (f32 0.1))
    (glm_vec3 (f32 0.0) (f32 0.0) (f32 0.0)) (f32 0.5) "wood".

Definition two_woods : world :=
  {| this :=
       {| m_pShaderManager := Some 1%N;
          m_textureIDs := m_textureIDs (SceneManager_new (Some 1%N));
          m_loadedTextures := 0;
          m_objectMaterials := [wood; dark_wood] |};
     next_texture_name := 1;
     files := disk |}.

(** The same object without a shader manager. *)
Definition two_woods_no_shader : world :=
  {| this :=
       {| m_pShaderManager := None;
          m_textureIDs := m_textureIDs (SceneManager_new None);
          m_loadedTextures := 0;
          m_objectMaterials := [wood; dark_wood] |};
     next_texture_name := 1;
     files := disk |}.

End Scenario.
(** * Properties *)

Section LinearScan.
Variables (n : Z) (hit : Z -> bool) (value_of : Z -> Z).

Lemma scan_miss (fuel : nat) (i v : Z) :
  n <= i + Z.of_nat fuel -> i <= n ->
  (forall j, i <= j < n -> hit j = false) ->
  while fuel (scan_cond n) (scan_body hit value_of)
    {| found_value := v; index := i; bFound := false |}
  = {| found_value := v; index := n; bFound := false |}.
Proof.
  revert i. induction fuel as [|fuel IH]; intros i Hfuel Hi Hmiss.
  - simpl. replace i with n by lia. reflexivity.
  - simpl. unfold scan_cond at 1. simpl.
    destruct (Z.ltb_spec i n) as [Hlt|Hge]; simpl.
    + unfold scan_body at 2. simpl. rewrite Hmiss by lia.
      apply IH; [lia | lia | intros j Hj; apply Hmiss; lia].
    + replace i with n by lia. reflexivity.
Qed.

Lemma scan_hit (fuel : nat) (i v j : Z) :
  n <= i + Z.of_nat fuel -> i <= j < n ->
  hit j = true ->
  (forall j', i <= j' < j -> hit j' = false) ->
  while fuel (scan_cond n) (scan_body hit value_of)
    {| found_value := v; index := i; bFound := false |}
  = {| found_value := value_of j; index := j; bFound := true |}.
Proof.
  revert i. induction fuel as [|fuel IH]; intros i Hfuel Hj Hhit Hmiss.
  - simpl in Hfuel. lia.
  - simpl. unfold scan_cond at 1. simpl.
    destruct (Z.ltb_spec i n) as [Hlt|Hge]; [simpl | lia].
    unfold scan_body at 2. simpl.
    destruct (Z.eq_dec i j) as [->|Hne].
    + rewrite Hhit. destruct fuel; simpl; [reflexivity|].
      unfold scan_cond at 1. simpl. rewrite andb_false_r. reflexivity.
    + rewrite Hmiss by lia.
      apply IH; [lia | lia | assumption | intros j' Hj'; apply Hmiss; lia].
Qed.

(** The fuel is enough: the iteration stops because the loop condition is
    false. *)
Lemma scan_exits (fuel : nat) (i v : Z) :
  n <= i + Z.of_nat fuel ->
  scan_cond n
    (while fuel (scan_cond n) (scan_body hit value_of)
       {| found_value := v; index := i; bFound := false |}) = false.
Proof.
  revert i v. induction fuel as [|fuel IH]; intros i v Hfuel.
  - simpl. unfold scan_cond. simpl.
    destruct (Z.ltb_spec i n); [lia | reflexivity].
  - simpl.
    destruct (scan_cond n {| found_value := v; index := i; bFound := false |})
      eqn:Hc; [|exact Hc].
    unfold scan_body at 2. simpl. destruct (hit i).
    + destruct fuel; simpl; unfold scan_cond; simpl; rewrite ?andb_false_r;
        reflexivity.
    + apply IH. lia.
Qed.

End LinearScan.

Section Registry.
Context `{glm : GLM}.
Local Open Scope scene_scope.

(** The two lookups are instances of the linear scan. *)
Lemma FindTextureSlot_scan s tag :
  FindTextureSlot s tag
  = found_value
      (while (Z.to_nat (m_loadedTextures s))
         (scan_cond (m_loadedTextures s))
         (scan_body (tag_hit s tag) (fun i => i))
         {| found_value := -1; index := 0; bFound := false |}).
Proof. reflexivity. Qed.

Lemma FindTextureID_scan s tag :
  FindTextureID s tag
  = found_value
      (while (Z.to_nat (m_loadedTextures s))
         (scan_cond (m_loadedTextures s))
         (scan_body (tag_hit s tag)
            (fun i => int_of_GLuint
                        (TextureInfo.ID (m_textureIDs s !!! Z.to_nat i))))
         {| found_value := -1; index := 0; bFound := false |}).
Proof. reflexivity. Qed.

(** Both loops stop on their condition, not on the bound of the
    iteration. *)
Lemma FindTexture_loops_exit s tag value_of :
  scan_cond (m_loadedTextures s)
    (while (Z.to_nat (m_loadedTextures s))
       (scan_cond (m_loadedTextures s))
       (scan_body (tag_hit s tag) value_of)
       {| found_value := -1; index := 0; bFound := false |}) = false.
Proof. apply scan_exits. lia. Qed.

Lemma tag_hit_first_match s tag i e :
  first_match s tag i e ->
  tag_hit s tag (Z.of_nat i) = true /\
  forall j, 0 <= j < Z.of_nat i -> tag_hit s tag j = false.
Proof.
  intros [[Hlt Hi] [Htag Hfirst]]. unfold tag_hit. split.
  - rewrite Nat2Z.id, (list_lookup_total_correct _ _ _ Hi).
    apply String.eqb_eq, Htag.
  - intros j Hj. apply String.eqb_neq.
    assert (Hlen : (Z.to_nat j < length (m_textureIDs s))%nat).
    { apply lookup_lt_Some in Hi. lia. }
    destruct (lookup_lt_is_Some_2 _ _ Hlen) as [e' He'].
    rewrite (list_lookup_total_correct _ _ _ He').
    apply (Hfirst (Z.to_nat j)); [lia | exact He'].
Qed.

Lemma tag_hit_no_match s tag :
  m_loadedTextures s <= Z.of_nat (length (m_textureIDs s)) ->
  no_match s tag ->
  forall j, 0 <= j < m_loadedTextures s -> tag_hit s tag j = false.
Proof.
  intros Hlen Hno j Hj. unfold tag_hit. apply String.eqb_neq.
  assert (Hlt : (Z.to_nat j < length (m_textureIDs s))%nat) by lia.
  destruct (lookup_lt_is_Some_2 _ _ Hlt) as [e He].
  rewrite (list_lookup_total_correct _ _ _ He).
  apply (Hno (Z.to_nat j)). split; [lia | exact He].
Qed.

Lemma FindTextureSlot_first_match s tag i e :
  first_match s tag i e -> FindTextureSlot s tag = Z.of_nat i.
Proof.
  intros Hfirst. destruct (tag_hit_first_match _ _ _ _ Hfirst) as [Hhit Hmiss].
  destruct Hfirst as [[Hlt _] _]. rewrite FindTextureSlot_scan.
  rewrite (scan_hit (m_loadedTextures s) (tag_hit s tag) (fun i => i)
             _ 0 (-1) (Z.of_nat i)); [reflexivity | lia | lia | exact Hhit |].
  intros j Hj. apply Hmiss. lia.
Qed.

Lemma FindTextureID_first_match s tag i e :
  first_match s tag i e ->
  FindTextureID s tag = int_of_GLuint (TextureInfo.ID e).
Proof.
  intros Hfirst. destruct (tag_hit_first_match _ _ _ _ Hfirst) as [Hhit Hmiss].
  destruct Hfirst as [[Hlt Hi] _]. rewrite FindTextureID_scan.
  rewrite (scan_hit (m_loadedTextures s) (tag_hit s tag)
             (fun i => int_of_GLuint
                         (TextureInfo.ID (m_textureIDs s !!! Z.to_nat i)))
             _ 0 (-1) (Z.of_nat i)); [| lia | lia | exact Hhit |].
  - simpl. rewrite Nat2Z.id, (list_lookup_total_correct _ _ _ Hi). reflexivity.
  - intros j Hj. apply Hmiss. lia.
Qed.

Lemma FindTextureSlot_no_match s tag :
  m_loadedTextures s <= Z.of_nat (length (m_textureIDs s)) ->
  no_match s tag -> FindTextureSlot s tag = -1.
Proof.
  intros Hlen Hno. rewrite FindTextureSlot_scan.
  destruct (Z.le_gt_cases 0 (m_loadedTextures s)) as [Hn|Hn].
  - rewrite (scan_miss (m_loadedTextures s) (tag_hit s tag) (fun i => i)
               _ 0 (-1)); [reflexivity | lia | lia |].
    apply tag_hit_no_match; assumption.
  - replace (Z.to_nat (m_loadedTextures s)) with 0%nat by lia. reflexivity.
Qed.

Lemma FindTextureID_no_match s tag :
  m_loadedTextures s <= Z.of_nat (length (m_textureIDs s)) ->
  no_match s tag -> FindTextureID s tag = -1.
Proof.
  intros Hlen Hno. rewrite FindTextureID_scan.
  destruct (Z.le_gt_cases 0 (m_loadedTextures s)) as [Hn|Hn].
  - rewrite (scan_miss (m_loadedTextures s) (tag_hit s tag)
               (fun i => int_of_GLuint
                           (TextureInfo.ID (m_textureIDs s !!! Z.to_nat i)))
               _ 0 (-1)); [reflexivity | lia | lia |].
    apply tag_hit_no_match; assumption.
  - replace (Z.to_nat (m_loadedTextures s)) with 0%nat by lia. reflexivity.
Qed.

Lemma int_of_GLuint_small (v : Z) : 0 <= v < 2 ^ 31 -> int_of_GLuint v = v.
Proof.
  intros Hv. unfold int_of_GLuint.
  rewrite Z.mod_small by lia.
  destruct (Z.ltb_spec v (2 ^ 31)); [reflexivity | lia].
Qed.

(** C9.  Both texture lookups scan the registered entries from index 0:
    on the first entry whose tag equals the query, [FindTextureSlot]
    returns its index and [FindTextureID] its handle, converted to the
    [int] the method returns (the handle itself when it is below 2^31);
    when none of the first [m_loadedTextures] entries matches both return
    -1. *)
Theorem FindTexture_linear_scan (s : SceneManager) (tag : string) :
  m_loadedTextures s <= Z.of_nat (length (m_textureIDs s)) ->
  (forall i e, first_match s tag i e ->
     FindTextureSlot s tag = Z.of_nat i /\
     FindTextureID s tag = int_of_GLuint (TextureInfo.ID e) /\
     (0 <= TextureInfo.ID e < 2 ^ 31 ->
      FindTextureID s tag = TextureInfo.ID e)) /\
  (no_match s tag ->
     FindTextureSlot s tag = -1 /\ FindTextureID s tag = -1).
Proof.
  intros Hlen. split.
  - intros i e Hfirst. split; [|split].
    + eapply FindTextureSlot_first_match, Hfirst.
    + eapply FindTextureID_first_match, Hfirst.
    + intros Hsmall. rewrite (FindTextureID_first_match _ _ _ _ Hfirst).
      apply int_of_GLuint_small, Hsmall.
  - intros Hno. split.
    + apply FindTextureSlot_no_match; assumption.
    + apply FindTextureID_no_match; assumption.
Qed.

(** ** Registration *)

(** The entry [CreateGLTexture] writes, in two assignments. *)
Lemma alter_tag_ID (ids : list TEXTURE_INFO) (i : nat) (tag : string)
  (name : Z) :
  alter (set_tag tag) i (alter (set_ID name) i ids)
  = <[i := TextureInfo.mk tag name]> ids.
Proof.
  rewrite list_alter_alter_eq, list_insert_alter.
  apply list_alter_ext; [|reflexivity].
  intros e _. reflexivity.
Qed.

Lemma CreateGLTexture_decode_failure wrap filename tag w :
  files w filename = None ->
  CreateGLTexture_wrapping wrap filename tag w
  = Returns false w
      [stbi_set_flip_vertically_on_load true; stbi_load filename;
       cout (Could_not_load_image filename)].
Proof.
  intros Hfile. unfold CreateGLTexture_wrapping, bind, emit, call_stbi_load, ret.
  rewrite Hfile. reflexivity.
Qed.

Lemma CreateGLTexture_unsupported wrap filename tag w img :
  files w filename = Some img -> ~ supported_channels img ->
  exists issued,
    CreateGLTexture_wrapping wrap filename tag w
    = Returns false
        {| this := this w; next_texture_name := next_texture_name w + 1;
           files := files w |} issued.
Proof.
  intros Hfile Hch. unfold supported_channels in Hch.
  unfold CreateGLTexture_wrapping, bind, emit, call_stbi_load, ret, glGenTextures_1.
  rewrite Hfile. simpl.
  destruct (Z.eqb_spec (colorChannels img) 3) as [H3|H3]; [tauto|].
  destruct (Z.eqb_spec (colorChannels img) 4) as [H4|H4]; [tauto|].
  eexists. reflexivity.
Qed.

Lemma CreateGLTexture_registers wrap filename tag w img :
  files w filename = Some img -> supported_channels img ->
  0 <= m_loadedTextures (this w)
    < Z.of_nat (length (m_textureIDs (this w))) ->
  exists issued,
    CreateGLTexture_wrapping wrap filename tag w = Returns true (registered tag w) issued.
Proof.
  intros Hfile Hch Hn.
  assert (Hin : (0 <=? m_loadedTextures (this w))
                && (m_loadedTextures (this w)
                    <? Z.of_nat (length (m_textureIDs (this w)))) = true).
  { apply andb_true_iff. split; [apply Z.leb_le | apply Z.ltb_lt]; lia. }
  unfold CreateGLTexture_wrapping, bind, emit, call_stbi_load, ret, glGenTextures_1,
    get_this, assign_textureIDs, increment_loadedTextures.
  rewrite Hfile. simpl.
  destruct Hch as [Hc|Hc]; rewrite Hc; simpl; rewrite Hin; simpl;
    rewrite length_alter, Hin; simpl; rewrite alter_tag_ID;
    eexists; reflexivity.
Qed.

Lemma CreateGLTexture_out_of_bounds wrap filename tag w img :
  files w filename = Some img -> supported_channels img ->
  ~ (0 <= m_loadedTextures (this w)
       < Z.of_nat (length (m_textureIDs (this w)))) ->
  exists issued,
    CreateGLTexture_wrapping wrap filename tag w
    = OutOfBounds (m_loadedTextures (this w)) issued.
Proof.
  intros Hfile Hch Hn.
  assert (Hout : (0 <=? m_loadedTextures (this w))
                 && (m_loadedTextures (this w)
                     <? Z.of_nat (length (m_textureIDs (this w)))) = false).
  { apply andb_false_iff.
    destruct (Z.leb_spec 0 (m_loadedTextures (this w))); [right | left; easy].
    apply Z.ltb_ge. lia. }
  unfold CreateGLTexture_wrapping, bind, emit, call_stbi_load, ret, glGenTextures_1,
    get_this, assign_textureIDs, increment_loadedTextures.
  rewrite Hfile. simpl.
  destruct Hch as [Hc|Hc]; rewrite Hc; simpl; rewrite Hout;
    eexists; reflexivity.
Qed.

Lemma CreateGLTexture_Returns_inv wrap filename tag w ok w' issued :
  CreateGLTexture_wrapping wrap filename tag w = Returns ok w' issued ->
  (ok = false /\ this w' = this w /\
   (files w filename = None \/
    exists img, files w filename = Some img /\ ~ supported_channels img))
  \/
  (ok = true /\ w' = registered tag w /\
   0 <= m_loadedTextures (this w)
     < Z.of_nat (length (m_textureIDs (this w))) /\
   exists img, files w filename = Some img /\ supported_channels img).
Proof.
  intros Hrun. destruct (files w filename) as [img|] eqn:Hfile.
  - destruct (decide (colorChannels img = 3 \/ colorChannels img = 4))
      as [Hch|Hch].
    + destruct (decide (0 <= m_loadedTextures (this w)
                          < Z.of_nat (length (m_textureIDs (this w)))))
        as [Hn|Hn].
      * destruct (CreateGLTexture_registers wrap _ tag _ _ Hfile Hch Hn)
          as [issued' Heq].
        rewrite Heq in Hrun. injection Hrun as <- <- <-.
        right. eauto 10.
      * destruct (CreateGLTexture_out_of_bounds wrap _ tag _ _ Hfile Hch Hn)
          as [issued' Heq].
        rewrite Heq in Hrun. discriminate.
    + destruct (CreateGLTexture_unsupported wrap _ tag _ _ Hfile Hch)
        as [issued' Heq].
      rewrite Heq in Hrun. injection Hrun as <- <- <-.
      left. eauto 10.
  - rewrite (CreateGLTexture_decode_failure wrap _ tag _ Hfile) in Hrun.
    injection Hrun as <- <- <-. left. auto.
Qed.

(** C6.  [CreateGLTexture] returns [false] exactly when the file cannot be
    decoded or the decoded image has a channel count other than 3 and 4;
    for a decodable image with 3 or 4 channels and a free slot among the
    16 it returns [true]. *)
Theorem CreateGLTexture_failure_iff (filename tag : string) (w : world) :
  ((exists w' issued,
      CreateGLTexture filename tag w = Returns false w' issued)
   <->
   (files w filename = None \/
    exists img, files w filename = Some img /\ ~ supported_channels img))
  /\
  (forall img,
     files w filename = Some img -> supported_channels img ->
     length (m_textureIDs (this w)) = 16%nat ->
     0 <= m_loadedTextures (this w) < 16 ->
     exists w' issued,
       CreateGLTexture filename tag w = Returns true w' issued).
Proof.
  unfold CreateGLTexture. split; [split|].
  - intros (w' & issued & Hrun).
    apply CreateGLTexture_Returns_inv in Hrun as [(_ & _ & H)|(H & _)];
      [exact H | discriminate].
  - intros [Hfile|(img & Hfile & Hch)].
    + rewrite (CreateGLTexture_decode_failure _ _ _ _ Hfile). eauto.
    + destruct (CreateGLTexture_unsupported GL_CLAMP_TO_EDGE _ tag _ _
                  Hfile Hch) as [issued Heq].
      rewrite Heq. eauto.
  - intros img Hfile Hch Hlen Hn.
    destruct (CreateGLTexture_registers GL_CLAMP_TO_EDGE _ tag _ _ Hfile Hch)
      as [issued Heq]; [lia|].
    rewrite Heq. eauto.
Qed.

(** C7.  When [CreateGLTexture] returns [false] the object is as it was
    before the call: no entry of the registry is written, every entry
    keeps its tag and handle at its index, and [m_loadedTextures] is not
    incremented. *)
Theorem CreateGLTexture_failure_keeps_registry (filename tag : string)
  (w w' : world) (issued : list call) :
  CreateGLTexture filename tag w = Returns false w' issued ->
  this w' = this w /\
  m_textureIDs (this w') = m_textureIDs (this w) /\
  m_loadedTextures (this w') = m_loadedTextures (this w).
Proof.
  unfold CreateGLTexture. intros Hrun.
  apply CreateGLTexture_Returns_inv in Hrun as [(_ & Hthis & _)|(H & _)];
    [|discriminate].
  rewrite Hthis. auto.
Qed.

(** The same holds of the Module 4 revision. *)
Lemma Module4_CreateGLTexture_failure_keeps_registry (filename tag : string)
  (w w' : world) (issued : list call) :
  Module4.CreateGLTexture filename tag w = Returns false w' issued ->
  this w' = this w.
Proof.
  unfold Module4.CreateGLTexture. intros Hrun.
  apply CreateGLTexture_Returns_inv in Hrun as [(_ & Hthis & _)|(H & _)];
    [exact Hthis | discriminate].
Qed.

(** With all 16 entries in use, a registration that decodes its image
    writes through index 16, outside the array. *)
Lemma CreateGLTexture_at_capacity filename tag w img :
  length (m_textureIDs (this w)) = 16%nat ->
  m_loadedTextures (this w) = 16 ->
  files w filename = Some img -> supported_channels img ->
  exists issued, CreateGLTexture filename tag w = OutOfBounds 16 issued.
Proof.
  intros Hlen Hn Hfile Hch. unfold CreateGLTexture.
  destruct (CreateGLTexture_out_of_bounds GL_CLAMP_TO_EDGE _ tag _ _
              Hfile Hch) as [issued Heq]; [lia|].
  rewrite Hn in Heq. eauto.
Qed.

(** ** Sequences of registrations *)

Lemma registered_in_bounds tag w :
  0 <= m_loadedTextures (this w)
    < Z.of_nat (length (m_textureIDs (this w))) ->
  registry_in_bounds (this (registered tag w)).
Proof.
  unfold registry_in_bounds, registered. simpl.
  rewrite length_insert. lia.
Qed.

(** What a run of registrations leaves in the registry: the entries that
    were there stay, and the successful calls fill the following slots in
    order. *)
Lemma CreateGLTextures_registry calls : forall w oks w' issued,
  registry_in_bounds (this w) ->
  CreateGLTextures calls w = Returns oks w' issued ->
  let n := m_loadedTextures (this w) in
  let tags := successful_tags calls oks in
  registry_in_bounds (this w') /\
  m_loadedTextures (this w') = n + Z.of_nat (length tags) /\
  (forall i, (i < Z.to_nat n)%nat ->
     m_textureIDs (this w') !! i = m_textureIDs (this w) !! i) /\
  (forall i tag, tags !! i = Some tag ->
     exists e, m_textureIDs (this w') !! (Z.to_nat n + i)%nat = Some e /\
               TextureInfo.tag e = tag).
Proof.
  induction calls as [|[filename tag] calls IH]; intros w oks w' issued Hwf Hrun.
  - injection Hrun as <- <- <-. simpl.
    split; [exact Hwf|]. split; [lia|]. split; [reflexivity|].
    intros i tag Htag. discriminate.
  - cbn [CreateGLTextures] in Hrun. unfold bind at 1 in Hrun.
    destruct (CreateGLTexture filename tag w) as [ok w1 c1|] eqn:Hfirst;
      [|discriminate].
    unfold bind at 1 in Hrun.
    destruct (CreateGLTextures calls w1) as [oks' w2 c2|] eqn:Hrest;
      [|discriminate].
    unfold ret in Hrun. injection Hrun as <- <- <-.
    unfold CreateGLTexture in Hfirst.
    apply CreateGLTexture_Returns_inv in Hfirst
      as [(-> & Hthis & _)|(-> & -> & Hn & _)].
    + assert (Hwf1 : registry_in_bounds (this w1)) by (rewrite Hthis; exact Hwf).
      specialize (IH _ _ _ _ Hwf1 Hrest). rewrite Hthis in IH.
      simpl. exact IH.
    + specialize (IH _ _ _ _ (registered_in_bounds tag w Hn) Hrest).
      destruct IH as (Hwf2 & Hcount & Hold & Hnew).
      cbn [successful_tags].
      set (n := m_loadedTextures (this w)) in *.
      assert (Hn1 : m_loadedTextures (this (registered tag w)) = n + 1)
        by reflexivity.
      rewrite Hn1 in Hcount, Hold, Hnew.
      split; [exact Hwf2|]. split; [rewrite Hcount; simpl length; lia|].
      split.
      * intros i Hi. rewrite Hold by lia. simpl.
        apply list_lookup_insert_ne. fold n. lia.
      * intros [|i] tag' Htag; simpl in Htag.
        -- injection Htag as <-. rewrite Nat.add_0_r, Hold by lia. simpl.
           fold n. eexists. split; [apply list_lookup_insert_eq; lia|].
           reflexivity.
        -- destruct (Hnew i tag' Htag) as (e & He & Htag').
           exists e. split; [|exact Htag'].
           replace (Z.to_nat n + S i)%nat with (Z.to_nat (n + 1) + i)%nat
             by lia.
           exact He.
Qed.

(** The constructor leaves 16 entries tagged ["/0"] with the handle
    [(GLuint)-1], none of them registered. *)
Lemma SceneManager_new_registry (pShaderManager : option N) :
  m_textureIDs (SceneManager_new pShaderManager)
  = replicate 16 (TextureInfo.mk "/0" 4294967295) /\
  m_loadedTextures (SceneManager_new pShaderManager) = 0.
Proof. split; reflexivity. Qed.

Lemma SceneManager_new_in_bounds (pShaderManager : option N) :
  registry_in_bounds (SceneManager_new pShaderManager).
Proof.
  unfold registry_in_bounds.
  destruct (SceneManager_new_registry pShaderManager) as [-> ->].
  rewrite length_replicate. lia.
Qed.

Lemma FindTextureSlot_registered (w0 w : world) calls oks issued :
  registry_in_bounds (this w0) -> m_loadedTextures (this w0) = 0 ->
  CreateGLTextures calls w0 = Returns oks w issued ->
  NoDup (successful_tags calls oks) ->
  forall i tag, successful_tags calls oks !! i = Some tag ->
    FindTextureSlot (this w) tag = Z.of_nat i.
Proof.
  intros Hwf Hzero Hrun Hdistinct i tag Htag.
  destruct (CreateGLTextures_registry _ _ _ _ _ Hwf Hrun)
    as (_ & Hcount & _ & Hnew).
  rewrite Hzero in Hcount, Hnew. simpl in Hcount, Hnew.
  destruct (Hnew i tag Htag) as (e & He & Hetag).
  apply (FindTextureSlot_first_match _ _ _ e).
  split; [split|split]; [| exact He | exact Hetag |].
  - rewrite Hcount. apply lookup_lt_Some in Htag. lia.
  - intros j e' Hj He' Heq.
    assert (Hjlt : (j < length (successful_tags calls oks))%nat).
    { apply lookup_lt_Some in Htag. lia. }
    destruct (lookup_lt_is_Some_2 _ _ Hjlt) as [tag' Htag'].
    destruct (Hnew j tag' Htag') as (e'' & He'' & Hetag'').
    rewrite He' in He''. injection He'' as <-.
    assert (j = i); [|lia].
    eapply NoDup_lookup; [exact Hdistinct | exact Htag' |].
    rewrite Htag. f_equal. congruence.
Qed.

(** C1.  After any run of registrations on a freshly constructed scene
    manager, the tag given at the [i]-th successful registration, the tags
    of the successful registrations being pairwise distinct, is found at
    slot [i]; in particular, after registering "A" and then "B", "A" is
    still found at slot 0. *)
Theorem FindTextureSlot_after_registrations (pShaderManager : option N)
  (w0 : world) :
  this w0 = SceneManager_new pShaderManager ->
  (forall calls oks w issued,
     CreateGLTextures calls w0 = Returns oks w issued ->
     NoDup (successful_tags calls oks) ->
     forall i tag, successful_tags calls oks !! i = Some tag ->
       FindTextureSlot (this w) tag = Z.of_nat i) /\
  (forall fileA fileB w issued,
     CreateGLTextures [(fileA, "A"); (fileB, "B")] w0
     = Returns [true; true] w issued ->
     FindTextureSlot (this w) "A" = 0).
Proof.
  intros Hnew.
  assert (Hwf : registry_in_bounds (this w0))
    by (rewrite Hnew; apply SceneManager_new_in_bounds).
  assert (Hzero : m_loadedTextures (this w0) = 0) by (rewrite Hnew; reflexivity).
  split.
  - intros calls oks w issued Hrun Hdistinct i tag Htag.
    exact (FindTextureSlot_registered _ _ _ _ _ Hwf Hzero Hrun Hdistinct
             i tag Htag).
  - intros fileA fileB w issued Hrun.
    apply (FindTextureSlot_registered _ _ _ _ _ Hwf Hzero Hrun) with (i := 0%nat).
    + simpl. apply NoDup_cons. split; [|apply NoDup_singleton].
      rewrite list_elem_of_singleton. discriminate.
    + reflexivity.
Qed.

(** ** Teardown *)

Lemma DestroyGLTextures_loop (k : nat) : forall (i : Z) (w : world),
  0 <= i ->
  i + Z.of_nat k <= Z.of_nat (length (m_textureIDs (this w))) ->
  exists w',
    for_int i (i + Z.of_nat k)
      (fun i => name <- glGenTextures_1 ;; assign_textureIDs i (set_ID name)) w
    = Returns tt w'
        (glGenTextures 1 <$> seqZ (next_texture_name w) (Z.of_nat k)) /\
    m_loadedTextures (this w') = m_loadedTextures (this w) /\
    length (m_textureIDs (this w')) = length (m_textureIDs (this w)).
Proof.
  unfold for_int.
  induction k as [|k IH]; intros i w Hi Hlen.
  - replace (i + Z.of_nat 0 - i) with 0 by lia.
    rewrite !seqZ_nil by lia. simpl. eauto.
  - replace (i + Z.of_nat (S k) - i) with (Z.of_nat (S k)) by lia.
    rewrite !(seqZ_cons _ (Z.of_nat (S k))) by lia.
    replace (Z.pred (Z.of_nat (S k))) with (Z.of_nat k) by lia.
    cbn [foldr fmap list_fmap].
    assert (Hin : (0 <=? i)
                  && (i <? Z.of_nat (length (m_textureIDs (this w)))) = true).
    { apply andb_true_iff. split; [apply Z.leb_le | apply Z.ltb_lt]; lia. }
    unfold bind at 1. unfold bind at 1.
    unfold glGenTextures_1 at 1. unfold assign_textureIDs at 1.
    cbn [this next_texture_name files]. rewrite Hin.
    match goal with
    | |- context [foldr _ _ _ ?w1] =>
        destruct (IH (Z.succ i) w1) as (w' & Hrun & Hcount & Hlength);
          [lia | cbn; rewrite length_alter; lia |]
    end.
    replace (Z.succ i + Z.of_nat k - Z.succ i) with (Z.of_nat k) in Hrun
      by lia.
    rewrite Hrun. cbn in Hcount, Hlength. rewrite length_alter in Hlength.
    exists w'. split; [reflexivity|]. split; assumption.
Qed.

(** C4.  [DestroyGLTextures] calls [glGenTextures], once for each of the
    [m_loadedTextures] registered slots, and nothing else: no deletion
    call is issued for any texture handle. *)
Theorem DestroyGLTextures_generates (w : world) :
  registry_in_bounds (this w) ->
  exists w' issued,
    DestroyGLTextures w = Returns tt w' issued /\
    issued = glGenTextures 1
               <$> seqZ (next_texture_name w) (m_loadedTextures (this w)) /\
    length issued = Z.to_nat (m_loadedTextures (this w)) /\
    forall n texture, glDeleteTextures n texture ∉ issued.
Proof.
  intros [Hn Hlen].
  destruct (DestroyGLTextures_loop (Z.to_nat (m_loadedTextures (this w))) 0 w)
    as (w' & Hrun & _); [lia | lia |].
  rewrite Z2Nat.id, Z.add_0_l in Hrun by lia.
  exists w', (glGenTextures 1
                <$> seqZ (next_texture_name w) (m_loadedTextures (this w))).
  split; [|split; [reflexivity|split]].
  - unfold DestroyGLTextures. unfold bind at 1. unfold get_this.
    rewrite Hrun. reflexivity.
  - rewrite length_fmap, length_seqZ. reflexivity.
  - intros n texture Hin. apply list_elem_of_fmap in Hin as (name & Heq & _).
    discriminate.
Qed.

(** ** Appearance *)

(** C10.  With a shader manager attached, [SetShaderTexture] sets
    [bUseTexture] to true for every tag; for a tag no registered entry
    carries that is all it does: no texture unit is activated, no texture
    bound and no sampler uploaded.  Only for a registered tag does it
    activate the looked-up slot, bind the handle stored there and upload
    the slot as the sampler. *)
Theorem SetShaderTexture_unregistered_tag (w : world) (textureTag : string)
  (shader : N) :
  m_pShaderManager (this w) = Some shader ->
  m_loadedTextures (this w) <= Z.of_nat (length (m_textureIDs (this w))) ->
  (no_match (this w) textureTag ->
   SetShaderTexture textureTag w
   = Returns tt w [setIntValue "bUseTexture" 1]) /\
  (forall i e, first_match (this w) textureTag i e ->
   SetShaderTexture textureTag w
   = Returns tt w
       [setIntValue "bUseTexture" 1;
        glActiveTexture (GL_TEXTURE0 + Z.of_nat i);
        glBindTexture GL_TEXTURE_2D (TextureInfo.ID e);
        setSampler2DValue "objectTexture" (Z.of_nat i)]).
Proof.
  intros Hshader Hlen. split.
  - intros Hno. unfold SetShaderTexture, bind, get_this, emit, ret.
    rewrite Hshader. cbn [this].
    rewrite (FindTextureSlot_no_match _ _ Hlen Hno). reflexivity.
  - intros i e Hfirst. unfold SetShaderTexture, bind, get_this, emit, ret.
    rewrite Hshader. cbn [this].
    rewrite (FindTextureSlot_first_match _ _ _ _ Hfirst).
    destruct Hfirst as [[_ Hi] _].
    destruct (Z.leb_spec 0 (Z.of_nat i)); [|lia].
    rewrite Nat2Z.id, (list_lookup_total_correct _ _ _ Hi). reflexivity.
Qed.

(** ** The transform composer *)

(** What [SetTransformations] issues: one upload of the product of the
    five factors as the uniform [model], or nothing when no shader manager
    is attached. *)
Lemma SetTransformations_uploads (w : world) (scaleXYZ : vec3 float)
  (XrotationDegrees YrotationDegrees ZrotationDegrees : float)
  (positionXYZ : vec3 float) :
  SetTransformations scaleXYZ XrotationDegrees YrotationDegrees
    ZrotationDegrees positionXYZ w
  = Returns tt w
      match m_pShaderManager (this w) with
      | Some _ =>
          [setMat4Value "model"
             (Translate positionXYZ
              * RotateX (glm_radians XrotationDegrees)
              * RotateY (glm_radians YrotationDegrees)
              * RotateZ (glm_radians ZrotationDegrees)
              * Scale scaleXYZ)%mat4]
      | None => []
      end.
Proof.
  unfold SetTransformations, bind, get_this, emit, ret. cbn [this].
  destruct (m_pShaderManager (this w)); reflexivity.
Qed.

End Registry.

Section Materials.
Context `{glm : GLM}.

Lemma FindMaterial_scan s tag material0 :
  FindMaterial s tag material0
  = if Z.of_nat (length (m_objectMaterials s)) =? 0 then (false, material0)
    else
      (true,
       material
         (while (length (m_objectMaterials s))
            (material_cond (Z.of_nat (length (m_objectMaterials s))))
            (material_body (m_objectMaterials s) tag)
            {| mat_index := 0; mat_bFound := false;
               material := material0 |})).
Proof. reflexivity. Qed.

Lemma material_scan_miss (materials : list (OBJECT_MATERIAL float))
  (tag : string) (fuel : nat) (i : Z) (m : OBJECT_MATERIAL float) :
  let n := Z.of_nat (length materials) in
  n <= i + Z.of_nat fuel -> 0 <= i <= n ->
  (forall e, e ∈ materials -> ObjectMaterial.tag e <> tag) ->
  while fuel (material_cond n) (material_body materials tag)
    {| mat_index := i; mat_bFound := false; material := m |}
  = {| mat_index := n; mat_bFound := false; material := m |}.
Proof.
  intros n. revert i. induction fuel as [|fuel IH]; intros i Hfuel Hi Hmiss.
  - simpl. replace i with n by lia. reflexivity.
  - simpl. unfold material_cond at 1. simpl.
    destruct (Z.ltb_spec i n) as [Hlt|Hge]; simpl.
    + unfold material_body at 2. simpl.
      assert (Hlen : (Z.to_nat i < length materials)%nat) by lia.
      destruct (lookup_lt_is_Some_2 _ _ Hlen) as [e He].
      rewrite (list_lookup_total_correct _ _ _ He).
      assert (Hne : ObjectMaterial.tag e <> tag).
      { apply Hmiss. apply list_elem_of_lookup. eauto. }
      apply String.eqb_neq in Hne. rewrite Hne.
      apply IH; [lia | lia | exact Hmiss].
    + replace i with n by lia. reflexivity.
Qed.

(** The loop of [FindMaterial] stops on its condition. *)
Lemma material_scan_exits (materials : list (OBJECT_MATERIAL float))
  (tag : string) (n : Z) (fuel : nat) (i : Z) (m : OBJECT_MATERIAL float) :
  n <= i + Z.of_nat fuel ->
  material_cond n
    (while fuel (material_cond n) (material_body materials tag)
       {| mat_index := i; mat_bFound := false; material := m |}) = false.
Proof.
  revert i m. induction fuel as [|fuel IH]; intros i m Hfuel.
  - simpl. unfold material_cond. simpl.
    destruct (Z.ltb_spec i n); [lia | reflexivity].
  - simpl.
    destruct (material_cond n
                {| mat_index := i; mat_bFound := false; material := m |})
      eqn:Hc; [|exact Hc].
    unfold material_body at 2. simpl.
    destruct (String.eqb _ tag).
    + destruct fuel; simpl; unfold material_cond; simpl;
        rewrite ?andb_false_r; reflexivity.
    + apply IH. lia.
Qed.

(** With at least one material defined, [FindMaterial] returns [true] for
    a tag no material carries, and leaves [material] as the caller passed
    it. *)
Lemma FindMaterial_no_match s tag material0 :
  m_objectMaterials s <> [] ->
  (forall e, e ∈ m_objectMaterials s -> ObjectMaterial.tag e <> tag) ->
  FindMaterial s tag material0 = (true, material0).
Proof.
  intros Hne Hmiss. rewrite FindMaterial_scan.
  destruct (Z.eqb_spec (Z.of_nat (length (m_objectMaterials s))) 0) as [H0|H0].
  - destruct (m_objectMaterials s); [congruence | simpl in H0; lia].
  - rewrite material_scan_miss; [reflexivity | lia | lia | exact Hmiss].
Qed.

End Materials.

Section Action.
Context `{glm : GLM}.
Variables (point : Type) (act : mat4 -> point -> point).
Hypothesis act_product : acts_as_composition act.

(** Acting on a point, the model matrix applies the scale first, then the
    rotation about Z, about Y and about X, and the translation last. *)
Lemma model_matrix_action (scale position : vec3 float)
  (angleX angleY angleZ : float) (p : point) :
  act (Translate position * RotateX angleX * RotateY angleY
       * RotateZ angleZ * Scale scale)%mat4 p
  = act (Translate position)
      (act (RotateX angleX) (act (RotateY angleY) (act (RotateZ angleZ)
         (act (Scale scale) p)))).
Proof. rewrite !act_product. reflexivity. Qed.

(** C5.  [SetTransformations] uploads, as the uniform [model], the product
    Translate(position) * RotateX * RotateY * RotateZ * Scale(scale), the
    three angles converted from degrees to radians, and nothing else
    (nothing at all when no shader manager is attached).  Acting on a
    point, the uploaded matrix applies the scale first, then the rotation
    about Z, then the one about Y, then the one about X, and the
    translation last. *)
Theorem SetTransformations_scale_Z_Y_X_translate (w : world)
  (scaleXYZ : vec3 float)
  (XrotationDegrees YrotationDegrees ZrotationDegrees : float)
  (positionXYZ : vec3 float) :
  exists modelView : mat4,
    SetTransformations scaleXYZ XrotationDegrees YrotationDegrees
      ZrotationDegrees positionXYZ w
    = Returns tt w
        match m_pShaderManager (this w) with
        | Some _ => [setMat4Value "model" modelView]
        | None => []
        end /\
    modelView
    = (Translate positionXYZ
       * RotateX (glm_radians XrotationDegrees)
       * RotateY (glm_radians YrotationDegrees)
       * RotateZ (glm_radians ZrotationDegrees)
       * Scale scaleXYZ)%mat4 /\
    forall p : point,
      act modelView p
      = act (Translate positionXYZ)
          (act (RotateX (glm_radians XrotationDegrees))
             (act (RotateY (glm_radians YrotationDegrees))
                (act (RotateZ (glm_radians ZrotationDegrees))
                   (act (Scale scaleXYZ) p)))).
Proof.
  eexists. split; [apply SetTransformations_uploads|].
  split; [reflexivity|]. intros p. apply model_matrix_action.
Qed.

End Action.

Section Replay.
Context `{glm : GLM}.
Local Open Scope scene_scope.

Lemma replays_ret {A} (x : A) : replays (ret x).
Proof. intros w. exists x, []. split; [reflexivity | intros; reflexivity]. Qed.

Lemma replays_emit (c : call) : replays (emit c).
Proof. intros w. exists tt, [c]. split; [reflexivity | intros; reflexivity]. Qed.

Lemma replays_bind {A B} (m : M A) (k : A -> M B) :
  replays m -> (forall x, replays (k x)) -> replays (x <- m ;; k x).
Proof.
  intros Hm Hk w. destruct (Hm w) as (x & c1 & Hrun & Hsame).
  destruct (Hk x w) as (y & c2 & Hrun' & Hsame').
  exists y, (c1 ++ c2). unfold bind. split.
  - rewrite Hrun, Hrun'. reflexivity.
  - intros w' Hw'. rewrite (Hsame w' Hw'), (Hsame' w' Hw'). reflexivity.
Qed.

Lemma replays_get_this : replays get_this.
Proof.
  intros w. exists (this w), []. split; [reflexivity|].
  intros w' Hw'. unfold get_this. rewrite Hw'. reflexivity.
Qed.

(** Not every method replays: generating a texture name advances the
    name supply of the context. *)
Lemma glGenTextures_1_does_not_replay : ~ replays glGenTextures_1.
Proof.
  intros Hreplay.
  destruct (Hreplay {| this := SceneManager_new None; next_texture_name := 0;
                       files := fun _ => None |})
    as (name & issued & Hrun & _).
  unfold glGenTextures_1 in Hrun. simpl in Hrun.
  injection Hrun as _ Hworld _. discriminate Hworld.
Qed.

Lemma replays_SetTransformations scaleXYZ XrotationDegrees YrotationDegrees
  ZrotationDegrees positionXYZ :
  replays (SetTransformations scaleXYZ XrotationDegrees YrotationDegrees
             ZrotationDegrees positionXYZ).
Proof.
  unfold SetTransformations. apply replays_bind; [apply replays_get_this|].
  intros s. destruct (m_pShaderManager s);
    [apply replays_emit | apply replays_ret].
Qed.

Lemma replays_SetShaderColor red green blue alpha :
  replays (SetShaderColor red green blue alpha).
Proof.
  unfold SetShaderColor. apply replays_bind; [apply replays_get_this|].
  intros s. destruct (m_pShaderManager s); [|apply replays_ret].
  apply replays_bind; [apply replays_emit | intros _; apply replays_emit].
Qed.

Lemma replays_SetShaderTexture textureTag :
  replays (SetShaderTexture textureTag).
Proof.
  unfold SetShaderTexture. apply replays_bind; [apply replays_get_this|].
  intros s. destruct (m_pShaderManager s); [|apply replays_ret].
  apply replays_bind; [apply replays_emit | intros _].
  apply replays_bind; [apply replays_get_this | intros s'].
  cbv zeta. destruct (0 <=? FindTextureSlot s' textureTag);
    [|apply replays_ret].
  apply replays_bind; [apply replays_emit | intros _].
  apply replays_bind; [apply replays_get_this | intros s''].
  apply replays_bind; [apply replays_emit | intros _; apply replays_emit].
Qed.

Lemma replays_SetTextureUVScale u v : replays (SetTextureUVScale u v).
Proof.
  unfold SetTextureUVScale. apply replays_bind; [apply replays_get_this|].
  intros s. destruct (m_pShaderManager s);
    [apply replays_emit | apply replays_ret].
Qed.

Lemma replays_gl c : replays (gl c).
Proof. apply replays_emit. Qed.

Lemma replays_m_basicMeshes method : replays (m_basicMeshes method).
Proof. apply replays_emit. Qed.

End Replay.

Create HintDb replay.
#[export] Hint Resolve replays_ret replays_SetTransformations
  replays_SetShaderColor replays_SetShaderTexture replays_SetTextureUVScale
  replays_gl replays_m_basicMeshes : replay.

(** One statement of a scene script: the statement replays, and so does
    the rest of the script. *)
Ltac replay_script :=
  repeat (apply replays_bind; [solve [auto with replay] | intros _]);
  auto with replay.

Section Scenes.
Context `{glm : GLM}.

Lemma Module7_RenderScene_replays : replays Module7.RenderScene.
Proof. unfold Module7.RenderScene. replay_script. Qed.

Lemma Module3_RenderScene_replays : replays Module3.RenderScene.
Proof. unfold Module3.RenderScene. replay_script. Qed.

(** C8.  For every state of the scene manager, [RenderScene] returns
    after issuing a sequence of calls and leaves the world as it found it;
    any further invocation on the same state of the object issues the same
    sequence: the same meshes in the same order, with the same transforms,
    colors and textures.  This holds of the final scene and of the Module 3
    scene. *)
Theorem RenderScene_deterministic (w : world) :
  (exists issued,
     Module7.RenderScene w = Returns tt w issued /\
     forall w', this w' = this w ->
                Module7.RenderScene w' = Returns tt w' issued) /\
  (exists issued,
     Module3.RenderScene w = Returns tt w issued /\
     forall w', this w' = this w ->
                Module3.RenderScene w' = Returns tt w' issued).
Proof.
  split.
  - destruct (Module7_RenderScene_replays w) as ([] & issued & H).
    exists issued. exact H.
  - destruct (Module3_RenderScene_replays w) as ([] & issued & H).
    exists issued. exact H.
Qed.

End Scenes.

(** * The methods at work *)

Section Runs.
Import Symbolic.
Local Open Scope scene_scope.

Example register_A_B_returns :
  register_A_B fresh = Returns [true; true] after_A_B (calls_of register_A_B fresh).
Proof. reflexivity. Qed.

Example after_A_B_registry :
  take 3 (m_textureIDs (this after_A_B))
  = [TextureInfo.mk "A" 1; TextureInfo.mk "B" 2;
     TextureInfo.mk "/0" 4294967295] /\
  m_loadedTextures (this after_A_B) = 2.
Proof. split; reflexivity. Qed.

Example LoadSceneTextures_slots :
  FindTextureSlot (this loaded) "oakWood" = 0 /\
  FindTextureSlot (this loaded) "steelTexture" = 2 /\
  FindTextureSlot (this loaded) "letterC" = 12 /\
  FindTextureSlot (this loaded) "marble" = -1 /\
  m_loadedTextures (this loaded) = 13.
Proof. repeat split; reflexivity. Qed.

Example RenderScene_draws :
  length (filter is_draw (calls_of Module7.RenderScene loaded)) = 37%nat /\
  length (filter is_draw (calls_of Module3.RenderScene loaded)) = 8%nat.
Proof. split; vm_compute; reflexivity. Qed.

Example RenderScene_first_calls :
  take 4 (calls_of Module7.RenderScene loaded)
  = [setMat4Value "model"
       (Translate (glm_vec3 (f32 0.0) (f32 0.0) (f32 0.0))
        * RotateX (glm_radians (f32 0.0))
        * RotateY (glm_radians (f32 0.0))
        * RotateZ (glm_radians (f32 0.0))
        * Scale (glm_vec3 (f32 20.0) (f32 1.0) (f32 10.0)))%mat4;
     setIntValue "bUseTexture" 0;
     setVec4Value "objectColor" (glm_vec4 (f32 1) (f32 1) (f32 1) (f32 1));
     basicMeshes DrawPlaneMesh].
Proof. reflexivity. Qed.

Example act_is_composition : acts_as_composition act.
Proof. intros m1 m2 p. reflexivity. Qed.

Example model_matrix_factors (scale position : vec3 float)
  (angleX angleY angleZ : float) :
  act (Translate position * RotateX angleX * RotateY angleY
       * RotateZ angleZ * Scale scale)%mat4 []
  = [Translate position; RotateX angleX; RotateY angleY; RotateZ angleZ;
     Scale scale].
Proof. reflexivity. Qed.

End Runs.

Section Witnesses.
Import Symbolic.
Local Open Scope scene_scope.

Lemma after_A_B_first_match_B :
  first_match (this after_A_B) "B" 1 (TextureInfo.mk "B" 2).
Proof.
  split; [split; [reflexivity | reflexivity]|]. split; [reflexivity|].
  intros [|j] e' Hj He'; [|lia].
  injection He' as <-. discriminate.
Qed.

Lemma after_A_B_no_match (tag : string) :
  tag <> "A" -> tag <> "B" -> no_match (this after_A_B) tag.
Proof.
  intros HA HB [|[|i]] e [Hlt He].
  - injection He as <-. simpl. congruence.
  - injection He as <-. simpl. congruence.
  - change (m_loadedTextures (this after_A_B)) with 2 in Hlt. lia.
Qed.

Lemma FindTextureSlot_after_registrations_witness :
  this fresh = SceneManager_new (Some 1%N) /\
  FindTextureSlot (this after_A_B) "A" = 0 /\
  FindTextureSlot (this after_A_B) "B" = 1.
Proof.
  split; [reflexivity|]. split.
  - apply (proj2 (FindTextureSlot_after_registrations (Some 1%N) fresh
                    eq_refl)
             "rgb.jpg" "rgba.png" after_A_B (calls_of register_A_B fresh)).
    reflexivity.
  - apply (proj1 (FindTextureSlot_after_registrations (Some 1%N) fresh
                    eq_refl)
             [("rgb.jpg", "A"); ("rgba.png", "B")] [true; true] after_A_B
             (calls_of register_A_B fresh) eq_refl)
      with (i := 1%nat); [|reflexivity].
    simpl. apply NoDup_cons. split; [|apply NoDup_singleton].
    rewrite list_elem_of_singleton. discriminate.
Defined.

Lemma FindTexture_linear_scan_witness :
  m_loadedTextures (this after_A_B)
    <= Z.of_nat (length (m_textureIDs (this after_A_B))) /\
  (FindTextureSlot (this after_A_B) "B" = 1 /\
   FindTextureID (this after_A_B) "B" = 2) /\
  (FindTextureSlot (this after_A_B) "C" = -1 /\
   FindTextureID (this after_A_B) "C" = -1).
Proof.
  assert (Hlen : m_loadedTextures (this after_A_B)
                 <= Z.of_nat (length (m_textureIDs (this after_A_B)))).
  { vm_compute. discriminate. }
  split; [exact Hlen|]. split.
  - destruct (proj1 (FindTexture_linear_scan (this after_A_B) "B" Hlen)
                1%nat (TextureInfo.mk "B" 2) after_A_B_first_match_B)
      as (Hslot & _ & Hid).
    split; [exact Hslot|]. apply Hid. simpl. lia.
  - apply (proj2 (FindTexture_linear_scan (this after_A_B) "C" Hlen)).
    apply after_A_B_no_match; discriminate.
Defined.

Lemma CreateGLTexture_failure_iff_witness :
  (exists img, files fresh "rgb.jpg" = Some img /\ supported_channels img) /\
  length (m_textureIDs (this fresh)) = 16%nat /\
  0 <= m_loadedTextures (this fresh) < 16 /\
  (exists w' issued,
     CreateGLTexture "rgb.jpg" "A" fresh = Returns true w' issued) /\
  (exists w' issued,
     CreateGLTexture "grey.png" "G" fresh = Returns false w' issued) /\
  (exists w' issued,
     CreateGLTexture "none.jpg" "N" fresh = Returns false w' issued).
Proof.
  split; [eexists; split; [reflexivity | left; reflexivity]|].
  split; [reflexivity|]. split; [simpl; lia|].
  split; [|split].
  - refine (proj2 (CreateGLTexture_failure_iff "rgb.jpg" "A" fresh)
              _ eq_refl _ eq_refl _).
    + left. reflexivity.
    + simpl. lia.
  - apply (proj2 (proj1 (CreateGLTexture_failure_iff "grey.png" "G" fresh))).
    right. eexists. split; [reflexivity|].
    intros [H|H]; discriminate H.
  - apply (proj2 (proj1 (CreateGLTexture_failure_iff "none.jpg" "N" fresh))).
    left. reflexivity.
Defined.

Lemma CreateGLTexture_failure_keeps_registry_witness :
  CreateGLTexture "grey.png" "G" after_A_B
  = Returns false (world_after (CreateGLTexture "grey.png" "G") after_A_B)
      (calls_of (CreateGLTexture "grey.png" "G") after_A_B) /\
  this (world_after (CreateGLTexture "grey.png" "G") after_A_B)
  = this after_A_B.
Proof.
  split; [reflexivity|].
  apply (CreateGLTexture_failure_keeps_registry "grey.png" "G" after_A_B
           (world_after (CreateGLTexture "grey.png" "G") after_A_B)
           (calls_of (CreateGLTexture "grey.png" "G") after_A_B) eq_refl).
Defined.

Lemma DestroyGLTextures_generates_witness :
  registry_in_bounds (this after_A_B) /\
  exists w',
    DestroyGLTextures after_A_B
    = Returns tt w' [glGenTextures 1 3; glGenTextures 1 4].
Proof.
  assert (Hwf : registry_in_bounds (this after_A_B)).
  { split; vm_compute; discriminate. }
  split; [exact Hwf|].
  destruct (DestroyGLTextures_generates after_A_B Hwf)
    as (w' & issued & Hrun & -> & _).
  exists w'. exact Hrun.
Defined.

Lemma SetShaderTexture_unregistered_tag_witness :
  m_pShaderManager (this after_A_B) = Some 1%N /\
  SetShaderTexture "marble" after_A_B
  = Returns tt after_A_B [setIntValue "bUseTexture" 1] /\
  SetShaderTexture "B" after_A_B
  = Returns tt after_A_B
      [setIntValue "bUseTexture" 1; glActiveTexture (GL_TEXTURE0 + 1);
       glBindTexture GL_TEXTURE_2D 2; setSampler2DValue "objectTexture" 1].
Proof.
  assert (Hlen : m_loadedTextures (this after_A_B)
                 <= Z.of_nat (length (m_textureIDs (this after_A_B)))).
  { vm_compute. discriminate. }
  split; [reflexivity|]. split.
  - apply (proj1 (SetShaderTexture_unregistered_tag after_A_B "marble" 1%N
                    eq_refl Hlen)).
    apply after_A_B_no_match; discriminate.
  - apply (proj2 (SetShaderTexture_unregistered_tag after_A_B "B" 1%N
                    eq_refl Hlen) 1%nat (TextureInfo.mk "B" 2)).
    exact after_A_B_first_match_B.
Defined.

Lemma SetTransformations_scale_Z_Y_X_translate_witness :
  acts_as_composition act /\
  exists modelView,
    SetTransformations (glm_vec3 (f32 1.0) (f32 2.0) (f32 3.0))
      (f32 90.0) (f32 45.0) (f32 30.0)
      (glm_vec3 (f32 2.0) (f32 3.0) (f32 4.0)) fresh
    = Returns tt fresh [setMat4Value "model" modelView] /\
    act modelView []
    = [Translate (glm_vec3 (f32 2.0) (f32 3.0) (f32 4.0));
       RotateX (glm_radians (f32 90.0));
       RotateY (glm_radians (f32 45.0));
       RotateZ (glm_radians (f32 30.0));
       Scale (glm_vec3 (f32 1.0) (f32 2.0) (f32 3.0))].
Proof.
  split; [exact act_is_composition|].
  destruct (SetTransformations_scale_Z_Y_X_translate (glm := glm)
              (list smat4) act
              act_is_composition fresh
              (glm_vec3 (f32 1.0) (f32 2.0) (f32 3.0))
              (f32 90.0) (f32 45.0) (f32 30.0)
              (glm_vec3 (f32 2.0) (f32 3.0) (f32 4.0)))
    as (modelView & Hrun & _ & Hact).
  exists modelView. split; [exact Hrun|].
  rewrite Hact. reflexivity.
Defined.

(** ** Where the specification departs from the code *)

(** The order of the rotations.  For the scale (1, 2, 3), the angles 90,
    45 and 30 degrees and the position (2, 3, 4), the matrix
    [SetTransformations] uploads does not act as the scale, then the
    rotations about X, Y and Z in that order, then the translation: under
    the action that records what is applied to a point, and under which a
    product acts as the composition of its factors, the two differ. *)
Lemma SetTransformations_rotations_not_X_then_Y_then_Z :
  acts_as_composition act /\
  exists modelView,
    SetTransformations (glm_vec3 (f32 1.0) (f32 2.0) (f32 3.0))
      (f32 90.0) (f32 45.0) (f32 30.0)
      (glm_vec3 (f32 2.0) (f32 3.0) (f32 4.0)) fresh
    = Returns tt fresh [setMat4Value "model" modelView] /\
    act modelView []
    <> act (Translate (glm_vec3 (f32 2.0) (f32 3.0) (f32 4.0)))
         (act (RotateZ (glm_radians (f32 30.0)))
            (act (RotateY (glm_radians (f32 45.0)))
               (act (RotateX (glm_radians (f32 90.0)))
                  (act (Scale (glm_vec3 (f32 1.0) (f32 2.0) (f32 3.0)))
                     [])))).
Proof.
  split; [exact act_is_composition|].
  eexists. split; [reflexivity|].
  vm_compute. intros H. discriminate H.
Qed.

(** ** Where the code departs from the specification *)

(** C2.  The registry capacity: sixteen registrations fill the array, and
    the seventeenth does not return [false]; it writes through index 16,
    outside the array. *)
Theorem CreateGLTexture_17th_out_of_bounds :
  length (m_textureIDs (this full)) = 16%nat /\
  m_loadedTextures (this full) = 16 /\
  (exists issued,
     CreateGLTexture "rgb.jpg" "Q" full = OutOfBounds 16 issued) /\
  (exists issued,
     CreateGLTextures (sixteen_calls ++ [("rgb.jpg", "Q")]) fresh
     = OutOfBounds 16 issued).
Proof.
  split; [reflexivity|]. split; [reflexivity|]. split.
  - eexists. vm_compute. reflexivity.
  - eexists. vm_compute. reflexivity.
Qed.

(** C3.  The material lookup: with the material "wood" defined, looking
    up "glass", which the specification's lookup does not find, returns
    [true] and hands back the caller's [material] untouched. *)
Theorem FindMaterial_reports_found_without_match :
  lookup_material (m_objectMaterials with_wood) "glass" = None /\
  FindMaterial with_wood "glass" blank = (true, blank).
Proof. split; reflexivity. Qed.

End Witnesses.

(** * Further properties *)

Section Lookups.
Context `{glm : GLM}.
Local Open Scope scene_scope.

(** A tag is carried by a first registered entry or by none. *)
Lemma first_match_or_no_match s tag :
  no_match s tag \/ exists i e, first_match s tag i e.
Proof.
  destruct (list_find (fun e => TextureInfo.tag e = tag)
              (take (Z.to_nat (m_loadedTextures s)) (m_textureIDs s)))
    as [[i e]|] eqn:Hfind.
  - right. apply list_find_Some in Hfind as (Hi & Htag & Hfirst).
    apply lookup_take_Some in Hi as [Hi Hlt]. exists i, e.
    split; [split; [lia | exact Hi]|]. split; [exact Htag|].
    intros j e' Hj He'. apply (Hfirst j e'); [|exact Hj].
    rewrite lookup_take_lt by lia. exact He'.
  - left. apply list_find_None in Hfind. intros i e [Hlt Hi].
    rewrite Forall_forall in Hfind. apply Hfind.
    apply list_elem_of_lookup. exists i.
    rewrite lookup_take_lt by lia. exact Hi.
Qed.

(** X1.  [FindTextureSlot] returns -1 exactly when no registered entry
    has the tag.  Any other result is the index, below
    [m_loadedTextures], of the first registered entry with the tag, and
    [FindTextureID] returns the handle stored there. *)
Theorem FindTextureSlot_result (s : SceneManager) (tag : string) :
  m_loadedTextures s <= Z.of_nat (length (m_textureIDs s)) ->
  (FindTextureSlot s tag = -1 <-> no_match s tag) /\
  (FindTextureSlot s tag <> -1 ->
   0 <= FindTextureSlot s tag < m_loadedTextures s /\
   exists e,
     first_match s tag (Z.to_nat (FindTextureSlot s tag)) e /\
     FindTextureID s tag = int_of_GLuint (TextureInfo.ID e)).
Proof.
  intros Hlen.
  destruct (first_match_or_no_match s tag) as [Hno|(i & e & Hfirst)].
  - pose proof (FindTextureSlot_no_match _ _ Hlen Hno) as Hslot.
    split; [split; auto|]. rewrite Hslot. congruence.
  - pose proof (FindTextureSlot_first_match _ _ _ _ Hfirst) as Hslot.
    pose proof (FindTextureID_first_match _ _ _ _ Hfirst) as Hid.
    rewrite Hslot. split; [split|].
    + lia.
    + intros Hno. destruct Hfirst as (Hreg & Htag & _).
      exfalso. exact (Hno i e Hreg Htag).
    + intros _. destruct Hfirst as ([Hlt Hi] & Htag & Hbefore).
      split; [lia|]. exists e. rewrite Nat2Z.id.
      split; [|exact Hid]. repeat split; assumption.
Qed.

(** ** Registration and the lookups *)

Lemma first_match_registered tag w other i e :
  0 <= m_loadedTextures (this w)
    < Z.of_nat (length (m_textureIDs (this w))) ->
  first_match (this w) other i e ->
  first_match (this (registered tag w)) other i e.
Proof.
  intros Hn ([Hlt Hi] & Htag & Hbefore).
  assert (Hkeep : forall j, (j < Z.to_nat (m_loadedTextures (this w)))%nat ->
            m_textureIDs (this (registered tag w)) !! j
            = m_textureIDs (this w) !! j).
  { intros j Hj. simpl. apply list_lookup_insert_ne. lia. }
  split; [split|split].
  - simpl. lia.
  - rewrite Hkeep by lia. exact Hi.
  - exact Htag.
  - intros j e' Hj He'. rewrite Hkeep in He' by lia.
    exact (Hbefore j e' Hj He').
Qed.

Lemma no_match_registered tag w other :
  0 <= m_loadedTextures (this w)
    < Z.of_nat (length (m_textureIDs (this w))) ->
  other <> tag -> no_match (this w) other ->
  no_match (this (registered tag w)) other.
Proof.
  intros Hn Hne Hno i e [Hlt Hi]. simpl in Hlt, Hi.
  destruct (decide (i = Z.to_nat (m_loadedTextures (this w)))) as [->|Hi'].
  - rewrite list_lookup_insert_eq in Hi by lia. injection Hi as <-.
    simpl. congruence.
  - rewrite list_lookup_insert_ne in Hi by lia.
    apply (Hno i e). split; [lia | exact Hi].
Qed.

Lemma first_match_new_entry tag w :
  0 <= m_loadedTextures (this w)
    < Z.of_nat (length (m_textureIDs (this w))) ->
  no_match (this w) tag ->
  first_match (this (registered tag w)) tag
    (Z.to_nat (m_loadedTextures (this w)))
    (TextureInfo.mk tag (next_texture_name w)).
Proof.
  intros Hn Hno. split; [split|split].
  - simpl. lia.
  - simpl. apply list_lookup_insert_eq. lia.
  - reflexivity.
  - intros j e' Hj He'. simpl in He'.
    rewrite list_lookup_insert_ne in He' by lia.
    apply (Hno j e'). split; [lia | exact He'].
Qed.

Lemma registered_length_bound tag w :
  0 <= m_loadedTextures (this w)
    < Z.of_nat (length (m_textureIDs (this w))) ->
  m_loadedTextures (this (registered tag w))
  <= Z.of_nat (length (m_textureIDs (this (registered tag w)))).
Proof. intros Hn. simpl. rewrite length_insert. lia. Qed.

(** X2.  A registration that succeeds changes the answer of neither
    lookup for any other tag, nor for its own tag when that tag was
    registered before: the earlier entry keeps answering. *)
Theorem CreateGLTexture_keeps_lookups (filename tag : string)
  (w w' : world) (issued : list call) (other : string) :
  CreateGLTexture filename tag w = Returns true w' issued ->
  other <> tag \/ FindTextureSlot (this w) other <> -1 ->
  FindTextureSlot (this w') other = FindTextureSlot (this w) other /\
  FindTextureID (this w') other = FindTextureID (this w) other.
Proof.
  unfold CreateGLTexture. intros Hrun Hother.
  apply CreateGLTexture_Returns_inv in Hrun
    as [(Hok & _)|(_ & -> & Hn & _)]; [discriminate|].
  assert (Hlen : m_loadedTextures (this w)
                 <= Z.of_nat (length (m_textureIDs (this w)))) by lia.
  pose proof (registered_length_bound tag w Hn) as Hlen'.
  destruct (first_match_or_no_match (this w) other)
    as [Hno|(i & e & Hfirst)].
  - assert (Hne : other <> tag).
    { destruct Hother as [H|H]; [exact H|].
      exfalso. apply H. apply FindTextureSlot_no_match; assumption. }
    pose proof (no_match_registered tag w other Hn Hne Hno) as Hno'.
    rewrite !FindTextureSlot_no_match, !FindTextureID_no_match by assumption.
    split; reflexivity.
  - pose proof (first_match_registered tag w other i e Hn Hfirst) as Hfirst'.
    rewrite (FindTextureSlot_first_match _ _ _ _ Hfirst),
      (FindTextureSlot_first_match _ _ _ _ Hfirst'),
      (FindTextureID_first_match _ _ _ _ Hfirst),
      (FindTextureID_first_match _ _ _ _ Hfirst').
    split; reflexivity.
Qed.

Lemma CreateGLTexture_registers_calls wrap filename tag w img :
  files w filename = Some img -> supported_channels img ->
  0 <= m_loadedTextures (this w)
    < Z.of_nat (length (m_textureIDs (this w))) ->
  CreateGLTexture_wrapping wrap filename tag w
  = Returns true (registered tag w)
      (registration_calls wrap filename img (next_texture_name w)).
Proof.
  intros Hfile Hch Hn.
  assert (Hin : (0 <=? m_loadedTextures (this w))
                && (m_loadedTextures (this w)
                    <? Z.of_nat (length (m_textureIDs (this w)))) = true).
  { apply andb_true_iff. split; [apply Z.leb_le | apply Z.ltb_lt]; lia. }
  unfold CreateGLTexture_wrapping, registration_calls, bind, emit,
    call_stbi_load, ret, glGenTextures_1, get_this, assign_textureIDs,
    increment_loadedTextures.
  rewrite Hfile. simpl.
  destruct Hch as [Hc|Hc]; rewrite Hc; simpl; rewrite Hin; simpl;
    rewrite length_alter, Hin; simpl; rewrite alter_tag_ID; reflexivity.
Qed.

Lemma CreateGLTexture_rejects_calls wrap filename tag w img :
  files w filename = Some img -> ~ supported_channels img ->
  CreateGLTexture_wrapping wrap filename tag w
  = Returns false
      {| this := this w; next_texture_name := next_texture_name w + 1;
         files := files w |}
      (rejection_calls wrap filename img (next_texture_name w)).
Proof.
  intros Hfile Hch. unfold supported_channels in Hch.
  unfold CreateGLTexture_wrapping, rejection_calls, bind, emit,
    call_stbi_load, ret, glGenTextures_1.
  rewrite Hfile. simpl.
  destruct (Z.eqb_spec (colorChannels img) 3) as [H3|H3]; [tauto|].
  destruct (Z.eqb_spec (colorChannels img) 4) as [H4|H4]; [tauto|].
  reflexivity.
Qed.

(** X3.  A successful registration of a tag not registered before is
    found again: [FindTextureSlot] returns the value [m_loadedTextures]
    had, [FindTextureID] the texture name generated during the call, the
    one the image was uploaded to. *)
Theorem CreateGLTexture_round_trip (filename tag : string) (w w' : world)
  (issued : list call) :
  CreateGLTexture filename tag w = Returns true w' issued ->
  no_match (this w) tag ->
  FindTextureSlot (this w') tag = m_loadedTextures (this w) /\
  FindTextureID (this w') tag = int_of_GLuint (next_texture_name w) /\
  m_loadedTextures (this w') = m_loadedTextures (this w) + 1 /\
  exists img,
    files w filename = Some img /\
    issued = registration_calls GL_CLAMP_TO_EDGE filename img
               (next_texture_name w).
Proof.
  unfold CreateGLTexture. intros Hrun Hno.
  pose proof Hrun as Hinv.
  apply CreateGLTexture_Returns_inv in Hinv
    as [(Hok & _)|(_ & -> & Hn & img & Hfile & Hch)]; [discriminate|].
  pose proof (first_match_new_entry tag w Hn Hno) as Hfirst.
  rewrite (FindTextureSlot_first_match _ _ _ _ Hfirst),
    (FindTextureID_first_match _ _ _ _ Hfirst).
  split; [lia|]. split; [reflexivity|]. split; [reflexivity|].
  exists img. split; [exact Hfile|].
  rewrite (CreateGLTexture_registers_calls _ _ tag _ _ Hfile Hch Hn) in Hrun.
  injection Hrun as <-. reflexivity.
Qed.

End Lookups.

Section Registration.
Context `{glm : GLM}.
Local Open Scope scene_scope.

(** X4.  What a registration releases.  When the file cannot be decoded
    the method issues the flip setting, the load and the diagnostic and
    nothing else, so no OpenGL call and no texture name is spent, and the
    world is unchanged.  When the decoded image has an unsupported
    channel count the method has already generated a texture name and
    bound it: it returns without freeing the image and leaves that
    texture bound.  Only a successful registration frees the image and
    unbinds.  Either way a decoded image costs one texture name. *)
Theorem CreateGLTexture_release (filename tag : string) (w w' : world)
  (ok : bool) (issued : list call) :
  CreateGLTexture filename tag w = Returns ok w' issued ->
  match files w filename with
  | None =>
      ok = false /\ w' = w /\
      issued = [stbi_set_flip_vertically_on_load true; stbi_load filename;
                cout (Could_not_load_image filename)] /\
      filter is_gl_call issued = [] /\
      bound_textures issued = [] /\
      forall n texture, glGenTextures n texture ∉ issued
  | Some img =>
      next_texture_name w' = next_texture_name w + 1 /\
      if ok then
        issued = registration_calls GL_CLAMP_TO_EDGE filename img
                   (next_texture_name w) /\
        stbi_image_free ∈ issued /\
        last (bound_textures issued) = Some 0
      else
        issued = rejection_calls GL_CLAMP_TO_EDGE filename img
                   (next_texture_name w) /\
        (stbi_image_free ∉ issued) /\
        last (bound_textures issued) = Some (next_texture_name w)
  end.
Proof.
  unfold CreateGLTexture. intros Hrun. pose proof Hrun as Hinv.
  apply CreateGLTexture_Returns_inv in Hinv
    as [(-> & _ & [Hfile|(img & Hfile & Hch)])
       |(-> & -> & Hn & img & Hfile & Hch)]; rewrite Hfile.
  - rewrite (CreateGLTexture_decode_failure _ _ _ _ Hfile) in Hrun.
    injection Hrun as <- <-. split; [reflexivity|]. split; [reflexivity|].
    split; [reflexivity|]. split; [reflexivity|].
    split; [reflexivity|]. intros n texture.
    rewrite !not_elem_of_cons. repeat split; try discriminate.
    apply not_elem_of_nil.
  - rewrite (CreateGLTexture_rejects_calls _ _ _ _ _ Hfile Hch) in Hrun.
    injection Hrun as <- <-. split; [reflexivity|]. split; [reflexivity|].
    split; [|reflexivity]. unfold rejection_calls.
    rewrite !not_elem_of_cons. repeat split; try discriminate.
    apply not_elem_of_nil.
  - rewrite (CreateGLTexture_registers_calls _ _ _ _ _ Hfile Hch Hn) in Hrun.
    injection Hrun as <-. split; [reflexivity|]. split; [reflexivity|].
    unfold registration_calls.
    destruct (colorChannels img =? 3); (split; [|reflexivity]);
      rewrite !elem_of_cons; tauto.
Qed.

Lemma decoded_count_files w w' calls :
  files w' = files w -> decoded_count w' calls = decoded_count w calls.
Proof.
  intros Hfiles. induction calls as [|[filename tag] calls IH]; [reflexivity|].
  simpl. unfold decodes. rewrite Hfiles, IH. reflexivity.
Qed.

Lemma decoded_count_nonneg w calls : 0 <= decoded_count w calls.
Proof.
  induction calls as [|[filename tag] calls IH]; simpl; [lia|].
  destruct (decodes w filename); lia.
Qed.

Lemma decodes_true w filename :
  decodes w filename = true ->
  exists img, files w filename = Some img /\ supported_channels img.
Proof.
  unfold decodes, supported_channels.
  destruct (files w filename) as [img|]; [|discriminate].
  intros H. exists img. split; [reflexivity|].
  apply orb_true_iff in H as [H|H]; apply Z.eqb_eq in H; auto.
Qed.

Lemma decodes_false w filename :
  decodes w filename = false ->
  files w filename = None \/
  exists img, files w filename = Some img /\ ~ supported_channels img.
Proof.
  unfold decodes, supported_channels.
  destruct (files w filename) as [img|]; [|auto].
  intros H. right. exists img. split; [reflexivity|].
  apply orb_false_iff in H as [H3 H4].
  apply Z.eqb_neq in H3, H4. tauto.
Qed.

Lemma CreateGLTexture_not_decodes wrap filename tag w :
  decodes w filename = false ->
  exists w' issued,
    CreateGLTexture_wrapping wrap filename tag w = Returns false w' issued /\
    this w' = this w /\ files w' = files w.
Proof.
  intros H. apply decodes_false in H as [Hfile|(img & Hfile & Hch)].
  - rewrite (CreateGLTexture_decode_failure _ _ _ _ Hfile). eauto.
  - rewrite (CreateGLTexture_rejects_calls _ _ _ _ _ Hfile Hch). eauto.
Qed.

Lemma CreateGLTextures_cons filename tag calls w :
  CreateGLTextures ((filename, tag) :: calls) w
  = match CreateGLTexture filename tag w with
    | Returns ok w1 c1 =>
        match CreateGLTextures calls w1 with
        | Returns oks w2 c2 => Returns (ok :: oks) w2 (c1 ++ c2 ++ [])
        | OutOfBounds i c2 => OutOfBounds i (c1 ++ c2)
        end
    | OutOfBounds i c1 => OutOfBounds i c1
    end.
Proof.
  cbn [CreateGLTextures]. unfold bind at 1.
  destruct (CreateGLTexture filename tag w) as [ok w1 c1|]; [|reflexivity].
  unfold bind at 1.
  destruct (CreateGLTextures calls w1); reflexivity.
Qed.

(** A run of registrations against the capacity of the array. *)
Lemma CreateGLTextures_capacity calls : forall w,
  length (m_textureIDs (this w)) = 16%nat ->
  0 <= m_loadedTextures (this w) <= 16 ->
  let total := m_loadedTextures (this w) + decoded_count w calls in
  (total <= 16 ->
   exists w' issued,
     CreateGLTextures calls w
     = Returns ((fun c => decodes w c.1) <$> calls) w' issued /\
     m_loadedTextures (this w') = total) /\
  (16 < total ->
   exists issued, CreateGLTextures calls w = OutOfBounds 16 issued).
Proof.
  induction calls as [|[filename tag] calls IH]; intros w Hlen Hn total.
  - subst total. simpl. split; [|lia]. intros _. exists w, [].
    split; [reflexivity | lia].
  - subst total. rewrite CreateGLTextures_cons.
    cbn [decoded_count fmap list_fmap fst]. unfold CreateGLTexture.
    destruct (decodes w filename) eqn:Hdec.
    + apply decodes_true in Hdec as (img & Hfile & Hch).
      destruct (Z.eq_dec (m_loadedTextures (this w)) 16) as [Hfull|Hfree].
      * pose proof (decoded_count_nonneg w calls) as Hpos.
        split; [lia|]. intros _.
        destruct (CreateGLTexture_out_of_bounds GL_CLAMP_TO_EDGE _ tag _ _
                    Hfile Hch) as [c Hrun]; [lia|].
        rewrite Hrun, Hfull. eauto.
      * assert (Hin : 0 <= m_loadedTextures (this w)
                  < Z.of_nat (length (m_textureIDs (this w)))) by lia.
        rewrite (CreateGLTexture_registers_calls _ _ tag _ _ Hfile Hch Hin).
        destruct (IH (registered tag w)) as [IHfits IHover].
        { simpl. rewrite length_insert. exact Hlen. }
        { simpl. lia. }
        rewrite (decoded_count_files w (registered tag w)) in IHfits, IHover
          by reflexivity.
        change (m_loadedTextures (this (registered tag w)))
          with (m_loadedTextures (this w) + 1) in IHfits, IHover.
        split.
        -- intros Hfits. destruct IHfits as (w' & c & Hrun & Hcount); [lia|].
           rewrite Hrun. exists w'. eexists. split; [reflexivity | lia].
        -- intros Hover. destruct IHover as (c & Hrun); [lia|].
           rewrite Hrun. eauto.
    + destruct (CreateGLTexture_not_decodes GL_CLAMP_TO_EDGE filename tag w
                  Hdec) as (w1 & c1 & Hrun1 & Hthis & Hfiles).
      rewrite Hrun1.
      destruct (IH w1) as [IHfits IHover].
      { rewrite Hthis. exact Hlen. }
      { rewrite Hthis. exact Hn. }
      rewrite (decoded_count_files w w1) in IHfits, IHover by exact Hfiles.
      rewrite Hthis in IHfits, IHover.
      assert (Hmap : (fun c : string * string => decodes w1 c.1) <$> calls
                     = (fun c => decodes w c.1) <$> calls).
      { apply list_fmap_ext. intros _ c _. unfold decodes.
        rewrite Hfiles. reflexivity. }
      rewrite Hmap in IHfits.
      split.
      * intros Hfits. destruct IHfits as (w' & c & Hrun & Hcount); [lia|].
        rewrite Hrun. exists w'. eexists. split; [reflexivity | lia].
      * intros Hover. destruct IHover as (c & Hrun); [lia|].
        rewrite Hrun. eauto.
Qed.

(** X5.  The capacity of the registry.  On a freshly constructed scene
    manager a run of registrations returns when at most 16 of the calls
    decode an image with 3 or 4 channels: each call returns whether its
    file did, and [m_loadedTextures] ends as their number.  With more
    than 16 the run does not return: the 17th such call writes through
    index 16. *)
Theorem CreateGLTextures_capacity_16 (pShaderManager : option N)
  (w : world) (calls : list (string * string)) :
  this w = SceneManager_new pShaderManager ->
  (decoded_count w calls <= 16 ->
   exists w' issued,
     CreateGLTextures calls w
     = Returns ((fun c => decodes w c.1) <$> calls) w' issued /\
     m_loadedTextures (this w') = decoded_count w calls) /\
  (16 < decoded_count w calls ->
   exists issued, CreateGLTextures calls w = OutOfBounds 16 issued).
Proof.
  intros Hnew.
  destruct (CreateGLTextures_capacity calls w) as [Hfits Hover].
  - rewrite Hnew. reflexivity.
  - rewrite Hnew. simpl. lia.
  - rewrite Hnew in Hfits, Hover. simpl in Hfits, Hover.
    split; assumption.
Qed.

End Registration.

Section Binding.
Context `{glm : GLM}.
Local Open Scope scene_scope.

Lemma BindGLTextures_loop (k : nat) : forall (i : nat) (w : world),
  (i + k <= length (m_textureIDs (this w)))%nat ->
  for_int (Z.of_nat i) (Z.of_nat i + Z.of_nat k)
    (fun i =>
       emit (glActiveTexture (GL_TEXTURE0 + i)) ;;
       s <- get_this ;;
       emit (glBindTexture GL_TEXTURE_2D
               (TextureInfo.ID (m_textureIDs s !!! Z.to_nat i)))) w
  = Returns tt w
      (bind_calls (Z.of_nat i) (take k (drop i (m_textureIDs (this w))))).
Proof.
  unfold for_int. induction k as [|k IH]; intros i w Hlen.
  - replace (Z.of_nat i + Z.of_nat 0 - Z.of_nat i) with 0 by lia.
    rewrite seqZ_nil by lia. reflexivity.
  - replace (Z.of_nat i + Z.of_nat (S k) - Z.of_nat i)
      with (Z.of_nat (S k)) by lia.
    rewrite seqZ_cons by lia.
    replace (Z.pred (Z.of_nat (S k))) with (Z.of_nat k) by lia.
    assert (Hi : (i < length (m_textureIDs (this w)))%nat) by lia.
    destruct (lookup_lt_is_Some_2 _ _ Hi) as [e He].
    rewrite (drop_S _ _ _ He). cbn [foldr take bind_calls].
    specialize (IH (S i) w).
    replace (Z.of_nat (S i) + Z.of_nat k - Z.of_nat (S i))
      with (Z.of_nat k) in IH by lia.
    replace (Z.of_nat (S i)) with (Z.succ (Z.of_nat i)) in IH by lia.
    unfold bind at 1. unfold bind at 1. unfold emit at 1.
    unfold bind at 1. unfold get_this at 1. unfold emit at 1.
    rewrite IH by lia.
    rewrite Nat2Z.id, (list_lookup_total_correct _ _ _ He).
    replace (Z.succ (Z.of_nat i)) with (Z.of_nat i + 1) by lia.
    reflexivity.
Qed.

Lemma bind_calls_length first entries :
  length (bind_calls first entries) = (2 * length entries)%nat.
Proof.
  revert first. induction entries as [|e entries IH]; intros first;
    [reflexivity|].
  simpl. rewrite IH. lia.
Qed.

Lemma bind_calls_lookup entries : forall first i e,
  entries !! i = Some e ->
  exists before after,
    bind_calls first entries
    = before
      ++ [glActiveTexture (GL_TEXTURE0 + (first + Z.of_nat i));
          glBindTexture GL_TEXTURE_2D (TextureInfo.ID e)]
      ++ after.
Proof.
  induction entries as [|e0 entries IH]; intros first i e Hi;
    [discriminate|].
  destruct i as [|i].
  - injection Hi as ->. exists [], (bind_calls (first + 1) entries).
    simpl. rewrite Z.add_0_r. reflexivity.
  - simpl in Hi. destruct (IH (first + 1) i e Hi) as (before & after & Heq).
    exists (glActiveTexture (GL_TEXTURE0 + first)
            :: glBindTexture GL_TEXTURE_2D (TextureInfo.ID e0) :: before),
      after.
    simpl. rewrite Heq.
    replace (first + 1 + Z.of_nat i) with (first + Z.of_nat (S i)) by lia.
    reflexivity.
Qed.

Lemma BindGLTextures_calls (w : world) :
  registry_in_bounds (this w) ->
  BindGLTextures w
  = Returns tt w
      (bind_calls 0 (take (Z.to_nat (m_loadedTextures (this w)))
                       (m_textureIDs (this w)))).
Proof.
  intros [Hn Hlen].
  pose proof (BindGLTextures_loop (Z.to_nat (m_loadedTextures (this w)))
                0%nat w) as Hloop.
  rewrite Z2Nat.id in Hloop by lia.
  change (Z.of_nat 0) with 0 in Hloop. rewrite Z.add_0_l, drop_0 in Hloop.
  unfold BindGLTextures. unfold bind at 1. unfold get_this at 1.
  rewrite Hloop by lia. reflexivity.
Qed.

Lemma bind_calls_position entries : forall first i e,
  entries !! i = Some e ->
  bind_calls first entries !! (2 * i)%nat
  = Some (glActiveTexture (GL_TEXTURE0 + (first + Z.of_nat i))) /\
  bind_calls first entries !! (2 * i + 1)%nat
  = Some (glBindTexture GL_TEXTURE_2D (TextureInfo.ID e)).
Proof.
  induction entries as [|e0 entries IH]; intros first i e Hi;
    [discriminate|].
  destruct i as [|i].
  - injection Hi as ->. simpl. rewrite Z.add_0_r. split; reflexivity.
  - simpl in Hi. destruct (IH (first + 1) i e Hi) as [Hact Hbind].
    replace (2 * S i)%nat with (S (S (2 * i))) by lia.
    cbn [bind_calls Nat.add lookup list_lookup].
    replace (first + Z.of_nat (S i)) with (first + 1 + Z.of_nat i) by lia.
    split; [exact Hact | exact Hbind].
Qed.

(** X6.  [BindGLTextures] changes nothing in the scene manager and
    issues two calls per registered entry, in slot order: for the entry
    of slot [i] the call at position [2 * i] is the activation of unit
    [GL_TEXTURE0 + i] and the call at position [2 * i + 1] the binding of
    the handle stored in slot [i], and there is no other call.  These are
    the unit and the handle [SetShaderTexture] uses for a tag first found
    in slot [i]. *)
Theorem BindGLTextures_units (w : world) :
  registry_in_bounds (this w) ->
  exists issued,
    BindGLTextures w = Returns tt w issued /\
    issued
    = bind_calls 0 (take (Z.to_nat (m_loadedTextures (this w)))
                      (m_textureIDs (this w))) /\
    length issued = (2 * Z.to_nat (m_loadedTextures (this w)))%nat /\
    (forall i e, registered_at (this w) i e ->
       issued !! (2 * i)%nat
       = Some (glActiveTexture (GL_TEXTURE0 + Z.of_nat i)) /\
       issued !! (2 * i + 1)%nat
       = Some (glBindTexture GL_TEXTURE_2D (TextureInfo.ID e))) /\
    forall i e, registered_at (this w) i e ->
      exists before after,
        issued
        = before
          ++ [glActiveTexture (GL_TEXTURE0 + Z.of_nat i);
              glBindTexture GL_TEXTURE_2D (TextureInfo.ID e)]
          ++ after.
Proof.
  intros Hwf. pose proof Hwf as [Hn Hlen].
  exists (bind_calls 0 (take (Z.to_nat (m_loadedTextures (this w)))
                          (m_textureIDs (this w)))).
  split; [|split; [reflexivity|split; [|split]]].
  - apply BindGLTextures_calls, Hwf.
  - rewrite bind_calls_length, length_take_le by lia. reflexivity.
  - intros i e [Hlt Hi].
    destruct (bind_calls_position
                (take (Z.to_nat (m_loadedTextures (this w)))
                   (m_textureIDs (this w))) 0 i e) as [Hact Hbind].
    { rewrite lookup_take_lt by lia. exact Hi. }
    rewrite Z.add_0_l in Hact. split; [exact Hact | exact Hbind].
  - intros i e [Hlt Hi].
    destruct (bind_calls_lookup
                (take (Z.to_nat (m_loadedTextures (this w)))
                   (m_textureIDs (this w))) 0 i e) as (before & after & Heq).
    { rewrite lookup_take_lt by lia. exact Hi. }
    exists before, after. rewrite Heq, Z.add_0_l. reflexivity.
Qed.

End Binding.

Section Teardown.
Context `{glm : GLM}.
Local Open Scope scene_scope.

Lemma DestroyGLTextures_loop_entries (k : nat) : forall (i : Z) (w : world),
  0 <= i ->
  i + Z.of_nat k <= Z.of_nat (length (m_textureIDs (this w))) ->
  exists w' issued,
    for_int i (i + Z.of_nat k)
      (fun i => name <- glGenTextures_1 ;; assign_textureIDs i (set_ID name)) w
    = Returns tt w' issued /\
    m_loadedTextures (this w') = m_loadedTextures (this w) /\
    next_texture_name w' = next_texture_name w + Z.of_nat k /\
    length (m_textureIDs (this w')) = length (m_textureIDs (this w)) /\
    forall j e, m_textureIDs (this w) !! j = Some e ->
      m_textureIDs (this w') !! j
      = Some (if (i <=? Z.of_nat j) && (Z.of_nat j <? i + Z.of_nat k)
              then TextureInfo.mk (TextureInfo.tag e)
                     (next_texture_name w + (Z.of_nat j - i))
              else e).
Proof.
  unfold for_int.
  induction k as [|k IH]; intros i w Hi Hlen.
  - replace (i + Z.of_nat 0 - i) with 0 by lia.
    rewrite seqZ_nil by lia. exists w, []. simpl.
    split; [reflexivity|]. split; [reflexivity|]. split; [lia|].
    split; [reflexivity|]. intros j e He. rewrite He. f_equal.
    destruct (Z.leb_spec i (Z.of_nat j)); [|reflexivity].
    destruct (Z.ltb_spec (Z.of_nat j) (i + Z.of_nat 0)); [lia | reflexivity].
  - replace (i + Z.of_nat (S k) - i) with (Z.of_nat (S k)) by lia.
    rewrite seqZ_cons by lia.
    replace (Z.pred (Z.of_nat (S k))) with (Z.of_nat k) by lia.
    cbn [foldr].
    assert (Hin : (0 <=? i)
                  && (i <? Z.of_nat (length (m_textureIDs (this w)))) = true).
    { apply andb_true_iff. split; [apply Z.leb_le | apply Z.ltb_lt]; lia. }
    unfold bind at 1. unfold bind at 1.
    unfold glGenTextures_1 at 1. unfold assign_textureIDs at 1.
    cbn [this next_texture_name files]. rewrite Hin.
    match goal with
    | |- context [foldr _ _ _ ?w1] =>
        destruct (IH (Z.succ i) w1)
          as (w' & issued & Hrun & Hcount & Hname & Hlength & Hentries);
          [lia | cbn; rewrite length_alter; lia |]
    end.
    replace (Z.succ i + Z.of_nat k - Z.succ i) with (Z.of_nat k) in Hrun
      by lia.
    rewrite Hrun. cbn in Hcount, Hname, Hlength, Hentries.
    rewrite length_alter in Hlength.
    exists w'. eexists. split; [reflexivity|]. split; [exact Hcount|].
    split; [lia|]. split; [exact Hlength|].
    intros j e He.
    destruct (decide (j = Z.to_nat i)) as [->|Hne].
    + rewrite (Hentries _ (set_ID (next_texture_name w) e)).
      2:{ rewrite list_lookup_alter_eq, He. reflexivity. }
      f_equal.
      destruct (Z.leb_spec (Z.succ i) (Z.of_nat (Z.to_nat i))); [lia|].
      destruct (Z.leb_spec i (Z.of_nat (Z.to_nat i))); [|lia].
      destruct (Z.ltb_spec (Z.of_nat (Z.to_nat i)) (i + Z.of_nat (S k)));
        [|lia].
      simpl. unfold set_ID. f_equal. lia.
    + rewrite (Hentries _ e).
      2:{ rewrite list_lookup_alter_ne by lia. exact He. }
      f_equal.
      destruct (Z.leb_spec (Z.succ i) (Z.of_nat j));
        destruct (Z.leb_spec i (Z.of_nat j)); try lia; simpl.
      * destruct (Z.ltb_spec (Z.of_nat j) (Z.succ i + Z.of_nat k));
          destruct (Z.ltb_spec (Z.of_nat j) (i + Z.of_nat (S k)));
          try lia; [|reflexivity].
        f_equal. lia.
      * reflexivity.
Qed.

(** The handles of the registry are names the context handed out: this
    holds of a freshly constructed scene manager and is kept by every
    registration. *)
Lemma SceneManager_new_handles_generated (pShaderManager : option N)
  (w : world) :
  this w = SceneManager_new pShaderManager -> 0 < next_texture_name w ->
  handles_generated w.
Proof.
  intros Hnew Hpos. split; [exact Hpos|]. intros i e [Hlt _].
  rewrite Hnew in Hlt. simpl in Hlt. lia.
Qed.

Lemma CreateGLTexture_handles_generated wrap filename tag w ok w' issued :
  handles_generated w ->
  CreateGLTexture_wrapping wrap filename tag w = Returns ok w' issued ->
  handles_generated w'.
Proof.
  intros [Hpos Hold] Hrun.
  destruct (files w filename) as [img|] eqn:Hfile.
  - destruct (decide (supported_channels img)) as [Hch|Hch].
    + destruct (decide (0 <= m_loadedTextures (this w)
                          < Z.of_nat (length (m_textureIDs (this w)))))
        as [Hn|Hn].
      * rewrite (CreateGLTexture_registers_calls _ _ _ _ _ Hfile Hch Hn)
          in Hrun.
        injection Hrun as _ <- _. split; [simpl; lia|].
        intros i e [Hlt Hi]. cbn in Hlt, Hi. cbn [next_texture_name registered].
        destruct (decide (i = Z.to_nat (m_loadedTextures (this w))))
          as [->|Hne].
        -- rewrite list_lookup_insert_eq in Hi by lia.
           injection Hi as <-. simpl. lia.
        -- rewrite list_lookup_insert_ne in Hi by lia.
           assert (Hreg : registered_at (this w) i e) by (split; [lia|exact Hi]).
           pose proof (Hold i e Hreg). lia.
      * destruct (CreateGLTexture_out_of_bounds wrap _ tag _ _ Hfile Hch Hn)
          as [issued' Heq].
        rewrite Heq in Hrun. discriminate.
    + rewrite (CreateGLTexture_rejects_calls _ _ _ _ _ Hfile Hch) in Hrun.
      injection Hrun as _ <- _. split; [simpl; lia|].
      intros i e Hreg. pose proof (Hold i e Hreg). simpl. lia.
  - rewrite (CreateGLTexture_decode_failure _ _ _ _ Hfile) in Hrun.
    injection Hrun as _ <- _. split; assumption.
Qed.

Lemma int_of_GLuint_inj (a b : Z) :
  0 <= a < 2 ^ 32 -> 0 <= b < 2 ^ 32 ->
  int_of_GLuint a = int_of_GLuint b -> a = b.
Proof.
  intros Ha Hb. unfold int_of_GLuint.
  rewrite !Z.mod_small by lia.
  destruct (Z.ltb_spec a (2 ^ 31)); destruct (Z.ltb_spec b (2 ^ 31)); lia.
Qed.

(** X7.  [DestroyGLTextures] issues one [glGenTextures] per registered
    slot, for the next unused texture names in order, and nothing else.
    It keeps the tags and [m_loadedTextures] and overwrites the handle of
    slot [i] with the [i]-th of those names: every tag is still found in
    the slot it had, and [FindTextureID] answers with the new name.  When
    the registered handles were handed out by the context, the new names
    differ from all of them: no handle an image was uploaded to is left
    in a registered slot, and (as long as the names fit a [GLuint])
    [FindTextureID] no longer answers what it answered before. *)
Theorem DestroyGLTextures_overwrites_handles (w : world) :
  registry_in_bounds (this w) ->
  exists w' issued,
    DestroyGLTextures w = Returns tt w' issued /\
    issued
    = glGenTextures 1
        <$> seqZ (next_texture_name w) (m_loadedTextures (this w)) /\
    m_loadedTextures (this w') = m_loadedTextures (this w) /\
    next_texture_name w'
    = next_texture_name w + m_loadedTextures (this w) /\
    (forall i e, registered_at (this w) i e ->
       m_textureIDs (this w') !! i
       = Some (TextureInfo.mk (TextureInfo.tag e)
                 (next_texture_name w + Z.of_nat i))) /\
    (forall tag,
       FindTextureSlot (this w') tag = FindTextureSlot (this w) tag) /\
    (forall tag i e, first_match (this w) tag i e ->
       FindTextureID (this w') tag
       = int_of_GLuint (next_texture_name w + Z.of_nat i)) /\
    (handles_generated w ->
     handles_generated w' /\
     (forall i e j e',
        registered_at (this w) i e -> registered_at (this w') j e' ->
        TextureInfo.ID e' <> TextureInfo.ID e) /\
     (next_texture_name w' <= 2 ^ 32 ->
      forall tag i e, first_match (this w) tag i e ->
        FindTextureID (this w') tag <> FindTextureID (this w) tag)).
Proof.
  intros [Hn Hlen].
  destruct (DestroyGLTextures_loop_entries
              (Z.to_nat (m_loadedTextures (this w))) 0 w)
    as (w' & issued & Hrun & Hcount & Hname & Hlength & Hentries);
    [lia | lia |].
  destruct (DestroyGLTextures_loop
              (Z.to_nat (m_loadedTextures (this w))) 0 w)
    as (w'' & Hcalls & _); [lia | lia |].
  rewrite Hrun in Hcalls. injection Hcalls as _ Hissued.
  rewrite Z2Nat.id in Hissued by lia.
  rewrite Z2Nat.id, Z.add_0_l in Hrun by lia.
  rewrite Z2Nat.id in Hname by lia.
  assert (Hreg : forall i e, registered_at (this w) i e ->
            m_textureIDs (this w') !! i
            = Some (TextureInfo.mk (TextureInfo.tag e)
                      (next_texture_name w + Z.of_nat i))).
  { intros i e [Hlt Hi]. rewrite (Hentries i e Hi). f_equal.
    destruct (Z.leb_spec 0 (Z.of_nat i)); [|lia].
    destruct (Z.ltb_spec (Z.of_nat i)
                (0 + Z.of_nat (Z.to_nat (m_loadedTextures (this w)))));
      [|lia].
    simpl. f_equal. lia. }
  assert (Hnew : forall j e', registered_at (this w') j e' ->
            TextureInfo.ID e' = next_texture_name w + Z.of_nat j /\
            Z.of_nat j < m_loadedTextures (this w)).
  { intros j e' [Hlt Hj]. rewrite Hcount in Hlt.
    assert (Hjlen : (j < length (m_textureIDs (this w)))%nat) by lia.
    destruct (lookup_lt_is_Some_2 _ _ Hjlen) as [e0 He0].
    rewrite (Hreg j e0) in Hj by (split; [lia | exact He0]).
    injection Hj as <-. split; [reflexivity | exact Hlt]. }
  assert (Hfirst : forall tag i e, first_match (this w) tag i e ->
            first_match (this w') tag i
              (TextureInfo.mk (TextureInfo.tag e)
                 (next_texture_name w + Z.of_nat i))).
  { intros tag i e ([Hlt Hi] & Htag & Hbefore).
    split; [split|split].
    - rewrite Hcount. exact Hlt.
    - apply Hreg. split; assumption.
    - exact Htag.
    - intros j e' Hj He'.
      assert (Hjlen : (j < length (m_textureIDs (this w)))%nat).
      { apply lookup_lt_Some in Hi. lia. }
      destruct (lookup_lt_is_Some_2 _ _ Hjlen) as [e0 He0].
      rewrite (Hreg j e0) in He' by (split; [lia | exact He0]).
      injection He' as <-. simpl. exact (Hbefore j e0 Hj He0). }
  assert (Hnone : forall tag, no_match (this w) tag ->
            no_match (this w') tag).
  { intros tag Hno i e' [Hlt Hi]. rewrite Hcount in Hlt.
    assert (Hilen : (i < length (m_textureIDs (this w)))%nat) by lia.
    destruct (lookup_lt_is_Some_2 _ _ Hilen) as [e0 He0].
    rewrite (Hreg i e0) in Hi by (split; [lia | exact He0]).
    injection Hi as <-. simpl. apply (Hno i e0). split; [lia | exact He0]. }
  assert (Hid : forall tag i e, first_match (this w) tag i e ->
            FindTextureID (this w') tag
            = int_of_GLuint (next_texture_name w + Z.of_nat i)).
  { intros tag i e Hf.
    rewrite (FindTextureID_first_match _ _ _ _ (Hfirst _ _ _ Hf)).
    reflexivity. }
  exists w', issued.
  split; [|split; [exact Hissued|split; [exact Hcount|
            split; [exact Hname|split; [exact Hreg|split; [|split;
              [exact Hid|]]]]]]].
  - unfold DestroyGLTextures. unfold bind at 1. unfold get_this.
    rewrite Hrun. reflexivity.
  - intros tag.
    destruct (first_match_or_no_match (this w) tag)
      as [Hno|(i & e & Hf)].
    + rewrite !FindTextureSlot_no_match; auto; lia.
    + rewrite (FindTextureSlot_first_match _ _ _ _ Hf),
        (FindTextureSlot_first_match _ _ _ _ (Hfirst _ _ _ Hf)).
      reflexivity.
  - intros [Hpos Hold]. split; [|split].
    + split; [lia|]. intros j e' Hj.
      destruct (Hnew j e' Hj) as [-> Hlt]. lia.
    + intros i e j e' Hi Hj.
      destruct (Hnew j e' Hj) as [-> _].
      pose proof (Hold i e Hi). lia.
    + intros Hfit tag i e Hf Heq.
      rewrite (Hid tag i e Hf),
        (FindTextureID_first_match _ _ _ _ Hf) in Heq.
      destruct Hf as [Hi _]. pose proof (Hold i e Hi) as He.
      destruct Hi as [Hlt _].
      apply int_of_GLuint_inj in Heq; lia.
Qed.

End Teardown.

Section MaterialLookup.
Context `{glm : GLM}.
Local Open Scope scene_scope.

Lemma material_scan_hit (materials : list (OBJECT_MATERIAL float))
  (tag : string) (fuel : nat) (i : Z) (m : OBJECT_MATERIAL float)
  (j : nat) (e : OBJECT_MATERIAL float) :
  let n := Z.of_nat (length materials) in
  n <= i + Z.of_nat fuel -> 0 <= i <= Z.of_nat j ->
  materials !! j = Some e -> ObjectMaterial.tag e = tag ->
  (forall j' e', i <= Z.of_nat j' -> (j' < j)%nat ->
     materials !! j' = Some e' -> ObjectMaterial.tag e' <> tag) ->
  while fuel (material_cond n) (material_body materials tag)
    {| mat_index := i; mat_bFound := false; material := m |}
  = {| mat_index := Z.of_nat j; mat_bFound := true;
       material :=
         ObjectMaterial.mk
           (ObjectMaterial.ambientColor e) (ObjectMaterial.ambientStrength e)
           (ObjectMaterial.diffuseColor e) (ObjectMaterial.specularColor e)
           (ObjectMaterial.shininess e) (ObjectMaterial.tag m) |}.
Proof.
  intros n. revert i.
  induction fuel as [|fuel IH]; intros i Hfuel Hi Hj Htag Hbefore.
  - apply lookup_lt_Some in Hj. simpl in Hfuel. lia.
  - pose proof (lookup_lt_Some _ _ _ Hj) as Hjlen.
    simpl. unfold material_cond at 1. simpl.
    destruct (Z.ltb_spec i n) as [Hlt|Hge]; [simpl | lia].
    unfold material_body at 2. simpl.
    destruct (Z.eq_dec i (Z.of_nat j)) as [->|Hne].
    + rewrite Nat2Z.id, (list_lookup_total_correct _ _ _ Hj).
      apply String.eqb_eq in Htag. rewrite Htag.
      destruct fuel; simpl; [reflexivity|].
      unfold material_cond at 1. simpl. rewrite andb_false_r. reflexivity.
    + assert (Hilen : (Z.to_nat i < length materials)%nat) by lia.
      destruct (lookup_lt_is_Some_2 _ _ Hilen) as [e' He'].
      rewrite (list_lookup_total_correct _ _ _ He').
      assert (Hmiss : ObjectMaterial.tag e' <> tag).
      { apply (Hbefore (Z.to_nat i) e'); [lia | lia | exact He']. }
      apply String.eqb_neq in Hmiss. rewrite Hmiss.
      apply IH; [lia | lia | exact Hj | exact Htag |].
      intros j' e'' Hj'1 Hj'2. apply Hbefore; [lia | exact Hj'2].
Qed.

Lemma FindMaterial_first_material s tag material0 i e :
  first_material (m_objectMaterials s) tag i e ->
  FindMaterial s tag material0
  = (true,
     ObjectMaterial.mk
       (ObjectMaterial.ambientColor e) (ObjectMaterial.ambientStrength e)
       (ObjectMaterial.diffuseColor e) (ObjectMaterial.specularColor e)
       (ObjectMaterial.shininess e) (ObjectMaterial.tag material0)).
Proof.
  intros (Hi & Htag & Hbefore). rewrite FindMaterial_scan.
  pose proof (lookup_lt_Some _ _ _ Hi) as Hlen.
  destruct (Z.eqb_spec (Z.of_nat (length (m_objectMaterials s))) 0); [lia|].
  rewrite (material_scan_hit _ tag _ 0 material0 i e);
    [reflexivity | lia | lia | exact Hi | exact Htag |].
  intros j' e' _ Hj' He'. exact (Hbefore j' e' Hj' He').
Qed.

(** X8.  When a material carries the tag, [FindMaterial] returns [true]
    and fills the caller's [material] with the ambient color, ambient
    strength, diffuse color, specular color and shininess of the first
    such material in the list; the tag of the caller's [material] is left
    as it was.  Later materials with the same tag are never reached. *)
Theorem FindMaterial_first_wins (s : SceneManager) (tag : string)
  (material0 : OBJECT_MATERIAL float) (i : nat)
  (e : OBJECT_MATERIAL float) :
  first_material (m_objectMaterials s) tag i e ->
  let (found, material) := FindMaterial s tag material0 in
  found = true /\
  ObjectMaterial.ambientColor material = ObjectMaterial.ambientColor e /\
  ObjectMaterial.ambientStrength material
  = ObjectMaterial.ambientStrength e /\
  ObjectMaterial.diffuseColor material = ObjectMaterial.diffuseColor e /\
  ObjectMaterial.specularColor material = ObjectMaterial.specularColor e /\
  ObjectMaterial.shininess material = ObjectMaterial.shininess e /\
  ObjectMaterial.tag material = ObjectMaterial.tag material0.
Proof.
  intros Hfirst. rewrite (FindMaterial_first_material _ _ _ _ _ Hfirst).
  repeat split; reflexivity.
Qed.

(** X9.  With a shader manager attached, [SetShaderMaterial] uploads the
    five values of the first material carrying the tag, in the order
    ambient color, ambient strength, diffuse color, specular color,
    shininess, whatever its local [material] held before. *)
Theorem SetShaderMaterial_uploads_first (materialTag : string)
  (material : OBJECT_MATERIAL float) (w : world) (shader : N) (i : nat)
  (e : OBJECT_MATERIAL float) :
  m_pShaderManager (this w) = Some shader ->
  first_material (m_objectMaterials (this w)) materialTag i e ->
  SetShaderMaterial materialTag material w
  = Called (Returns tt w (material_uploads e)).
Proof.
  intros Hshader Hfirst. unfold SetShaderMaterial.
  pose proof Hfirst as (Hi & _). apply lookup_lt_Some in Hi.
  destruct (Z.ltb_spec 0 (Z.of_nat (length (m_objectMaterials (this w)))));
    [|lia].
  cbv zeta. rewrite (FindMaterial_first_material _ _ _ _ _ Hfirst), Hshader.
  reflexivity.
Qed.

(** X10.  [SetShaderMaterial] away from a match.  With no material
    defined it does nothing, shader manager or not.  With materials
    defined it never tests the shader manager: without one the call goes
    through a null pointer, whatever the tag.  And for a tag no material
    carries, [FindMaterial] answering [true], it uploads the five values
    its uninitialised local [material] happens to hold. *)
Theorem SetShaderMaterial_without_match (materialTag : string)
  (material : OBJECT_MATERIAL float) (w : world) :
  (m_objectMaterials (this w) = [] ->
   SetShaderMaterial materialTag material w = Called (Returns tt w [])) /\
  (m_objectMaterials (this w) <> [] ->
   m_pShaderManager (this w) = None ->
   SetShaderMaterial materialTag material w = NullShaderManager) /\
  (m_objectMaterials (this w) <> [] ->
   (forall e, e ∈ m_objectMaterials (this w) ->
              ObjectMaterial.tag e <> materialTag) ->
   forall shader, m_pShaderManager (this w) = Some shader ->
   SetShaderMaterial materialTag material w
   = Called (Returns tt w (material_uploads material))).
Proof.
  split; [|split].
  - intros Hempty. unfold SetShaderMaterial. rewrite Hempty. reflexivity.
  - intros Hne Hshader. unfold SetShaderMaterial.
    destruct (Z.ltb_spec 0 (Z.of_nat (length (m_objectMaterials (this w)))))
      as [_|H0].
    + cbv zeta.
      assert (Htrue : (FindMaterial (this w) materialTag material).1 = true).
      { rewrite FindMaterial_scan.
        destruct (Z.eqb_spec (Z.of_nat (length (m_objectMaterials (this w))))
                    0) as [H0|_]; [|reflexivity].
        destruct (m_objectMaterials (this w)); [congruence | simpl in H0; lia]. }
      destruct (FindMaterial (this w) materialTag material) as [found m].
      simpl in Htrue. rewrite Htrue, Hshader. reflexivity.
    + destruct (m_objectMaterials (this w)); [congruence | simpl in H0; lia].
  - intros Hne Hmiss shader Hshader. unfold SetShaderMaterial.
    destruct (Z.ltb_spec 0 (Z.of_nat (length (m_objectMaterials (this w)))))
      as [_|H0].
    + cbv zeta. rewrite (FindMaterial_no_match _ _ _ Hne Hmiss), Hshader.
      reflexivity.
    + destruct (m_objectMaterials (this w)); [congruence | simpl in H0; lia].
Qed.

(** X11.  The Module 4 revision of [SetShaderTexture] uploads whatever
    [FindTextureSlot] returns as the sampler: the slot of a registered
    tag, and -1 for a tag that is not registered.  In neither case does
    it activate a texture unit or bind a texture. *)
Theorem MilestoneThree_SetShaderTexture_sampler (w : world)
  (textureTag : string) (shader : N) :
  m_pShaderManager (this w) = Some shader ->
  m_loadedTextures (this w) <= Z.of_nat (length (m_textureIDs (this w))) ->
  (no_match (this w) textureTag ->
   MilestoneThree.SetShaderTexture textureTag w
   = Returns tt w
       [setIntValue "bUseTexture" 1; setSampler2DValue "objectTexture" (-1)])
  /\
  (forall i e, first_match (this w) textureTag i e ->
   MilestoneThree.SetShaderTexture textureTag w
   = Returns tt w
       [setIntValue "bUseTexture" 1;
        setSampler2DValue "objectTexture" (Z.of_nat i)]).
Proof.
  intros Hshader Hlen. split.
  - intros Hno.
    unfold MilestoneThree.SetShaderTexture, bind, get_this, emit, ret.
    rewrite Hshader. cbn [this].
    rewrite (FindTextureSlot_no_match _ _ Hlen Hno). reflexivity.
  - intros i e Hfirst.
    unfold MilestoneThree.SetShaderTexture, bind, get_this, emit, ret.
    rewrite Hshader. cbn [this].
    rewrite (FindTextureSlot_first_match _ _ _ _ Hfirst). reflexivity.
Qed.

End MaterialLookup.

Section Preparation.
Context `{glm : GLM}.
Local Open Scope scene_scope.

Lemma returns_bind {A B} (m : M A) (k : A -> M B) (w : world)
  (P Q : world -> Prop) :
  returns (m w) (fun _ w1 _ => P w1) ->
  (forall x w1, P w1 -> returns (k x w1) (fun _ w2 _ => Q w2)) ->
  returns (bind m k w) (fun _ w2 _ => Q w2).
Proof.
  intros (x & w1 & c1 & Hm & HP) Hk.
  destruct (Hk x w1 HP) as (y & w2 & c2 & Hk' & HQ).
  exists y, w2, (c1 ++ c2). unfold bind. rewrite Hm, Hk'. auto.
Qed.

Lemma CreateGLTexture_loads_at_most (k : Z) filename tag w :
  loaded_at_most k w -> k < 16 ->
  returns (CreateGLTexture filename tag w)
    (fun _ w' _ => loaded_at_most (k + 1) w').
Proof.
  intros [Hlen Hn] Hk. unfold CreateGLTexture.
  destruct (decodes w filename) eqn:Hdec.
  - apply decodes_true in Hdec as (img & Hfile & Hch).
    rewrite (CreateGLTexture_registers_calls _ _ tag _ _ Hfile Hch) by lia.
    eexists _, _, _. split; [reflexivity|].
    split; simpl; [rewrite length_insert; exact Hlen | lia].
  - destruct (CreateGLTexture_not_decodes GL_CLAMP_TO_EDGE filename tag w
                Hdec) as (w' & c & Hrun & Hthis & _).
    rewrite Hrun. eexists _, _, _. split; [reflexivity|].
    split; rewrite Hthis; [exact Hlen | lia].
Qed.

Lemma loaded_at_most_in_bounds k w :
  loaded_at_most k w -> k <= 16 -> registry_in_bounds (this w).
Proof. intros [Hlen Hn] Hk. unfold registry_in_bounds. lia. Qed.

Lemma LoadSceneTextures_at_most w :
  loaded_at_most 0 w ->
  returns (Module7.LoadSceneTextures w) (fun _ w' _ => loaded_at_most 13 w').
Proof.
  intros H. unfold Module7.LoadSceneTextures.
  repeat match goal with
         | H : loaded_at_most ?k ?w
           |- returns (bind (CreateGLTexture _ _) _ ?w) _ =>
             eapply returns_bind;
             [apply (CreateGLTexture_loads_at_most k); [exact H | lia]
             |clear H; intros ? ? H]
         end.
  rewrite BindGLTextures_calls by (apply (loaded_at_most_in_bounds _ _ H); lia).
  eexists _, _, _. split; [reflexivity|].
  destruct H as [Hlen Hn]. split; [exact Hlen | lia].
Qed.

(** X12.  On a freshly constructed scene manager [PrepareScene] always
    returns, whichever of its texture files can be decoded: its 13
    registrations stay inside the array of 16 entries, and it leaves at
    most 13 textures registered. *)
Theorem PrepareScene_stays_in_bounds (pShaderManager : option N)
  (w : world) :
  this w = SceneManager_new pShaderManager ->
  exists w' issued,
    Module7.PrepareScene w = Returns tt w' issued /\
    length (m_textureIDs (this w')) = 16%nat /\
    0 <= m_loadedTextures (this w') <= 13.
Proof.
  intros Hnew.
  assert (H0 : loaded_at_most 0 w).
  { split; rewrite Hnew; [reflexivity | simpl; lia]. }
  destruct (LoadSceneTextures_at_most w H0) as ([] & w' & c & Hrun & Hw').
  exists w'. eexists. split; [|exact Hw'].
  unfold Module7.PrepareScene. unfold bind at 1. rewrite Hrun.
  reflexivity.
Qed.

Lemma loaded_with_snoc tags tag pShaderManager name :
  (length tags < 16)%nat ->
  <[length tags := TextureInfo.mk tag (name + Z.of_nat (length tags))]>
    (m_textureIDs (loaded_with tags pShaderManager name))
  = m_textureIDs (loaded_with (tags ++ [tag]) pShaderManager name).
Proof.
  intros Hlen. unfold loaded_with. cbn [m_textureIDs].
  rewrite imap_app, length_app. cbn [length imap].
  replace (16 - length tags)%nat with (S (16 - (length tags + 1)))%nat by lia.
  cbn [replicate].
  rewrite insert_app_r_alt by (rewrite length_imap; lia).
  rewrite length_imap, Nat.sub_diag. cbn [insert list_insert].
  rewrite <- app_assoc. cbn [app]. unfold compose.
  rewrite Nat.add_0_r. reflexivity.
Qed.

Lemma CreateGLTexture_loads_tag tags pShaderManager name filename tag w :
  registered_tags tags pShaderManager name w -> (length tags < 16)%nat ->
  returns (CreateGLTexture filename tag w)
    (fun _ w' _ => registered_tags (tags ++ [tag]) pShaderManager name w').
Proof.
  intros (Hthis & Hname & Hfiles) Hlen. unfold CreateGLTexture.
  destruct (decodes_true _ _ (Hfiles filename)) as (img & Hfile & Hch).
  assert (Hids : length (m_textureIDs (this w)) = 16%nat).
  { rewrite Hthis. unfold loaded_with. cbn [m_textureIDs].
    rewrite length_app, length_imap, length_replicate. lia. }
  assert (Hn : m_loadedTextures (this w) = Z.of_nat (length tags)).
  { rewrite Hthis. reflexivity. }
  rewrite (CreateGLTexture_registers_calls _ _ tag _ _ Hfile Hch) by lia.
  eexists _, _, _. split; [reflexivity|].
  split; [|split].
  - unfold registered. cbn [this]. rewrite Hn, Hname, Nat2Z.id.
    unfold with_loadedTextures, with_textureIDs. cbn.
    rewrite Hthis, loaded_with_snoc by exact Hlen.
    unfold loaded_with. cbn. rewrite length_app. cbn [length].
    f_equal. lia.
  - cbn. rewrite Hname, length_app. cbn [length]. lia.
  - intros f. specialize (Hfiles f). unfold decodes in *. exact Hfiles.
Qed.

Lemma LoadSceneTextures_registered pShaderManager name w :
  registered_tags [] pShaderManager name w ->
  returns (Module7.LoadSceneTextures w)
    (fun _ w' _ => registered_tags scene_tags pShaderManager name w').
Proof.
  intros H. unfold Module7.LoadSceneTextures.
  repeat match goal with
         | H : registered_tags ?tags _ _ ?w
           |- returns (bind (CreateGLTexture _ _) _ ?w) _ =>
             eapply returns_bind;
             [apply (CreateGLTexture_loads_tag tags); [exact H | simpl; lia]
             |clear H; intros ? ? H; simpl app in H]
         end.
  rewrite BindGLTextures_calls.
  - eexists _, _, _. split; [reflexivity | exact H].
  - destruct H as (Hthis & _). rewrite Hthis.
    split; vm_compute; discriminate.
Qed.

(** X13.  In a world where every texture file decodes into an image with
    3 or 4 channels, [PrepareScene] on a freshly constructed scene manager
    registers the 13 tags of [LoadSceneTextures] in the slots 0 to 12, in
    the order of its calls.  [RenderScene] then finds the tag of each of
    its 35 [SetShaderTexture] statements: every one of them uploads a
    sampler, none leaves the texture of the previous object in place. *)
Theorem PrepareScene_registers_scene_tags (shader : N) (w : world) :
  this w = SceneManager_new (Some shader) ->
  (forall filename, decodes w filename = true) ->
  returns (Module7.PrepareScene w) (fun _ w1 _ =>
    this w1 = loaded_with scene_tags (Some shader) (next_texture_name w) /\
    (fun tag => FindTextureSlot (this w1) tag) <$> scene_tags = seqZ 0 13 /\
    returns (Module7.RenderScene w1) (fun _ w2 issued =>
      w2 = w1 /\
      length (filter is_use_texture issued) = 35%nat /\
      length (filter is_sampler_upload issued) = 35%nat)).
Proof.
  intros Hnew Hfiles.
  assert (H0 : registered_tags [] (Some shader) (next_texture_name w) w).
  { split; [rewrite Hnew; reflexivity|]. split; [simpl; lia | exact Hfiles]. }
  destruct (LoadSceneTextures_registered _ _ w H0)
    as ([] & w1 & c & Hrun & Hthis & _).
  exists tt, w1. eexists. split.
  { unfold Module7.PrepareScene. unfold bind at 1. rewrite Hrun.
    reflexivity. }
  split; [exact Hthis|]. split.
  { rewrite Hthis. vm_compute. reflexivity. }
  pose (w' := {| this := loaded_with scene_tags (Some shader)
                           (next_texture_name w);
                 next_texture_name := 0;
                 files := fun _ => None |}).
  destruct (Module7_RenderScene_replays w') as ([] & issued & Hrun' & Hsame).
  exists tt, w1, issued. split; [apply Hsame; rewrite Hthis; reflexivity|].
  split; [reflexivity|].
  assert (Hissued : issued = issued_by (Module7.RenderScene w')).
  { rewrite Hrun'. reflexivity. }
  rewrite Hissued. split; vm_compute; reflexivity.
Qed.

End Preparation.

Section Frames.
Context `{glm : GLM}.
Local Open Scope scene_scope.

Lemma frames_ret : frames (ret tt) [].
Proof. intros w _. exists []. split; reflexivity. Qed.

Lemma frames_bind (m : M unit) (k : unit -> M unit) (s1 s2 : list step) :
  frames m s1 -> (forall x, frames (k x) s2) ->
  frames (x <- m ;; k x) (s1 ++ s2).
Proof.
  intros Hm Hk w Hshader.
  destruct (Hm w Hshader) as (c1 & Hrun1 & Hs1).
  destruct (Hk tt w Hshader) as (c2 & Hrun2 & Hs2).
  exists (c1 ++ c2). unfold bind. rewrite Hrun1, Hrun2.
  split; [reflexivity|].
  unfold steps in *. rewrite omap_app, Hs1, Hs2. reflexivity.
Qed.

Lemma frames_steps (m : M unit) (s s' : list step) :
  frames m s -> s = s' -> frames m s'.
Proof. intros H <-. exact H. Qed.

Lemma frames_SetTransformations scaleXYZ XrotationDegrees YrotationDegrees
  ZrotationDegrees positionXYZ :
  frames (SetTransformations scaleXYZ XrotationDegrees YrotationDegrees
            ZrotationDegrees positionXYZ) [Transform].
Proof.
  intros w Hshader. unfold SetTransformations, bind, get_this, emit.
  destruct (m_pShaderManager (this w)); [|congruence].
  eexists. split; reflexivity.
Qed.

Lemma frames_SetShaderColor red green blue alpha :
  frames (SetShaderColor red green blue alpha) [Appearance].
Proof.
  intros w Hshader. unfold SetShaderColor, bind, get_this, emit.
  destruct (m_pShaderManager (this w)); [|congruence].
  eexists. split; reflexivity.
Qed.

Lemma frames_SetShaderTexture textureTag :
  frames (SetShaderTexture textureTag) [Appearance].
Proof.
  intros w Hshader. unfold SetShaderTexture, bind, get_this, emit, ret.
  destruct (m_pShaderManager (this w)); [|congruence]. cbn [this].
  destruct (0 <=? FindTextureSlot (this w) textureTag);
    eexists; split; reflexivity.
Qed.

Lemma frames_SetTextureUVScale u v : frames (SetTextureUVScale u v) [].
Proof.
  intros w Hshader. unfold SetTextureUVScale, bind, get_this, emit.
  destruct (m_pShaderManager (this w)); [|congruence].
  eexists. split; reflexivity.
Qed.

Lemma frames_glBindTexture target texture :
  frames (gl (glBindTexture target texture)) [].
Proof. intros w _. eexists. split; reflexivity. Qed.

Lemma frames_glPolygonOffset factor units :
  frames (gl (glPolygonOffset factor units)) [].
Proof. intros w _. eexists. split; reflexivity. Qed.

Lemma frames_m_basicMeshes method : frames (m_basicMeshes method) [Draw].
Proof. intros w _. eexists. split; reflexivity. Qed.

End Frames.

Create HintDb frames.
#[export] Hint Resolve frames_ret frames_SetTransformations
  frames_SetShaderColor frames_SetShaderTexture frames_SetTextureUVScale
  frames_glBindTexture frames_glPolygonOffset frames_m_basicMeshes : frames.

(** The steps of a script, statement by statement, then compared with the
    expected ones. *)
Ltac frame_script :=
  eapply frames_steps;
  [repeat (eapply frames_bind; [solve [auto with frames] | intros _]);
   auto with frames
  |reflexivity].

Section SceneFrames.
Context `{glm : GLM}.

Lemma Module7_RenderScene_frames :
  frames Module7.RenderScene (concat (replicate 37 object_steps)).
Proof. unfold Module7.RenderScene. frame_script. Qed.

Lemma Module3_RenderScene_frames :
  frames Module3.RenderScene (concat (replicate 8 object_steps)).
Proof. unfold Module3.RenderScene. frame_script. Qed.

Lemma MilestoneThree_RenderScene_frames :
  frames MilestoneThree.RenderScene (concat (replicate 10 object_steps)).
Proof. unfold MilestoneThree.RenderScene. frame_script. Qed.

(** X14.  With a shader manager attached, whatever the texture registry
    holds, each of the three scenes is issued object by object: one upload
    of the model matrix, then one choice between color and texture, then
    one draw, and so on for its 37, 8 and 10 objects.  No mesh is drawn
    with the transform or the appearance of the object before it, and the
    scene manager is left as it was. *)
Theorem RenderScene_object_by_object (w : world) :
  m_pShaderManager (this w) <> None ->
  (exists issued,
     Module7.RenderScene w = Returns tt w issued /\
     steps issued = concat (replicate 37 [Transform; Appearance; Draw])) /\
  (exists issued,
     Module3.RenderScene w = Returns tt w issued /\
     steps issued = concat (replicate 8 [Transform; Appearance; Draw])) /\
  (exists issued,
     MilestoneThree.RenderScene w = Returns tt w issued /\
     steps issued = concat (replicate 10 [Transform; Appearance; Draw])).
Proof.
  intros Hshader. split; [|split].
  - exact (Module7_RenderScene_frames w Hshader).
  - exact (Module3_RenderScene_frames w Hshader).
  - exact (MilestoneThree_RenderScene_frames w Hshader).
Qed.

End SceneFrames.

Section WithoutShader.
Context `{glm : GLM}.
Local Open Scope scene_scope.

Lemma unshaded_ret : frames_without_shader (ret tt) [].
Proof. intros w _. exists []. repeat split. Qed.

Lemma unshaded_bind (m : M unit) (k : unit -> M unit) (s1 s2 : list step) :
  frames_without_shader m s1 -> (forall x, frames_without_shader (k x) s2) ->
  frames_without_shader (x <- m ;; k x) (s1 ++ s2).
Proof.
  intros Hm Hk w Hshader.
  destruct (Hm w Hshader) as (c1 & Hrun1 & Hs1 & Hno1).
  destruct (Hk tt w Hshader) as (c2 & Hrun2 & Hs2 & Hno2).
  exists (c1 ++ c2). unfold bind. rewrite Hrun1, Hrun2.
  split; [reflexivity|]. split.
  - unfold steps in *. rewrite omap_app, Hs1, Hs2. reflexivity.
  - rewrite filter_app, Hno1, Hno2. reflexivity.
Qed.

Lemma unshaded_steps (m : M unit) (s s' : list step) :
  frames_without_shader m s -> s = s' -> frames_without_shader m s'.
Proof. intros H <-. exact H. Qed.

Lemma unshaded_SetTransformations scaleXYZ XrotationDegrees YrotationDegrees
  ZrotationDegrees positionXYZ :
  frames_without_shader
    (SetTransformations scaleXYZ XrotationDegrees YrotationDegrees
       ZrotationDegrees positionXYZ) [].
Proof.
  intros w Hshader. unfold SetTransformations, bind, get_this, emit.
  rewrite Hshader. eexists. repeat split.
Qed.

Lemma unshaded_SetShaderColor red green blue alpha :
  frames_without_shader (SetShaderColor red green blue alpha) [].
Proof.
  intros w Hshader. unfold SetShaderColor, bind, get_this, emit.
  rewrite Hshader. eexists. repeat split.
Qed.

Lemma unshaded_SetShaderTexture textureTag :
  frames_without_shader (SetShaderTexture textureTag) [].
Proof.
  intros w Hshader. unfold SetShaderTexture, bind, get_this, emit.
  rewrite Hshader. eexists. repeat split.
Qed.

Lemma unshaded_SetTextureUVScale u v :
  frames_without_shader (SetTextureUVScale u v) [].
Proof.
  intros w Hshader. unfold SetTextureUVScale, bind, get_this, emit.
  rewrite Hshader. eexists. repeat split.
Qed.

Lemma unshaded_glBindTexture target texture :
  frames_without_shader (gl (glBindTexture target texture)) [].
Proof. intros w _. eexists. repeat split. Qed.

Lemma unshaded_glPolygonOffset factor units :
  frames_without_shader (gl (glPolygonOffset factor units)) [].
Proof. intros w _. eexists. repeat split. Qed.

Lemma unshaded_m_basicMeshes method :
  frames_without_shader (m_basicMeshes method) [Draw].
Proof. intros w _. eexists. repeat split. Qed.

End WithoutShader.

Create HintDb unshaded.
#[export] Hint Resolve unshaded_ret unshaded_SetTransformations
  unshaded_SetShaderColor unshaded_SetShaderTexture
  unshaded_SetTextureUVScale unshaded_glBindTexture unshaded_glPolygonOffset
  unshaded_m_basicMeshes : unshaded.

Ltac unshaded_script :=
  eapply unshaded_steps;
  [repeat (eapply unshaded_bind; [solve [auto with unshaded] | intros _]);
   auto with unshaded
  |reflexivity].

Section ScenesWithoutShader.
Context `{glm : GLM}.

Lemma Module7_RenderScene_unshaded :
  frames_without_shader Module7.RenderScene (replicate 37 Draw).
Proof. unfold Module7.RenderScene. unshaded_script. Qed.

Lemma Module3_RenderScene_unshaded :
  frames_without_shader Module3.RenderScene (replicate 8 Draw).
Proof. unfold Module3.RenderScene. unshaded_script. Qed.

Lemma MilestoneThree_RenderScene_unshaded :
  frames_without_shader MilestoneThree.RenderScene (replicate 10 Draw).
Proof. unfold MilestoneThree.RenderScene. unshaded_script. Qed.

(** X15.  Without a shader manager every statement of the three scenes
    that would reach it is skipped: [RenderScene] returns, having issued
    its 37, 8 and 10 draws and not one call to the shader manager. *)
Theorem RenderScene_without_shader (w : world) :
  m_pShaderManager (this w) = None ->
  (exists issued,
     Module7.RenderScene w = Returns tt w issued /\
     steps issued = replicate 37 Draw /\
     filter is_shader_call issued = []) /\
  (exists issued,
     Module3.RenderScene w = Returns tt w issued /\
     steps issued = replicate 8 Draw /\
     filter is_shader_call issued = []) /\
  (exists issued,
     MilestoneThree.RenderScene w = Returns tt w issued /\
     steps issued = replicate 10 Draw /\
     filter is_shader_call issued = []).
Proof.
  intros Hshader. split; [|split].
  - exact (Module7_RenderScene_unshaded w Hshader).
  - exact (Module3_RenderScene_unshaded w Hshader).
  - exact (MilestoneThree_RenderScene_unshaded w Hshader).
Qed.

End ScenesWithoutShader.

Section SecondPreparation.
Context `{glm : GLM}.
Local Open Scope scene_scope.

Lemma faults_bind {A B} (m : M A) (k : A -> M B) (w : world)
  (P : world -> Prop) (index : Z) :
  returns (m w) (fun _ w1 _ => P w1) ->
  (forall x w1, P w1 -> faults (k x w1) index) ->
  faults (bind m k w) index.
Proof.
  intros (x & w1 & c1 & Hm & HP) Hk.
  destruct (Hk x w1 HP) as (c2 & Hk').
  exists (c1 ++ c2). unfold bind. rewrite Hm, Hk'. reflexivity.
Qed.

Lemma faults_first {A B} (m : M A) (k : A -> M B) (w : world) (index : Z) :
  faults (m w) index -> faults (bind m k w) index.
Proof.
  intros (c & Hm). exists c. unfold bind. rewrite Hm. reflexivity.
Qed.

Lemma CreateGLTexture_faults_when_full tags pShaderManager name filename tag
  w :
  registered_tags tags pShaderManager name w -> length tags = 16%nat ->
  faults (CreateGLTexture filename tag w) 16.
Proof.
  intros (Hthis & Hname & Hfiles) Hlen. unfold CreateGLTexture.
  destruct (decodes_true _ _ (Hfiles filename)) as (img & Hfile & Hch).
  assert (Hn : m_loadedTextures (this w) = 16).
  { rewrite Hthis. unfold loaded_with. cbn. lia. }
  destruct (CreateGLTexture_out_of_bounds GL_CLAMP_TO_EDGE _ tag _ _
              Hfile Hch) as (c & Hrun).
  { rewrite Hn, Hthis. unfold loaded_with. cbn [m_textureIDs].
    rewrite length_app, length_imap, length_replicate. lia. }
  exists c. rewrite Hrun, Hn. reflexivity.
Qed.

Lemma LoadSceneTextures_again pShaderManager name w :
  registered_tags scene_tags pShaderManager name w ->
  faults (Module7.LoadSceneTextures w) 16.
Proof.
  intros H. unfold Module7.LoadSceneTextures.
  do 3 match goal with
       | H : registered_tags ?tags _ _ ?w
         |- faults (bind (CreateGLTexture _ _) _ ?w) _ =>
           eapply faults_bind;
           [apply (CreateGLTexture_loads_tag tags); [exact H | simpl; lia]
           |clear H; intros ? ? H; simpl app in H]
       end.
  apply faults_first.
  eapply CreateGLTexture_faults_when_full; [exact H | reflexivity].
Qed.

(** X16.  [PrepareScene] cannot be run twice.  In a world where every
    texture file decodes, the first run on a freshly constructed scene
    manager registers 13 textures; the second registers 3 more and, at
    its fourth registration, writes through index 16: nothing resets
    [m_loadedTextures] and nothing checks it against the 16 entries. *)
Theorem PrepareScene_twice_out_of_bounds (pShaderManager : option N)
  (w : world) :
  this w = SceneManager_new pShaderManager ->
  (forall filename, decodes w filename = true) ->
  exists w1 issued1 issued2,
    Module7.PrepareScene w = Returns tt w1 issued1 /\
    m_loadedTextures (this w1) = 13 /\
    Module7.PrepareScene w1 = OutOfBounds 16 issued2.
Proof.
  intros Hnew Hfiles.
  assert (H0 : registered_tags [] pShaderManager (next_texture_name w) w).
  { split; [rewrite Hnew; reflexivity|]. split; [simpl; lia | exact Hfiles]. }
  destruct (LoadSceneTextures_registered _ _ w H0)
    as ([] & w1 & c & Hrun & Hw1).
  destruct (LoadSceneTextures_again _ _ w1 Hw1) as (c2 & Hfault).
  exists w1. eexists. exists c2. split; [|split].
  - unfold Module7.PrepareScene. unfold bind at 1. rewrite Hrun.
    reflexivity.
  - destruct Hw1 as (Hthis & _). rewrite Hthis. reflexivity.
  - unfold Module7.PrepareScene. unfold bind at 1. rewrite Hfault.
    reflexivity.
Qed.

End SecondPreparation.

Section FurtherWitnesses.
Import Symbolic Scenario.
Local Open Scope scene_scope.

Lemma FindTextureSlot_result_witness :
  m_loadedTextures (this after_A_B)
    <= Z.of_nat (length (m_textureIDs (this after_A_B))) /\
  0 <= FindTextureSlot (this after_A_B) "B"
    < m_loadedTextures (this after_A_B) /\
  no_match (this after_A_B) "C".
Proof.
  assert (Hlen : m_loadedTextures (this after_A_B)
                 <= Z.of_nat (length (m_textureIDs (this after_A_B)))).
  { vm_compute. discriminate. }
  split; [exact Hlen|]. split.
  - apply (proj2 (FindTextureSlot_result (this after_A_B) "B" Hlen)).
    vm_compute. discriminate.
  - apply (proj1 (proj1 (FindTextureSlot_result (this after_A_B) "C" Hlen))).
    reflexivity.
Defined.

Lemma CreateGLTexture_keeps_lookups_witness :
  CreateGLTexture "rgba.png" "A" after_A_B
  = Returns true (world_after (CreateGLTexture "rgba.png" "A") after_A_B)
      (calls_of (CreateGLTexture "rgba.png" "A") after_A_B) /\
  FindTextureSlot (this after_A_B) "A" <> -1 /\
  FindTextureSlot
    (this (world_after (CreateGLTexture "rgba.png" "A") after_A_B)) "A"
  = FindTextureSlot (this after_A_B) "A" /\
  FindTextureID
    (this (world_after (CreateGLTexture "rgba.png" "A") after_A_B)) "A"
  = FindTextureID (this after_A_B) "A".
Proof.
  split; [reflexivity|].
  assert (Hfound : FindTextureSlot (this after_A_B) "A" <> -1).
  { vm_compute. discriminate. }
  split; [exact Hfound|].
  exact (CreateGLTexture_keeps_lookups "rgba.png" "A" after_A_B _ _ "A"
           eq_refl (or_intror Hfound)).
Defined.

Lemma CreateGLTexture_round_trip_witness :
  CreateGLTexture "rgba.png" "C" after_A_B
  = Returns true (world_after (CreateGLTexture "rgba.png" "C") after_A_B)
      (calls_of (CreateGLTexture "rgba.png" "C") after_A_B) /\
  no_match (this after_A_B) "C" /\
  FindTextureSlot
    (this (world_after (CreateGLTexture "rgba.png" "C") after_A_B)) "C" = 2 /\
  FindTextureID
    (this (world_after (CreateGLTexture "rgba.png" "C") after_A_B)) "C" = 3.
Proof.
  split; [reflexivity|].
  assert (Hno : no_match (this after_A_B) "C").
  { apply after_A_B_no_match; discriminate. }
  split; [exact Hno|].
  destruct (CreateGLTexture_round_trip "rgba.png" "C" after_A_B _ _
              eq_refl Hno) as (Hslot & Hid & _).
  split; [exact Hslot | exact Hid].
Defined.

Lemma CreateGLTexture_release_witness :
  CreateGLTexture "none.jpg" "N" fresh
  = Returns false fresh (calls_of (CreateGLTexture "none.jpg" "N") fresh) /\
  filter is_gl_call (calls_of (CreateGLTexture "none.jpg" "N") fresh) = [] /\
  CreateGLTexture "grey.png" "G" fresh
  = Returns false (world_after (CreateGLTexture "grey.png" "G") fresh)
      (calls_of (CreateGLTexture "grey.png" "G") fresh) /\
  (stbi_image_free ∉ calls_of (CreateGLTexture "grey.png" "G") fresh) /\
  last (bound_textures (calls_of (CreateGLTexture "grey.png" "G") fresh))
  = Some 1.
Proof.
  split; [reflexivity|].
  pose proof (CreateGLTexture_release "none.jpg" "N" fresh _ false _ eq_refl)
    as Hnone.
  change (files fresh "none.jpg") with (disk "none.jpg") in Hnone.
  cbn [disk String.eqb Ascii.eqb Bool.eqb] in Hnone.
  destruct Hnone as (_ & _ & _ & Hgl & _).
  split; [exact Hgl|].
  split; [reflexivity|].
  pose proof (CreateGLTexture_release "grey.png" "G" fresh _ false _ eq_refl)
    as H.
  change (files fresh "grey.png") with (disk "grey.png") in H.
  cbn [disk String.eqb Ascii.eqb Bool.eqb] in H.
  destruct H as (_ & _ & Hfree & Hlast).
  split; [exact Hfree | exact Hlast].
Defined.

Lemma CreateGLTextures_capacity_16_witness :
  this fresh = SceneManager_new (Some 1%N) /\
  (exists w' issued,
     CreateGLTextures [("rgb.jpg", "A"); ("none.jpg", "N"); ("grey.png", "G")]
       fresh
     = Returns [true; false; false] w' issued /\
     m_loadedTextures (this w') = 1) /\
  (exists issued,
     CreateGLTextures (sixteen_calls ++ [("rgb.jpg", "Q")]) fresh
     = OutOfBounds 16 issued).
Proof.
  split; [reflexivity|]. split.
  - apply (proj1 (CreateGLTextures_capacity_16 (Some 1%N) fresh
                    [("rgb.jpg", "A"); ("none.jpg", "N"); ("grey.png", "G")]
                    eq_refl)).
    vm_compute. discriminate.
  - apply (proj2 (CreateGLTextures_capacity_16 (Some 1%N) fresh
                    (sixteen_calls ++ [("rgb.jpg", "Q")]) eq_refl)).
    vm_compute. reflexivity.
Defined.

Lemma after_A_B_in_bounds : registry_in_bounds (this after_A_B).
Proof. split; vm_compute; discriminate. Qed.

Lemma BindGLTextures_units_witness :
  registry_in_bounds (this after_A_B) /\
  exists issued,
    BindGLTextures after_A_B = Returns tt after_A_B issued /\
    issued = [glActiveTexture GL_TEXTURE0; glBindTexture GL_TEXTURE_2D 1;
              glActiveTexture (GL_TEXTURE0 + 1);
              glBindTexture GL_TEXTURE_2D 2] /\
    length issued = 4%nat.
Proof.
  split; [exact after_A_B_in_bounds|].
  destruct (BindGLTextures_units after_A_B after_A_B_in_bounds)
    as (issued & Hrun & Hcalls & Hlen & _).
  exists issued. split; [exact Hrun|]. split; [|exact Hlen].
  rewrite Hcalls. reflexivity.
Defined.

Lemma after_A_B_handles_generated : handles_generated after_A_B.
Proof.
  split; [reflexivity|]. intros i e [Hlt Hi].
  change (m_loadedTextures (this after_A_B)) with 2 in Hlt.
  destruct i as [|[|i]]; [| |lia];
    vm_compute in Hi; injection Hi as <-; split; reflexivity.
Qed.

Lemma DestroyGLTextures_overwrites_handles_witness :
  registry_in_bounds (this after_A_B) /\
  handles_generated after_A_B /\
  FindTextureID (this after_A_B) "B" = 2 /\
  exists w' issued,
    DestroyGLTextures after_A_B = Returns tt w' issued /\
    issued = [glGenTextures 1 3; glGenTextures 1 4] /\
    FindTextureSlot (this w') "B" = 1 /\
    FindTextureID (this w') "B" = 4 /\
    FindTextureID (this w') "B" <> FindTextureID (this after_A_B) "B".
Proof.
  split; [exact after_A_B_in_bounds|].
  split; [exact after_A_B_handles_generated|]. split; [reflexivity|].
  destruct (DestroyGLTextures_overwrites_handles after_A_B
              after_A_B_in_bounds)
    as (w' & issued & Hrun & Hcalls & _ & Hname & _ & Hslot & Hid & Hfresh).
  destruct (Hfresh after_A_B_handles_generated) as (_ & _ & Hother).
  exists w', issued. split; [exact Hrun|]. split; [|split; [|split]].
  - rewrite Hcalls. reflexivity.
  - rewrite Hslot. reflexivity.
  - rewrite (Hid "B" 1%nat _ after_A_B_first_match_B). reflexivity.
  - apply (Hother ltac:(rewrite Hname; vm_compute; discriminate)
             "B" 1%nat _ after_A_B_first_match_B).
Defined.

Lemma two_woods_first_material :
  first_material (m_objectMaterials (this two_woods)) "wood" 0 wood.
Proof.
  split; [reflexivity|]. split; [reflexivity|]. intros j e' Hj. lia.
Qed.

Lemma two_woods_no_glass (e : OBJECT_MATERIAL float) :
  e ∈ [wood; dark_wood] -> ObjectMaterial.tag e <> "glass".
Proof.
  rewrite !elem_of_cons. intros [->|[->|H]]; [discriminate | discriminate |].
  apply not_elem_of_nil in H. destruct H.
Qed.

Lemma FindMaterial_first_wins_witness :
  first_material (m_objectMaterials (this two_woods)) "wood" 0 wood /\
  FindMaterial (this two_woods) "wood" blank
  = (true,
     ObjectMaterial.mk
       (ObjectMaterial.ambientColor wood) (ObjectMaterial.ambientStrength wood)
       (ObjectMaterial.diffuseColor wood) (ObjectMaterial.specularColor wood)
       (ObjectMaterial.shininess wood) "").
Proof.
  split; [exact two_woods_first_material|].
  pose proof (FindMaterial_first_wins (this two_woods) "wood" blank 0 wood
                two_woods_first_material) as H.
  destruct (FindMaterial (this two_woods) "wood" blank) as [found material].
  destruct H as (-> & Ha & Hs & Hd & Hp & Hh & Ht).
  destruct material. simpl in *. subst. reflexivity.
Defined.

Lemma SetShaderMaterial_uploads_first_witness :
  m_pShaderManager (this two_woods) = Some 1%N /\
  SetShaderMaterial "wood" blank two_woods
  = Called (Returns tt two_woods (material_uploads wood)).
Proof.
  split; [reflexivity|].
  exact (SetShaderMaterial_uploads_first "wood" blank two_woods 1%N 0 wood
           eq_refl two_woods_first_material).
Defined.

Lemma SetShaderMaterial_without_match_witness :
  m_objectMaterials (this two_woods) <> [] /\
  SetShaderMaterial "wood" blank two_woods_no_shader = NullShaderManager /\
  SetShaderMaterial "glass" blank two_woods
  = Called (Returns tt two_woods (material_uploads blank)).
Proof.
  assert (Hne : m_objectMaterials (this two_woods) <> []) by discriminate.
  split; [exact Hne|]. split.
  - apply (proj1 (proj2 (SetShaderMaterial_without_match "wood" blank
                           two_woods_no_shader))); [discriminate|reflexivity].
  - apply (proj2 (proj2 (SetShaderMaterial_without_match "glass" blank
                           two_woods)) Hne two_woods_no_glass 1%N).
    reflexivity.
Defined.

Lemma MilestoneThree_SetShaderTexture_sampler_witness :
  m_pShaderManager (this after_A_B) = Some 1%N /\
  MilestoneThree.SetShaderTexture "marble" after_A_B
  = Returns tt after_A_B
      [setIntValue "bUseTexture" 1; setSampler2DValue "objectTexture" (-1)]
  /\
  MilestoneThree.SetShaderTexture "B" after_A_B
  = Returns tt after_A_B
      [setIntValue "bUseTexture" 1; setSampler2DValue "objectTexture" 1].
Proof.
  assert (Hlen : m_loadedTextures (this after_A_B)
                 <= Z.of_nat (length (m_textureIDs (this after_A_B)))).
  { vm_compute. discriminate. }
  split; [reflexivity|]. split.
  - apply (proj1 (MilestoneThree_SetShaderTexture_sampler after_A_B "marble"
                    1%N eq_refl Hlen)).
    apply after_A_B_no_match; discriminate.
  - apply (proj2 (MilestoneThree_SetShaderTexture_sampler after_A_B "B"
                    1%N eq_refl Hlen) 1%nat (TextureInfo.mk "B" 2)).
    exact after_A_B_first_match_B.
Defined.

Lemma all_rgb_decodes (filename : string) : decodes all_rgb filename = true.
Proof. reflexivity. Qed.

Lemma PrepareScene_stays_in_bounds_witness :
  this all_rgb = SceneManager_new (Some 1%N) /\
  (forall filename, decodes all_rgb filename = true) /\
  exists w' issued,
    Module7.PrepareScene all_rgb = Returns tt w' issued /\
    length (m_textureIDs (this w')) = 16%nat /\
    0 <= m_loadedTextures (this w') <= 13 /\
    m_loadedTextures (this w') = 13.
Proof.
  split; [reflexivity|]. split; [exact all_rgb_decodes|].
  destruct (PrepareScene_stays_in_bounds (Some 1%N) all_rgb eq_refl)
    as (w' & issued & Hrun & Hlen & Hbound).
  exists w', issued.
  split; [exact Hrun|]. split; [exact Hlen|]. split; [exact Hbound|].
  assert (Hw' : w' = world_after Module7.PrepareScene all_rgb).
  { unfold world_after. rewrite Hrun. reflexivity. }
  rewrite Hw'. vm_compute. reflexivity.
Defined.

Lemma PrepareScene_registers_scene_tags_witness :
  this all_rgb = SceneManager_new (Some 1%N) /\
  (forall filename, decodes all_rgb filename = true) /\
  returns (Module7.PrepareScene all_rgb) (fun _ w1 _ =>
    this w1 = loaded_with scene_tags (Some 1%N) 1 /\
    (fun tag => FindTextureSlot (this w1) tag) <$> scene_tags = seqZ 0 13 /\
    returns (Module7.RenderScene w1) (fun _ w2 issued =>
      w2 = w1 /\
      length (filter is_use_texture issued) = 35%nat /\
      length (filter is_sampler_upload issued) = 35%nat)).
Proof.
  split; [reflexivity|]. split; [exact all_rgb_decodes|].
  exact (PrepareScene_registers_scene_tags 1%N all_rgb eq_refl
           all_rgb_decodes).
Defined.

Lemma RenderScene_object_by_object_witness :
  m_pShaderManager (this loaded) <> None /\
  exists issued,
    Module7.RenderScene loaded = Returns tt loaded issued /\
    steps issued = concat (replicate 37 [Transform; Appearance; Draw]).
Proof.
  assert (Hshader : m_pShaderManager (this loaded) <> None).
  { vm_compute. discriminate. }
  split; [exact Hshader|].
  exact (proj1 (RenderScene_object_by_object loaded Hshader)).
Defined.

Lemma RenderScene_without_shader_witness :
  m_pShaderManager (this two_woods_no_shader) = None /\
  exists issued,
    Module7.RenderScene two_woods_no_shader
    = Returns tt two_woods_no_shader issued /\
    steps issued = replicate 37 Draw /\
    filter is_shader_call issued = [].
Proof.
  split; [reflexivity|].
  exact (proj1 (RenderScene_without_shader two_woods_no_shader eq_refl)).
Defined.

Lemma PrepareScene_twice_out_of_bounds_witness :
  this all_rgb = SceneManager_new (Some 1%N) /\
  (forall filename, decodes all_rgb filename = true) /\
  exists w1 issued1 issued2,
    Module7.PrepareScene all_rgb = Returns tt w1 issued1 /\
    m_loadedTextures (this w1) = 13 /\
    Module7.PrepareScene w1 = OutOfBounds 16 issued2.
Proof.
  split; [reflexivity|]. split; [exact all_rgb_decodes|].
  exact (PrepareScene_twice_out_of_bounds (Some 1%N) all_rgb eq_refl
           all_rgb_decodes).
Defined.

End FurtherWitnesses.
